(** * Progressive rollout controller: a shallow embedding

    The development embeds the decision logic of four Python classes,
    [CanaryAnalyzer] (src/deployment/canary_analyzer.py),
    [RollbackHandler] (src/deployment/rollback_handler.py),
    [AIAnomalyDetector] (src/monitoring/ai_anomaly_detector.py) and
    [AlertManager] (src/monitoring/alert_manager.py), and proves the
    properties the specification states about them.

    Conventions of the embedding.
    - Python numbers are rationals ([Q]); equalities between computed numbers
      are stated with [==].  Rounding of binary floating point is outside the
      model.
    - A Python exception is a value of [exn]; a function that may raise
      returns a [result].  Code that mutates an object threads the object
      through explicitly, and keeps the mutation when an exception escapes.
    - A [dict] indexed with [d[k]] is a [gmap] (or an [option] field for a
      top-level configuration key); a missing key is [KeyError].
    - [datetime.now()] reads a clock: the n-th read of a run returns
      [clock n], in microseconds since 1970-01-01T00:00:00.  A [datetime]
      lies between the years 1 and 9999, and arithmetic that leaves this
      range raises [OverflowError]. *)

From Stdlib Require Import ZArith QArith Qabs Lqa List String Bool Lia.
From stdpp Require Import gmap strings list pretty.

Local Open Scope Z_scope.
Local Open Scope string_scope.
Local Open Scope list_scope.

(** ** Python runtime: exceptions, results, numbers *)

Module Py.

Inductive exn : Type :=
| KeyError (key : string)
| ZeroDivisionError
| OverflowError (message : string)
| Raised (message : string).

Inductive result (A : Type) : Type :=
| Ok (value : A)
| Err (e : exn).
Arguments Ok {A} value.
Arguments Err {A} e.

Definition bind {A B} (r : result A) (k : A -> result B) : result B :=
  match r with
  | Ok a => k a
  | Err e => Err e
  end.

(** [d[k]] on a dictionary. *)
Definition getitem {V} (d : gmap string V) (k : string) : result V :=
  match d !! k with
  | Some v => Ok v
  | None => Err (KeyError k)
  end.

(** [config[k]] on a top-level configuration key. *)
Definition require {V} (k : string) (field : option V) : result V :=
  match field with
  | Some v => Ok v
  | None => Err (KeyError k)
  end.

(** [x / y]: division by zero raises. *)
Definition div (x y : Q) : result Q :=
  if Qeq_bool y 0 then Err ZeroDivisionError else Ok (x / y)%Q.

(** [str(e)] *)
Definition str (e : exn) : string :=
  match e with
  | KeyError k => "'" ++ k ++ "'"
  | ZeroDivisionError => "division by zero"
  | OverflowError m => m
  | Raised m => m
  end.

(** [x > y] and [x >= y] on numbers. *)
Definition gt (x y : Q) : bool := negb (Qle_bool x y).
Definition ge (x y : Q) : bool := Qle_bool y x.
Definition lt (x y : Q) : bool := negb (Qle_bool y x).

(** [max(a, b)] returns [b] only when [b > a]; [min(a, b)] returns [b]
    only when [b < a]. *)
Definition max (a b : Q) : Q := if gt b a then b else a.
Definition min (a b : Q) : Q := if lt b a then b else a.

(** *** Code with effects

    A computation over a mutable store [S] returns the store it leaves
    behind together with its result; a raised exception keeps the
    mutations made before it. *)
Definition M (S A : Type) : Type := S -> S * result A.

Definition ret {S A} (a : A) : M S A := fun s => (s, Ok a).
Definition lift {S A} (r : result A) : M S A := fun s => (s, r).

Definition bindM {S A B} (m : M S A) (k : A -> M S B) : M S B :=
  fun s =>
    match m s with
    | (s', Ok a) => k a s'
    | (s', Err e) => (s', Err e)
    end.

Definition gets {S A} (f : S -> A) : M S A := fun s => (s, Ok (f s)).
Definition modify {S} (f : S -> S) : M S unit := fun s => (f s, Ok tt).

(** [try: m  except Exception as e: handler e] *)
Definition try_except {S A} (m : M S A) (handler : exn -> M S A) : M S A :=
  fun s =>
    match m s with
    | (s', Ok a) => (s', Ok a)
    | (s', Err e) => handler e s'
    end.

End Py.

Export Py.

Declare Scope py_scope.
Delimit Scope py_scope with py.
Notation "'let!' x ':=' e 'in' k" := (Py.bind e (fun x => k))
  (at level 10, x name, e at level 200, k at level 200) : py_scope.
Notation "'do!' x ':=' e 'in' k" := (Py.bindM e (fun x => k))
  (at level 10, x name, e at level 200, k at level 200) : py_scope.
Local Open Scope py_scope.

(** ** src/deployment/canary_analyzer.py *)

Module CanaryAnalyzer.

(** The strings ['insignificant'], ['low'], ['medium'], ['high']. *)
Inductive Impact : Type := Insignificant | Low | Medium | High.

(** The keys of [self.config] the analyzer reads. *)
Record Config : Type := {
  thresholds : option (gmap string Q);
  impact_thresholds : option (gmap string Q);
  promotion_threshold : option Q;
  confidence_weights : option (gmap string Q)
}.

(** What [_collect_baseline_metrics] builds.  The three sections are filled
    in order inside one [try]; a failed collection leaves the later ones
    out. *)
Record PerformanceMetrics : Type := {
  latency : Q; throughput : Q; success_rate : Q
}.
Record ResourceMetrics : Type := {
  cpu_usage : Q; memory_usage : Q; network_io : Q
}.
Record ErrorMetrics : Type := {
  error_rate : Q; error_types : list string
}.
Record Metrics : Type := {
  performance : option PerformanceMetrics;
  resources : option ResourceMetrics;
  errors : option ErrorMetrics
}.

(** One compared metric: the dictionary with keys
    ['difference_percentage'], ['significant'], ['impact']. *)
Record MetricAnalysis : Type := {
  difference_percentage : Q;
  significant : bool;
  impact : Impact
}.

Record ErrorTypesAnalysis : Type := {
  new_errors : list string;
  resolved_errors : list string;
  error_types_impact : Impact
}.

Record PerformanceAnalysis : Type := {
  an_latency : MetricAnalysis;
  an_throughput : MetricAnalysis;
  an_success_rate : MetricAnalysis
}.
Record ErrorAnalysis : Type := {
  an_error_rate : MetricAnalysis;
  an_error_types : ErrorTypesAnalysis
}.
Record ResourceAnalysis : Type := {
  an_cpu : MetricAnalysis;
  an_memory : MetricAnalysis
}.

(** Modelled from the spec: [_calculate_metric_difference] is called by the
    three analyses but defined nowhere in the repository.  The spec gives
    [(canary - baseline) / baseline * 100], defined as 0 when the baseline
    is 0. *)
Definition _calculate_metric_difference (baseline canary : Q) : result Q :=
  if Qeq_bool baseline 0 then Ok 0%Q
  else let! ratio := Py.div (canary - baseline)%Q baseline in
       Ok (ratio * 100)%Q.

Definition default_impact_thresholds : gmap string Q :=
  {[ "high" := 20%Q; "medium" := 10%Q; "low" := 5%Q ]}.

Definition _determine_impact_level (config : Config) (difference : Q)
  : result Impact :=
  let thresholds :=
    default default_impact_thresholds (impact_thresholds config) in
  let abs_diff := Qabs difference in
  let! high := getitem thresholds "high" in
  if Py.gt abs_diff high then Ok High else
  let! medium := getitem thresholds "medium" in
  if Py.gt abs_diff medium then Ok Medium else
  let! low := getitem thresholds "low" in
  if Py.gt abs_diff low then Ok Low else
  Ok Insignificant.

(** The dictionary display each analysis builds for one metric, its values
    evaluated in order: the difference, the comparison against
    [config['thresholds'][name]], the impact level. *)
Definition metric_entry (config : Config) (name : string) (diff : Q)
  : result MetricAnalysis :=
  let! per_metric := require "thresholds" (thresholds config) in
  let! threshold := getitem per_metric name in
  let! level := _determine_impact_level config diff in
  Ok {| difference_percentage := diff;
        significant := Py.gt (Qabs diff) threshold;
        impact := level |}.

Definition _analyze_performance (config : Config)
    (baseline_metrics canary_metrics : Metrics) : result PerformanceAnalysis :=
  let! b := require "performance" (performance baseline_metrics) in
  let! c := require "performance" (performance canary_metrics) in
  let! latency_diff := _calculate_metric_difference (latency b) (latency c) in
  let! e_latency := metric_entry config "latency" latency_diff in
  let! throughput_diff :=
    _calculate_metric_difference (throughput b) (throughput c) in
  let! e_throughput := metric_entry config "throughput" throughput_diff in
  let! success_rate_diff :=
    _calculate_metric_difference (success_rate b) (success_rate c) in
  let! e_success := metric_entry config "success_rate" success_rate_diff in
  Ok {| an_latency := e_latency;
        an_throughput := e_throughput;
        an_success_rate := e_success |}.

Definition _analyze_resources (config : Config)
    (baseline_metrics canary_metrics : Metrics) : result ResourceAnalysis :=
  let! b := require "resources" (resources baseline_metrics) in
  let! c := require "resources" (resources canary_metrics) in
  let! cpu_diff := _calculate_metric_difference (cpu_usage b) (cpu_usage c) in
  let! e_cpu := metric_entry config "cpu" cpu_diff in
  let! memory_diff :=
    _calculate_metric_difference (memory_usage b) (memory_usage c) in
  let! e_memory := metric_entry config "memory" memory_diff in
  Ok {| an_cpu := e_cpu; an_memory := e_memory |}.

Section ErrorTypes.

(** [_analyze_error_types] is not defined in the repository; it is a
    parameter of the error analysis. *)
Variable _analyze_error_types :
  list string -> list string -> result ErrorTypesAnalysis.

Definition _analyze_errors (config : Config)
    (baseline_metrics canary_metrics : Metrics) : result ErrorAnalysis :=
  let! b := require "errors" (errors baseline_metrics) in
  let! c := require "errors" (errors canary_metrics) in
  let! error_rate_diff :=
    _calculate_metric_difference (error_rate b) (error_rate c) in
  let! e_rate := metric_entry config "error_rate" error_rate_diff in
  let! types := _analyze_error_types (error_types b) (error_types c) in
  Ok {| an_error_rate := e_rate; an_error_types := types |}.

End ErrorTypes.

(** [decision_metrics]: a dictionary display with four fixed keys. *)
Record DecisionMetrics : Type := {
  performance_score : Q;
  error_score : Q;
  resource_score : Q;
  user_impact_score : Q
}.

(** [decision_metrics.items()], in insertion order. *)
Definition items (decision_metrics : DecisionMetrics) : list (string * Q) :=
  [ ("performance_score", performance_score decision_metrics);
    ("error_score", error_score decision_metrics);
    ("resource_score", resource_score decision_metrics);
    ("user_impact_score", user_impact_score decision_metrics) ].

Definition default_confidence_weights : gmap string Q :=
  {[ "performance_score" := (4 # 10)%Q;
     "error_score" := (3 # 10)%Q;
     "resource_score" := (2 # 10)%Q;
     "user_impact_score" := (1 # 10)%Q ]}.

(** [sum(score * weights[metric] for metric, score in ...)], the running
    total in [acc]. *)
Fixpoint weighted_sum (weights : gmap string Q) (entries : list (string * Q))
    (acc : Q) : result Q :=
  match entries with
  | [] => Ok acc
  | (metric, score) :: rest =>
      let! weight := getitem weights metric in
      weighted_sum weights rest (acc + score * weight)%Q
  end.

Definition _calculate_decision_confidence (config : Config)
    (decision_metrics : DecisionMetrics) : result Q :=
  let weights :=
    default default_confidence_weights (confidence_weights config) in
  let! confidence := weighted_sum weights (items decision_metrics) 0%Q in
  Ok (Py.min 1 (Py.max 0 confidence)).

Record Decision : Type := {
  promote : bool;
  overall_score : Q;
  metrics_scores : DecisionMetrics;
  confidence : Q;
  reasons : list string
}.

Section Decide.

(** The result of [_analyze_user_impact], and the helpers
    [_make_promotion_decision] calls: none of them is defined in the
    repository, so the decision is embedded over arbitrary ones. *)
Context {UserImpactAnalysis : Type}.

Record AnalysisResults : Type := {
  performance_analysis : PerformanceAnalysis;
  error_analysis : ErrorAnalysis;
  resource_analysis : ResourceAnalysis;
  user_impact_analysis : UserImpactAnalysis
}.

Variable _calculate_performance_score : PerformanceAnalysis -> result Q.
Variable _calculate_error_score : ErrorAnalysis -> result Q.
Variable _calculate_resource_score : ResourceAnalysis -> result Q.
Variable _calculate_user_impact_score : UserImpactAnalysis -> result Q.
Variable _calculate_overall_score : Config -> DecisionMetrics -> result Q.
Variable _generate_decision_reasons :
  bool -> DecisionMetrics -> AnalysisResults -> result (list string).

Definition _make_promotion_decision (config : Config)
    (analysis_results : AnalysisResults) : result Decision :=
  let! s_performance :=
    _calculate_performance_score (performance_analysis analysis_results) in
  let! s_error := _calculate_error_score (error_analysis analysis_results) in
  let! s_resource :=
    _calculate_resource_score (resource_analysis analysis_results) in
  let! s_user :=
    _calculate_user_impact_score (user_impact_analysis analysis_results) in
  let decision_metrics :=
    {| performance_score := s_performance;
       error_score := s_error;
       resource_score := s_resource;
       user_impact_score := s_user |} in
  let! score := _calculate_overall_score config decision_metrics in
  let! threshold :=
    require "promotion_threshold" (promotion_threshold config) in
  let should_promote := Py.ge score threshold in
  let! certainty := _calculate_decision_confidence config decision_metrics in
  let! why :=
    _generate_decision_reasons should_promote decision_metrics
      analysis_results in
  Ok {| promote := should_promote;
        overall_score := score;
        metrics_scores := decision_metrics;
        confidence := certainty;
        reasons := why |}.

End Decide.
Arguments AnalysisResults : clear implicits.

(** *** The scoring helpers, from the specification *)

(** Modelled from the spec: the penalty of the worst significant impact of
    a category, insignificant 0, low 0.25, medium 0.5, high 1.0.  The
    repository defines no per-category scoring function. *)
Definition penalty (level : Impact) : Q :=
  match level with
  | Insignificant => 0
  | Low => 1 # 4
  | Medium => 1 # 2
  | High => 1
  end.

Definition impact_rank (level : Impact) : nat :=
  match level with
  | Insignificant => 0
  | Low => 1
  | Medium => 2
  | High => 3
  end.

Definition worse (a b : Impact) : Impact :=
  if (impact_rank a <? impact_rank b)%nat then b else a.

(** Modelled from the spec: the worst impact among the entries of a
    category that are flagged significant; insignificant when none is. *)
Fixpoint worst_significant_impact (entries : list MetricAnalysis) : Impact :=
  match entries with
  | [] => Insignificant
  | entry :: rest =>
      if significant entry
      then worse (impact entry) (worst_significant_impact rest)
      else worst_significant_impact rest
  end.

(** Modelled from the spec: per-category score, 1.0 minus the penalty of
    the worst significant impact, clamped to [0,1]. *)
Definition category_score (worst : Impact) : Q :=
  Py.min 1 (Py.max 0 (1 - penalty worst)).

(** Modelled from the spec: [_calculate_performance_score],
    [_calculate_error_score], [_calculate_resource_score] and
    [_calculate_user_impact_score] are called by the decision and defined
    nowhere; each scores the compared metrics of its category.  The
    user-impact analysis, whose producer is missing as well, is taken to be
    a list of compared metrics. *)
Definition performance_entries (a : PerformanceAnalysis) : list MetricAnalysis :=
  [an_latency a; an_throughput a; an_success_rate a].
Definition error_entries (a : ErrorAnalysis) : list MetricAnalysis :=
  [an_error_rate a].
Definition resource_entries (a : ResourceAnalysis) : list MetricAnalysis :=
  [an_cpu a; an_memory a].

Definition _calculate_performance_score (a : PerformanceAnalysis) : result Q :=
  Ok (category_score (worst_significant_impact (performance_entries a))).
Definition _calculate_error_score (a : ErrorAnalysis) : result Q :=
  Ok (category_score (worst_significant_impact (error_entries a))).
Definition _calculate_resource_score (a : ResourceAnalysis) : result Q :=
  Ok (category_score (worst_significant_impact (resource_entries a))).
Definition _calculate_user_impact_score (a : list MetricAnalysis) : result Q :=
  Ok (category_score (worst_significant_impact a)).

(** Modelled from the spec: [_calculate_overall_score] is defined nowhere.
    The spec gives the weighted sum of the category scores under the
    configured weights, clamped to [0,1], and states that the confidence
    is the same computation. *)
Definition _calculate_overall_score (config : Config)
    (decision_metrics : DecisionMetrics) : result Q :=
  let weights :=
    default default_confidence_weights (confidence_weights config) in
  let! total := weighted_sum weights (items decision_metrics) 0%Q in
  Ok (Py.min 1 (Py.max 0 total)).

(** The decision with the spec's scoring helpers plugged in; the reasons
    generator stays a parameter. *)
Definition decide_promotion
    (reasons_of : bool -> DecisionMetrics ->
                  AnalysisResults (list MetricAnalysis) -> result (list string))
    (config : Config) (analysis_results : AnalysisResults (list MetricAnalysis))
  : result Decision :=
  _make_promotion_decision
    _calculate_performance_score _calculate_error_score
    _calculate_resource_score _calculate_user_impact_score
    _calculate_overall_score reasons_of config analysis_results.

End CanaryAnalyzer.

(** ** src/deployment/rollback_handler.py *)

Module RollbackHandler.

(** The calls the handler makes on its collaborators, in the order they
    happen.  The trace is bookkeeping of the embedding: it lets a theorem
    say which calls were made. *)
Inductive Event (Step : Type) : Type :=
| CanRollback
| GetPreviousState
| ExecuteStep (step : Step)
| VerifyRollback
| RecordRollback.
Arguments CanRollback {Step}.
Arguments GetPreviousState {Step}.
Arguments ExecuteStep {Step} step.
Arguments VerifyRollback {Step}.
Arguments RecordRollback {Step}.

(** The dictionary a step leaves in [results]: the keys ['step'],
    ['success'] and ['error'], each possibly missing. *)
Record StepResult (Step : Type) : Type := {
  step : option Step;
  success : option bool;
  error : option string
}.
Arguments step {Step} _.
Arguments success {Step} _.
Arguments error {Step} _.

Record RollbackResult (Step : Type) : Type := {
  steps_executed : nat;
  rollback_success : bool;
  results : list (StepResult Step)
}.
Arguments steps_executed {Step} _.
Arguments rollback_success {Step} _.
Arguments results {Step} _.

Record RollbackPlan (PreviousState Step Points : Type) : Type := {
  previous_state : PreviousState;
  rollback_steps : list Step;
  verification_points : Points
}.
Arguments previous_state {PreviousState Step Points} _.
Arguments rollback_steps {PreviousState Step Points} _.
Arguments verification_points {PreviousState Step Points} _.

(** What [handle_rollback] returns. *)
Inductive Response (Step Metadata Verification Report : Type) : Type :=
| NotPossible
| Completed (status : string) (original_deployment : Metadata)
    (rollback_result : RollbackResult Step) (verification : Verification)
| ErrorResponse (report : Report).
Arguments NotPossible {Step Metadata Verification Report}.
Arguments Completed {Step Metadata Verification Report}
  status original_deployment rollback_result verification.
Arguments ErrorResponse {Step Metadata Verification Report} report.

Section Handler.

(** The cluster the handler acts on, and the dictionaries whose contents
    the handler only passes along. *)
Context {World DeploymentData PreviousState Step Points
         Metadata Verification Report : Type}.

(** The store of a run: the cluster and the calls made so far. *)
Definition Run : Type := (World * list (Event Step))%type.

(** The methods [handle_rollback] calls that the repository does not
    define.  The awaited ones act on the cluster. *)
Variable _can_rollback : DeploymentData -> World -> World * result bool.
Variable _get_previous_state :
  DeploymentData -> World -> World * result PreviousState.
Variable _generate_rollback_steps :
  DeploymentData -> PreviousState -> result (list Step).
Variable _generate_verification_points : PreviousState -> result Points.
Variable _execute_rollback_step :
  Step -> World -> World * result (StepResult Step).
Variable _verify_rollback :
  DeploymentData -> RollbackResult Step -> World ->
  World * result Verification.
Variable _record_rollback :
  DeploymentData -> string -> RollbackResult Step -> Verification ->
  World -> World * result unit.
Variable _generate_error_response : string -> result Report.
(** [deployment_data['metadata']] and [verification['success']] *)
Variable metadata : DeploymentData -> option Metadata.
Variable verification_success : Verification -> option bool.

(** An awaited collaborator call, entered in the trace. *)
Definition call {A} (event : Event Step) (action : World -> World * result A)
  : M Run A :=
  fun '(world, trace) =>
    let '(world', outcome) := action world in
    ((world', trace ++ [event]), outcome).

Definition _prepare_rollback (deployment_data : DeploymentData)
  : M Run (RollbackPlan PreviousState Step Points) :=
  do! state := call GetPreviousState (_get_previous_state deployment_data) in
  do! steps := lift (_generate_rollback_steps deployment_data state) in
  do! points := lift (_generate_verification_points state) in
  ret {| previous_state := state;
         rollback_steps := steps;
         verification_points := points |}.

(** The dictionary the [except] branch of the loop appends. *)
Definition failure (s : Step) (e : exn) : StepResult Step :=
  {| step := Some s; success := Some false; error := Some (Py.str e) |}.

(** The [for] loop of [_execute_rollback]: [done] is [results] so far.
    Reading ['success'] from a result that lacks the key raises inside
    the [try], after the result was appended. *)
Fixpoint run_steps (steps : list Step) (done : list (StepResult Step))
  : M Run (list (StepResult Step)) :=
  match steps with
  | [] => ret done
  | s :: rest =>
      fun run =>
        match call (ExecuteStep s) (_execute_rollback_step s) run with
        | (run', Ok result) =>
            match success result with
            | Some true => run_steps rest (done ++ [result]) run'
            | Some false => (run', Ok (done ++ [result]))
            | None =>
                (run', Ok (done ++ [result]
                                ++ [failure s (KeyError "success")]))
            end
        | (run', Err e) => (run', Ok (done ++ [failure s e]))
        end
  end.

(** [all(r['success'] for r in results)] *)
Fixpoint all_success (rs : list (StepResult Step)) : result bool :=
  match rs with
  | [] => Ok true
  | r :: rest =>
      match success r with
      | Some true => all_success rest
      | Some false => Ok false
      | None => Err (KeyError "success")
      end
  end.

Definition _execute_rollback
    (rollback_plan : RollbackPlan PreviousState Step Points)
  : M Run (RollbackResult Step) :=
  do! rs := run_steps (rollback_steps rollback_plan) [] in
  do! ok := lift (all_success rs) in
  ret {| steps_executed := length rs;
         rollback_success := ok;
         results := rs |}.

Definition handle_rollback (deployment_data : DeploymentData)
    (reason : string)
  : M Run (Response Step Metadata Verification Report) :=
  try_except
    (do! possible := call CanRollback (_can_rollback deployment_data) in
     if negb possible then ret NotPossible else
     do! rollback_plan := _prepare_rollback deployment_data in
     do! rollback_result := _execute_rollback rollback_plan in
     do! verification :=
       call VerifyRollback (_verify_rollback deployment_data rollback_result) in
     do! _r := call RecordRollback
                (_record_rollback deployment_data reason rollback_result
                   verification) in
     do! verified :=
       lift (require "success" (verification_success verification)) in
     do! original :=
       lift (require "metadata" (metadata deployment_data)) in
     ret (Completed (if verified then "success" else "failed")
            original rollback_result verification))
    (fun e =>
       do! report := lift (_generate_error_response (Py.str e)) in
       ret (ErrorResponse report)).

End Handler.

End RollbackHandler.

(** ** src/monitoring/ai_anomaly_detector.py *)

Module AIAnomalyDetector.

Record Config : Type := {
  anomaly_threshold : option Q;
  training_period_days : option Z;
  minimum_datapoints : option Z;
  sensitivity : option Q
}.

(** One entry of a history window. *)
Record Point : Type := { timestamp : Z; value : Q }.

(** The dictionary [_check_metric_anomaly] returns. *)
Record Anomaly : Type := {
  metric : string;
  current_value : Q;
  severity : string;
  confidence : Q;
  detected_at : Z;
  suggested_actions : list string
}.

(** The detector object: [self.history], and how many times the clock was
    read. *)
Record Detector : Type := {
  history : gmap string (list Point);
  reads : nat
}.

Definition set_history (f : gmap string (list Point) -> gmap string (list Point))
    (d : Detector) : Detector :=
  {| history := f (history d); reads := reads d |}.

(** The length of [d] days, in microseconds. *)
Definition timedelta_days (d : Z) : Z := d * 86400000000.

(** [datetime.min] and [datetime.max], 0001-01-01T00:00:00 and
    9999-12-31T23:59:59.999999. *)
Definition datetime_min : Z := -62135596800000000.
Definition datetime_max : Z := 253402300799999999.

(** The constructor [timedelta(days=d)] accepts at most 999999999 days in
    either direction, and raises [OverflowError] beyond; the text of the
    error depends on whether the day count fits a C [int]. *)
Definition timedelta (d : Z) : result Z :=
  if (Z.abs d <=? 999999999)%Z then Ok (timedelta_days d)
  else if ((-2147483648 <=? d) && (d <=? 2147483647))%Z then
    Err (OverflowError
           ("days=" ++ pretty d ++ "; must have magnitude <= 999999999"))
  else Err (OverflowError "Python int too large to convert to C int").

(** [t - delta] for a [datetime] and a [timedelta]: the result has to be
    a [datetime] again. *)
Definition datetime_sub (t delta : Z) : result Z :=
  let difference := t - delta in
  if ((datetime_min <=? difference) && (difference <=? datetime_max))%Z
  then Ok difference
  else Err (OverflowError "date value out of range").

Definition _calculate_severity (anomaly_score : Q) : string :=
  let score := Qabs anomaly_score in
  if Py.gt score (8 # 10) then "critical"
  else if Py.gt score (6 # 10) then "high"
  else if Py.gt score (4 # 10) then "medium"
  else "low".

Definition _calculate_confidence (anomaly_score : Q) : Q :=
  Py.min (Qabs anomaly_score * 100) (999 # 10).

Definition _suggest_actions (metric_name : string) (value : Q)
    (severity : string) : list string :=
  let actions :=
    if String.eqb metric_name "cpu_usage" then
      if Py.gt value 90 then
        [ "Scale up the service horizontally";
          "Check for CPU-intensive processes";
          "Review recent deployments";
          "Analyze application profiling data" ]
      else if Py.lt value 10 then
        [ "Consider scaling down to optimize resources";
          "Check for service availability";
          "Verify monitoring setup" ]
      else []
    else if String.eqb metric_name "memory_usage" then
      if Py.gt value 85 then
        [ "Investigate potential memory leaks";
          "Consider increasing memory allocation";
          "Review garbage collection metrics";
          "Analyze heap dumps" ]
      else []
    else if String.eqb metric_name "error_rate" then
      if Py.gt value 5 then
        [ "Review error logs";
          "Check dependent services";
          "Analyze recent changes";
          "Consider rolling back recent deployment" ]
      else []
    else [] in
  if String.eqb severity "critical" then
    actions ++ [ "Escalate to on-call team immediately";
                 "Prepare incident response";
                 "Consider automated remediation" ]
  else if String.eqb severity "high" then
    actions ++ [ "Monitor closely for next hour";
                 "Prepare for potential escalation";
                 "Review related metrics" ]
  else actions.

Section Detect.

(** [datetime.now()], by read number. *)
Variable clock : nat -> Z.

(** [self.model.fit(X)] on the window's values followed by
    [self.model.score_samples([[current_value]])[0]]: the isolation
    forest of scikit-learn, which may raise. *)
Variable score_samples : list Q -> Q -> result Q.

Variable config : Config.

Definition now : M Detector Z :=
  fun d => ({| history := history d; reads := S (reads d) |},
            Ok (clock (reads d))).

(** [self.history[metric_name]] *)
Definition window (metric_name : string) : M Detector (list Point) :=
  fun d => (d, getitem (history d) metric_name).

Definition _check_metric_anomaly (metric_name : string) (current_value : Q)
  : M Detector (option Anomaly) :=
  do! points := window metric_name in
  let historical_values := map value points in
  do! anomaly_score :=
    lift (score_samples historical_values current_value) in
  do! threshold :=
    lift (require "anomaly_threshold" (anomaly_threshold config)) in
  if Py.lt anomaly_score (- threshold) then
    let severity := _calculate_severity anomaly_score in
    let confidence := _calculate_confidence anomaly_score in
    do! stamp := now in
    ret (Some {| metric := metric_name;
                 current_value := current_value;
                 severity := severity;
                 confidence := confidence;
                 detected_at := stamp;
                 suggested_actions :=
                   _suggest_actions metric_name current_value severity |})
  else ret None.

(** The body of the [for] loop of [detect_anomalies], for one entry of
    [metrics]; it yields the anomaly the iteration appends, if any. *)
Definition observe (current_time : Z) (metric_name : string) (v : Q)
  : M Detector (option Anomaly) :=
  do! _a := modify (set_history (fun h =>
    <[metric_name :=
        default [] (h !! metric_name)
          ++ [{| timestamp := current_time; value := v |}]]> h)) in
  do! days :=
    lift (require "training_period_days" (training_period_days config)) in
  do! retention := lift (timedelta days) in
  do! cutoff_time := lift (datetime_sub current_time retention) in
  do! points := window metric_name in
  do! _b := modify (set_history (fun h =>
    <[metric_name :=
        List.filter (fun point => (timestamp point >? cutoff_time)%Z) points]> h)) in
  do! kept := window metric_name in
  do! minimum :=
    lift (require "minimum_datapoints" (minimum_datapoints config)) in
  if (Z.of_nat (length kept) >=? minimum)%Z
  then _check_metric_anomaly metric_name v
  else ret None.

(** The loop over [metrics.items()]; [anomalies] is the list so far. *)
Fixpoint observe_all (current_time : Z) (metrics : list (string * Q))
    (anomalies : list Anomaly) : M Detector (list Anomaly) :=
  match metrics with
  | [] => ret anomalies
  | (metric_name, v) :: rest =>
      do! found := observe current_time metric_name v in
      observe_all current_time rest
        (match found with
         | Some anomaly => anomalies ++ [anomaly]
         | None => anomalies
         end)
  end.

(** [metrics] is a dictionary: its items, in insertion order, have
    pairwise distinct names. *)
Definition detect_anomalies (metrics : list (string * Q))
  : M Detector (list Anomaly) :=
  do! current_time := now in
  observe_all current_time metrics [].

End Detect.

End AIAnomalyDetector.

(** ** src/monitoring/alert_manager.py *)

Module AlertManager.

Import AIAnomalyDetector.

(** One entry of [config['alert_channels']]. *)
Record Channel : Type := { severity_levels_of : option (list string) }.

Record Config : Type := {
  alert_cooldown : option Q;
  minimum_severity : option string;
  notification_templates : option (gmap string string);
  alert_channels : option (list (string * Channel))
}.

(** The dictionary [_create_alert] builds.  [alert_id] is the clock read
    that the ['id'] string is formatted from. *)
Record Alert : Type := {
  alert_id : Z;
  alert_metric : string;
  alert_value : Q;
  alert_severity : string;
  alert_confidence : Q;
  alert_timestamp : Z;
  description : string;
  actions : list string
}.

(** The manager object: [self.alert_history], the clock reads made, and
    the alerts handed to a channel so far ([outbox], bookkeeping of the
    embedding). *)
Record Manager : Type := {
  alert_history : list Alert;
  clock_reads : nat;
  outbox : list (string * Alert)
}.

Definition severity_levels : gmap string Z :=
  {[ "critical" := 4; "high" := 3; "medium" := 2; "low" := 1 ]}.

(** [timedelta.total_seconds()] of a difference in microseconds. *)
Definition total_seconds (delta : Z) : Q := (inject_Z delta / 1000000)%Q.

Section Manage.

Variable clock : nat -> Z.
Variable config : Config.

Definition now : M Manager Z :=
  fun m => ({| alert_history := alert_history m;
               clock_reads := S (clock_reads m);
               outbox := outbox m |},
            Ok (clock (clock_reads m))).

(** The list comprehension of [_should_alert] over the alerts of the
    history: the clock and the cooldown are read only for an alert of the
    same metric. *)
Fixpoint recent_alerts (anomaly : Anomaly) (alerts : list Alert)
  : M Manager (list Alert) :=
  match alerts with
  | [] => ret []
  | alert :: rest =>
      if String.eqb (alert_metric alert) (metric anomaly) then
        do! t := now in
        do! cooldown :=
          lift (require "alert_cooldown" (alert_cooldown config)) in
        do! others := recent_alerts anomaly rest in
        ret (if Py.lt (total_seconds (t - alert_timestamp alert)) cooldown
             then alert :: others else others)
      else recent_alerts anomaly rest
  end.

Definition _should_alert (anomaly : Anomaly) : M Manager bool :=
  do! past := gets alert_history in
  do! recent := recent_alerts anomaly past in
  match recent with
  | _ :: _ => ret false
  | [] =>
      do! level := lift (getitem severity_levels (severity anomaly)) in
      do! least :=
        lift (require "minimum_severity" (minimum_severity config)) in
      do! floor := lift (getitem severity_levels least) in
      ret (level >=? floor)%Z
  end.

Definition _generate_alert_description (anomaly : Anomaly) : result string :=
  let! templates :=
    require "notification_templates" (notification_templates config) in
  let! fallback := getitem templates "default" in
  Ok (default fallback (templates !! severity anomaly)).

Definition _create_alert (anomaly : Anomaly) : M Manager Alert :=
  do! t_id := now in
  do! t_stamp := now in
  do! text := lift (_generate_alert_description anomaly) in
  ret {| alert_id := t_id;
         alert_metric := metric anomaly;
         alert_value := current_value anomaly;
         alert_severity := severity anomaly;
         alert_confidence := confidence anomaly;
         alert_timestamp := t_stamp;
         description := text;
         actions := suggested_actions anomaly |}.

Definition _is_channel_appropriate (channel : Channel) (sev : string)
  : result bool :=
  let! levels := require "severity_levels" (severity_levels_of channel) in
  Ok (bool_decide (sev ∈ levels)).

(** The loop of [_send_alerts] that collects the tasks: the channels the
    alert goes to.  A channel entry without ['severity_levels'] raises
    before any task runs. *)
Fixpoint appropriate_channels (channels : list (string * Channel))
    (sev : string) : result (list string) :=
  match channels with
  | [] => Ok []
  | (name, channel) :: rest =>
      let! fits := _is_channel_appropriate channel sev in
      let! others := appropriate_channels rest sev in
      Ok (if fits then name :: others else others)
  end.

(** [asyncio.gather] runs one [_send_to_channel] per task;
    [_send_to_channel] swallows every delivery error, so a task always
    completes.  The embedding records the hand-over. *)
Definition _send_alerts (alert : Alert) : M Manager unit :=
  do! channels :=
    lift (require "alert_channels" (alert_channels config)) in
  do! tasks := lift (appropriate_channels channels (alert_severity alert)) in
  modify (fun m =>
    {| alert_history := alert_history m;
       clock_reads := clock_reads m;
       outbox := outbox m ++ map (fun name => (name, alert)) tasks |}).

(** The body of the loop of [process_anomalies]. *)
Definition process_anomaly (anomaly : Anomaly) : M Manager unit :=
  do! wanted := _should_alert anomaly in
  if wanted then
    do! alert := _create_alert anomaly in
    do! _s := _send_alerts alert in
    modify (fun m =>
      {| alert_history := alert_history m ++ [alert];
         clock_reads := clock_reads m;
         outbox := outbox m |})
  else ret tt.

Fixpoint process_anomalies (anomalies : list Anomaly) : M Manager unit :=
  match anomalies with
  | [] => ret tt
  | anomaly :: rest =>
      do! _u := process_anomaly anomaly in
      process_anomalies rest
  end.

End Manage.

End AlertManager.


(** * Statements of the specification, and sample inputs *)

(** [min(1.0, max(0.0, x))] *)
Definition clamp01 (x : Q) : Q := Py.min 1 (Py.max 0 x).

Module CanarySpec.

Import CanaryAnalyzer.

(** What the specification asks of a difference in percent. *)
Definition difference_spec (baseline canary d : Q) : Prop :=
  ((baseline == 0)%Q -> (d == 0)%Q) /\
  (~ (baseline == 0)%Q -> (d == (canary - baseline) / baseline * 100)%Q).

Definition sample_config : Config :=
  {| thresholds :=
       Some {[ "latency" := 10%Q; "throughput" := 10%Q;
               "success_rate" := 10%Q; "error_rate" := 5%Q;
               "cpu" := 10%Q; "memory" := 10%Q ]};
     impact_thresholds := None;
     promotion_threshold := Some (8 # 10)%Q;
     confidence_weights := None |}.

Definition sample_metrics (latency_value error_value : Q) : Metrics :=
  {| performance :=
       Some {| latency := latency_value; throughput := 0; success_rate := 99 |};
     resources :=
       Some {| cpu_usage := 40; memory_usage := 60; network_io := 150 |};
     errors := Some {| error_rate := error_value; error_types := [] |} |}.

(** Metrics with a resource usage of one's choice. *)
Definition resource_sample (cpu memory : Q) : Metrics :=
  {| performance :=
       Some {| latency := 100; throughput := 50; success_rate := 99 |};
     resources :=
       Some {| cpu_usage := cpu; memory_usage := memory; network_io := 150 |};
     errors := Some {| error_rate := 1; error_types := [] |} |}.

(** The configuration names a threshold for each of the metrics. *)
Definition thresholds_for (config : Config) (names : list string) : Prop :=
  exists per_metric,
    thresholds config = Some per_metric /\
    Forall (fun name => is_Some (per_metric !! name)) names.

(** The impact cutoffs in force, the configured ones or the defaults, name
    all three levels. *)
Definition cutoffs_complete (config : Config) : Prop :=
  let cutoffs :=
    default default_impact_thresholds (impact_thresholds config) in
  is_Some (cutoffs !! "high") /\ is_Some (cutoffs !! "medium")
  /\ is_Some (cutoffs !! "low").

(** The four categories a decision scores, in declaration order. *)
Inductive Category : Type := Performance | Errors | Resources | UserImpact.

Definition analysis : Type := AnalysisResults (list MetricAnalysis).

(** The worst significant impact of a category of an analysis. *)
Definition worst_of (c : Category) (a : analysis) : Impact :=
  worst_significant_impact
    match c with
    | Performance => performance_entries (performance_analysis a)
    | Errors => error_entries (error_analysis a)
    | Resources => resource_entries (resource_analysis a)
    | UserImpact => user_impact_analysis a
    end.

(** The four category scores of an analysis. *)
Definition scores_of (a : analysis) : DecisionMetrics :=
  {| performance_score := category_score (worst_of Performance a);
     error_score := category_score (worst_of Errors a);
     resource_score := category_score (worst_of Resources a);
     user_impact_score := category_score (worst_of UserImpact a) |}.

(** The key of a category in [decision_metrics] and in the weights. *)
Definition score_key (c : Category) : string :=
  match c with
  | Performance => "performance_score"
  | Errors => "error_score"
  | Resources => "resource_score"
  | UserImpact => "user_impact_score"
  end.

(** The weights a configuration puts in force. *)
Definition weights_of (config : Config) : gmap string Q :=
  default default_confidence_weights (confidence_weights config).

(** The weighted sum of four category scores. *)
Definition weighted_total (wp we wr wu : Q) (m : DecisionMetrics) : Q :=
  (performance_score m * wp + error_score m * we
   + resource_score m * wr + user_impact_score m * wu)%Q.

Definition entry (level : Impact) (flagged : bool) : MetricAnalysis :=
  {| difference_percentage := 0; significant := flagged; impact := level |}.

(** An analysis whose performance category has the given worst significant
    impact and whose other categories are quiet. *)
Definition sample_analysis (level : Impact) : analysis :=
  {| performance_analysis :=
       {| an_latency := entry level true;
          an_throughput := entry Insignificant false;
          an_success_rate := entry Insignificant false |};
     error_analysis :=
       {| an_error_rate := entry Insignificant false;
          an_error_types :=
            {| new_errors := []; resolved_errors := [];
               error_types_impact := Insignificant |} |};
     resource_analysis :=
       {| an_cpu := entry Insignificant false;
          an_memory := entry Insignificant false |};
     user_impact_analysis := [] |}.

(** A configuration that weighs performance negatively. *)
Definition negative_weight_config : Config :=
  {| thresholds := None;
     impact_thresholds := None;
     promotion_threshold := Some (8 # 10)%Q;
     confidence_weights :=
       Some {[ "performance_score" := (- (1))%Q;
               "error_score" := (3 # 10)%Q;
               "resource_score" := (2 # 10)%Q;
               "user_impact_score" := (1 # 10)%Q ]} |}.

(** A configuration whose weights add up to 4. *)
Definition heavy_weight_config : Config :=
  {| thresholds := None;
     impact_thresholds := None;
     promotion_threshold := Some (8 # 10)%Q;
     confidence_weights :=
       Some {[ "performance_score" := 1%Q;
               "error_score" := 1%Q;
               "resource_score" := 1%Q;
               "user_impact_score" := 1%Q ]} |}.

Definition no_reasons (promoted : bool) (m : DecisionMetrics) (a : analysis)
  : result (list string) := Ok [].

(** An error-type helper that finds no new and no resolved error types. *)
Definition quiet_error_types (baseline canary : list string)
  : result ErrorTypesAnalysis :=
  Ok {| new_errors := []; resolved_errors := [];
        error_types_impact := Insignificant |}.

(** The analyses and the decision in the order [analyze_canary] runs them,
    on metrics already collected and with no user-impact metrics. *)
Definition analyze (config : Config) (baseline canary : Metrics)
  : result (analysis * Decision) :=
  let! p := _analyze_performance config baseline canary in
  let! e := _analyze_errors quiet_error_types config baseline canary in
  let! r := _analyze_resources config baseline canary in
  let a := {| performance_analysis := p; error_analysis := e;
              resource_analysis := r; user_impact_analysis := [] |} in
  let! d := decide_promotion no_reasons config a in
  Ok (a, d).

End CanarySpec.

Module RollbackSpec.

Import RollbackHandler.

Section Steps.

Context {World Step : Type}.
Variable execute : Step -> World -> World * result (StepResult Step).

(** The run of a list of steps that all report success: the cluster it
    ends in and the results, or [None] when some step does not. *)
Fixpoint all_succeed (steps : list Step) (world : World)
  : option (World * list (StepResult Step)) :=
  match steps with
  | [] => Some (world, [])
  | s :: rest =>
      match execute s world with
      | (world', Ok r) =>
          match success r with
          | Some true =>
              match all_succeed rest world' with
              | Some (final, rs) => Some (final, r :: rs)
              | None => None
              end
          | _ => None
          end
      | (_, Err _) => None
      end
  end.

(** A step fails: it returns [success = False], or it raises. *)
Definition fails (outcome : result (StepResult Step)) : Prop :=
  match outcome with
  | Ok r => success r = Some false
  | Err _ => True
  end.

(** Between any two step executions of a trace lies a verification. *)
Definition verified_between_steps (trace : list (Event Step)) : Prop :=
  forall (i j : nat) (s s' : Step),
    (i < j)%nat ->
    trace !! i = Some (ExecuteStep s) ->
    trace !! j = Some (ExecuteStep s') ->
    exists m : nat,
      (i < m < j)%nat /\ trace !! m = Some VerifyRollback.

End Steps.

(** *** A sample cluster

    Steps are numbers; the cluster accepts every step except [failing],
    and the whole-rollback verification answers [healthy]. *)
Definition sample_execute (failing : nat) (s : nat) (world : unit)
  : unit * result (StepResult nat) :=
  (world,
   if (s =? failing)%nat
   then Ok {| step := Some s; success := Some false;
              error := Some "post-condition not met" |}
   else Ok {| step := Some s; success := Some true; error := None |}).

Definition sample_plan : RollbackPlan unit nat unit :=
  {| previous_state := tt; rollback_steps := [1; 2; 3]%nat;
     verification_points := tt |}.

Definition sample_handle (failing : nat) (healthy : bool)
  : M (unit * list (Event nat)) (Response nat string bool string) :=
  handle_rollback
    (fun _ world => (world, Ok true))
    (fun _ world => (world, Ok tt))
    (fun _ _ => Ok [1; 2; 3]%nat)
    (fun _ => Ok tt)
    (sample_execute failing)
    (fun _ _ world => (world, Ok healthy))
    (fun _ _ _ _ world => (world, Ok tt))
    (fun message => Ok message)
    (fun _ : unit => Some "web-v2")
    (fun verification : bool => Some verification)
    tt "canary aborted".

End RollbackSpec.

Module DetectorSpec.

Import AIAnomalyDetector.

(** The window of a metric: [self.history[name]], empty when the metric
    was never observed. *)
Definition window_of (d : Detector) (name : string) : list Point :=
  default [] (history d !! name).

(** What an observation at [current_time] leaves of a window: the old
    points and the new one, without those a retention of [days] days
    evicts. *)
Definition updated_window (days current_time : Z) (old : list Point) (v : Q)
  : list Point :=
  List.filter
    (fun point => (timestamp point >? current_time - timedelta_days days)%Z)
    (old ++ [{| timestamp := current_time; value := v |}]).

(** The detector after the window update of an observation. *)
Definition updated (days current_time : Z) (name : string) (v : Q)
    (d : Detector) : Detector :=
  set_history
    (fun h => <[name := updated_window days current_time (window_of d name) v]> h)
    d.

(** A sample lies within the retention of [days] days of the call time. *)
Definition within_retention (days call_time : Z) (point : Point) : Prop :=
  (call_time - timedelta_days days < timestamp point)%Z.

(** The retention can be subtracted from the call time: [timedelta]
    accepts the day count, and the cutoff is a [datetime]. *)
Definition cutoff_in_range (days current_time : Z) : Prop :=
  (Z.abs days <= 999999999)%Z /\
  (datetime_min <= current_time - timedelta_days days <= datetime_max)%Z.

(** The detector after the append of an observation, before any
    eviction. *)
Definition appended (current_time : Z) (name : string) (v : Q)
    (d : Detector) : Detector :=
  set_history
    (fun h => <[name := window_of d name
                         ++ [{| timestamp := current_time; value := v |}]]> h)
    d.

(** The outlier score the specification speaks of: scikit-learn's
    [score_samples] is lower the more abnormal the sample and never
    positive, so the outlier score is its opposite. *)
Definition outlier_score (anomaly_score : Q) : Q := (- anomaly_score)%Q.

(** How far the outlier score exceeds the threshold. *)
Definition excess (threshold anomaly_score : Q) : Q :=
  (outlier_score anomaly_score - threshold)%Q.

(** The order of the severities. *)
Definition severity_rank (severity : string) : Z :=
  if String.eqb severity "critical" then 4
  else if String.eqb severity "high" then 3
  else if String.eqb severity "medium" then 2
  else if String.eqb severity "low" then 1
  else 0.

(** *** Sample detectors *)

Definition sample_config (days minimum : Z) : Config :=
  {| anomaly_threshold := Some (5 # 10)%Q;
     training_period_days := Some days;
     minimum_datapoints := Some minimum;
     sensitivity := None |}.

(** The same with a threshold of one's choice. *)
Definition threshold_config (threshold : Q) (days minimum : Z) : Config :=
  {| anomaly_threshold := Some threshold;
     training_period_days := Some days;
     minimum_datapoints := Some minimum;
     sensitivity := None |}.

(** One day in microseconds, and a clock that reads day 10. *)
Definition day : Z := 86400000000.
Definition day_ten (read : nat) : Z := 10 * day.

(** A scorer in the manner of scikit-learn: it refuses an empty training
    set, and otherwise finds 95 very abnormal and everything else
    ordinary. *)
Definition sample_scorer (values : list Q) (v : Q) : result Q :=
  match values with
  | [] => Err (Raised "Found array with 0 sample(s)")
  | _ :: _ => if Qeq_bool v 95 then Ok (- (85 # 100))%Q else Ok (- (3 # 10))%Q
  end.

(** A scorer that always raises. *)
Definition broken_scorer (values : list Q) (v : Q) : result Q :=
  Err (Raised "model unavailable").

(** A detector that saw cpu_usage once, on day 1. *)
Definition stale_detector : Detector :=
  {| history := {[ "cpu_usage" := [{| timestamp := day; value := 40%Q |}] ]};
     reads := 0 |}.

Definition fresh_detector : Detector := {| history := ∅; reads := 0 |}.

End DetectorSpec.

Module AlertSpec.

Import AIAnomalyDetector AlertManager.

(** The alerts of the history raised for the metric of an anomaly. *)
Definition same_metric (anomaly : Anomaly) (alerts : list Alert) : list Alert :=
  List.filter
    (fun alert => String.eqb (alert_metric alert) (metric anomaly)) alerts.

(** The manager after [n] more clock reads. *)
Definition advance (n : nat) (m : Manager) : Manager :=
  {| alert_history := alert_history m;
     clock_reads := (n + clock_reads m)%nat;
     outbox := outbox m |}.

Section Conditions.

Variable clock : nat -> Z.
Variable config : Config.

(** The age in seconds of an alert at a clock read. *)
Definition age (read : nat) (alert : Alert) : Q :=
  total_seconds (clock read - alert_timestamp alert).

(** The alerts among [same], checked at successive clock reads from
    [read] on, that are younger than the cooldown. *)
Fixpoint younger_than (cooldown : Q) (read : nat) (same : list Alert)
  : list Alert :=
  match same with
  | [] => []
  | alert :: rest =>
      if Py.lt (age read alert) cooldown
      then alert :: younger_than cooldown (S read) rest
      else younger_than cooldown (S read) rest
  end.

(** Condition (a): no earlier alert for the metric of the anomaly is
    newer than the configured cooldown.  The age of the j-th such alert
    is taken at the clock read that checks it. *)
Definition cooldown_clear (m : Manager) (anomaly : Anomaly) : Prop :=
  forall (j : nat) (alert : Alert),
    same_metric anomaly (alert_history m) !! j = Some alert ->
    exists cooldown,
      alert_cooldown config = Some cooldown /\
      (cooldown <= age (clock_reads m + j) alert)%Q.

(** Condition (a) fails: some earlier alert for the metric is newer than
    the cooldown. *)
Definition cooling_down (m : Manager) (anomaly : Anomaly) : Prop :=
  exists cooldown (j : nat) (alert : Alert),
    alert_cooldown config = Some cooldown /\
    same_metric anomaly (alert_history m) !! j = Some alert /\
    (age (clock_reads m + j) alert < cooldown)%Q.

(** Condition (b): the severity of the anomaly is at least the
    configured minimum. *)
Definition severe_enough (anomaly : Anomaly) : Prop :=
  exists level least floor,
    severity_levels !! severity anomaly = Some level /\
    minimum_severity config = Some least /\
    severity_levels !! least = Some floor /\
    (floor <= level)%Z.

(** Condition (b) fails. *)
Definition too_mild (anomaly : Anomaly) : Prop :=
  exists level least floor,
    severity_levels !! severity anomaly = Some level /\
    minimum_severity config = Some least /\
    severity_levels !! least = Some floor /\
    (level < floor)%Z.

(** The severity comparison that ends [_should_alert]. *)
Definition severity_check (anomaly : Anomaly) : result bool :=
  let! level := getitem severity_levels (severity anomaly) in
  let! least := require "minimum_severity" (minimum_severity config) in
  let! floor := getitem severity_levels least in
  Ok (level >=? floor)%Z.

End Conditions.

(** *** A sample manager *)

Definition sample_config : Config :=
  {| alert_cooldown := Some 300%Q;
     minimum_severity := Some "medium";
     notification_templates :=
       Some {[ "default" := "Anomaly detected";
               "critical" := "Critical anomaly detected" ]};
     alert_channels :=
       Some [ ("email",
               {| severity_levels_of := Some ["high"; "critical"] |});
              ("slack",
               {| severity_levels_of :=
                    Some ["medium"; "high"; "critical"] |}) ] |}.

(** A clock that stands at 1000 seconds. *)
Definition sample_clock (read : nat) : Z := 1000000000.

Definition sample_anomaly (name severity : string) : Anomaly :=
  {| metric := name;
     current_value := 95%Q;
     severity := severity;
     confidence := 85%Q;
     detected_at := 1000000000;
     suggested_actions := [] |}.

Definition sample_alert (name : string) (seconds : Z) : Alert :=
  {| alert_id := seconds * 1000000;
     alert_metric := name;
     alert_value := 95%Q;
     alert_severity := "high";
     alert_confidence := 85%Q;
     alert_timestamp := seconds * 1000000;
     description := "Anomaly detected";
     actions := [] |}.

(** A manager that alerted on cpu_usage 100 seconds ago. *)
Definition sample_manager : Manager :=
  {| alert_history := [sample_alert "cpu_usage" 900];
     clock_reads := 0;
     outbox := [] |}.

End AlertSpec.

(** * The remaining methods of the four classes *)

(** ** src/deployment/canary_analyzer.py: collection, recommendations and
    the top-level analysis *)

Module CanaryReport.

Import CanaryAnalyzer.

(** [canary_data]: the entries ['baseline'] and ['canary'], each holding a
    ['service']. *)
Record Target (Service : Type) : Type := { service : option Service }.
Arguments service {Service} _.

Record CanaryData (Service : Type) : Type := {
  baseline : option (Target Service);
  canary : option (Target Service)
}.
Arguments baseline {Service} _.
Arguments canary {Service} _.

(** One entry of the list [_generate_recommendations] returns. *)
Record Recommendation (Action : Type) : Type := {
  rec_type : string;
  rec_severity : Impact;
  rec_description : string;
  rec_action : Action
}.
Arguments rec_type {Action} _.
Arguments rec_severity {Action} _.
Arguments rec_description {Action} _.
Arguments rec_action {Action} _.

(** What [analyze_canary] returns: the report, or whatever
    [_generate_error_response] builds. *)
Inductive Outcome (U Action Report : Type) : Type :=
| Analyzed (timestamp : Z) (analysis : AnalysisResults U) (decision : Decision)
    (recommendations : list (Recommendation Action)) (confidence_score : Q)
| Failed (report : Report).
Arguments Analyzed {U Action Report}
  timestamp analysis decision recommendations confidence_score.
Arguments Failed {U Action Report} report.

Definition no_metrics : Metrics :=
  {| performance := None; resources := None; errors := None |}.

Section Collect.

(** The monitoring back end the metric queries go to, and the queries
    themselves: none of the [_get_*_metrics] methods is defined in the
    repository. *)
Context {World Service : Type}.
Variable _get_latency_metrics : Service -> World -> World * result Q.
Variable _get_throughput_metrics : Service -> World -> World * result Q.
Variable _get_success_rate_metrics : Service -> World -> World * result Q.
Variable _get_cpu_metrics : Service -> World -> World * result Q.
Variable _get_memory_metrics : Service -> World -> World * result Q.
Variable _get_network_metrics : Service -> World -> World * result Q.
Variable _get_error_rate_metrics : Service -> World -> World * result Q.
Variable _get_error_types_metrics :
  Service -> World -> World * result (list string).

(** The store of a collection: the back end and the local [metrics]
    dictionary. *)
Definition Collection : Type := (World * Metrics)%type.

(** An awaited query. *)
Definition query {A} (action : World -> World * result A) : M Collection A :=
  fun '(world, metrics) =>
    let '(world', outcome) := action world in ((world', metrics), outcome).

(** [canary_data['baseline']['service']] *)
Definition baseline_service (canary_data : CanaryData Service) : result Service :=
  let! target := require "baseline" (baseline canary_data) in
  require "service" (service target).

(** The body of the [try] of [_collect_baseline_metrics]. *)
Definition collect_sections (canary_data : CanaryData Service)
  : M Collection unit :=
  do! s1 := lift (baseline_service canary_data) in
  do! v_latency := query (_get_latency_metrics s1) in
  do! s2 := lift (baseline_service canary_data) in
  do! v_throughput := query (_get_throughput_metrics s2) in
  do! s3 := lift (baseline_service canary_data) in
  do! v_success := query (_get_success_rate_metrics s3) in
  do! _p := modify (fun '(world, metrics) =>
    (world,
     {| performance :=
          Some {| latency := v_latency; throughput := v_throughput;
                  success_rate := v_success |};
        resources := resources metrics;
        errors := errors metrics |})) in
  do! s4 := lift (baseline_service canary_data) in
  do! v_cpu := query (_get_cpu_metrics s4) in
  do! s5 := lift (baseline_service canary_data) in
  do! v_memory := query (_get_memory_metrics s5) in
  do! s6 := lift (baseline_service canary_data) in
  do! v_network := query (_get_network_metrics s6) in
  do! _r := modify (fun '(world, metrics) =>
    (world,
     {| performance := performance metrics;
        resources :=
          Some {| cpu_usage := v_cpu; memory_usage := v_memory;
                  network_io := v_network |};
        errors := errors metrics |})) in
  do! s7 := lift (baseline_service canary_data) in
  do! v_rate := query (_get_error_rate_metrics s7) in
  do! s8 := lift (baseline_service canary_data) in
  do! v_types := query (_get_error_types_metrics s8) in
  modify (fun '(world, metrics) =>
    (world,
     {| performance := performance metrics;
        resources := resources metrics;
        errors :=
          Some {| error_rate := v_rate; error_types := v_types |} |})).

(** [_collect_baseline_metrics]: the [except] branch only logs, and the
    dictionary filled so far is returned. *)
Definition _collect_baseline_metrics (canary_data : CanaryData Service)
  : M World Metrics :=
  fun world =>
    match try_except (collect_sections canary_data) (fun _ => ret tt)
            (world, no_metrics) with
    | ((world', metrics), Ok _) => (world', Ok metrics)
    | ((world', _), Err e) => (world', Err e)
    end.

(** [_collect_canary_metrics]: the argument
    [{'baseline': {'service': canary_data['canary']['service']}}] is built
    outside any [try]. *)
Definition _collect_canary_metrics (canary_data : CanaryData Service)
  : M World Metrics :=
  do! target := lift (require "canary" (canary canary_data)) in
  do! s := lift (require "service" (service target)) in
  _collect_baseline_metrics
    {| baseline := Some {| service := Some s |}; canary := None |}.

End Collect.

Section Recommend.

Context {UserImpactAnalysis Action : Type}.

(** The three helpers that word the action of a recommendation; the
    repository defines none of them. *)
Variable _generate_latency_recommendation : MetricAnalysis -> result Action.
Variable _generate_error_recommendation : ErrorAnalysis -> result Action.
Variable _generate_resource_recommendation : ResourceAnalysis -> result Action.

Definition _generate_recommendations
    (analysis_results : AnalysisResults UserImpactAnalysis)
    (decision : Decision) : result (list (Recommendation Action)) :=
  let recommendations := [] in
  let! recommendations :=
    let entry := an_latency (performance_analysis analysis_results) in
    if significant entry then
      let! action := _generate_latency_recommendation entry in
      Ok (recommendations ++
            [{| rec_type := "performance";
                rec_severity := impact entry;
                rec_description := "Significant latency difference detected";
                rec_action := action |}])
    else Ok recommendations in
  let! recommendations :=
    let entry := an_error_rate (error_analysis analysis_results) in
    if significant entry then
      let! action :=
        _generate_error_recommendation (error_analysis analysis_results) in
      Ok (recommendations ++
            [{| rec_type := "error";
                rec_severity := impact entry;
                rec_description := "Significant error rate difference detected";
                rec_action := action |}])
    else Ok recommendations in
  let! recommendations :=
    let entry := an_cpu (resource_analysis analysis_results) in
    if significant entry then
      let! action :=
        _generate_resource_recommendation (resource_analysis analysis_results) in
      Ok (recommendations ++
            [{| rec_type := "resource";
                rec_severity := impact entry;
                rec_description := "Significant CPU usage difference detected";
                rec_action := action |}])
    else Ok recommendations in
  Ok recommendations.

End Recommend.

Section Analyze.

Context {World Service UserImpactAnalysis Action Report : Type}.

Variable _get_latency_metrics : Service -> World -> World * result Q.
Variable _get_throughput_metrics : Service -> World -> World * result Q.
Variable _get_success_rate_metrics : Service -> World -> World * result Q.
Variable _get_cpu_metrics : Service -> World -> World * result Q.
Variable _get_memory_metrics : Service -> World -> World * result Q.
Variable _get_network_metrics : Service -> World -> World * result Q.
Variable _get_error_rate_metrics : Service -> World -> World * result Q.
Variable _get_error_types_metrics :
  Service -> World -> World * result (list string).
Variable _analyze_error_types :
  list string -> list string -> result ErrorTypesAnalysis.
Variable _analyze_user_impact : Metrics -> Metrics -> result UserImpactAnalysis.
Variable _calculate_performance_score : PerformanceAnalysis -> result Q.
Variable _calculate_error_score : ErrorAnalysis -> result Q.
Variable _calculate_resource_score : ResourceAnalysis -> result Q.
Variable _calculate_user_impact_score : UserImpactAnalysis -> result Q.
Variable _calculate_overall_score : Config -> DecisionMetrics -> result Q.
Variable _generate_decision_reasons :
  bool -> DecisionMetrics -> AnalysisResults UserImpactAnalysis ->
  result (list string).
Variable _generate_latency_recommendation : MetricAnalysis -> result Action.
Variable _generate_error_recommendation : ErrorAnalysis -> result Action.
Variable _generate_resource_recommendation : ResourceAnalysis -> result Action.
Variable _calculate_confidence :
  AnalysisResults UserImpactAnalysis -> result Q.
Variable _generate_error_response : string -> result Report.
(** [datetime.now()] *)
Variable now : World -> World * Z.

Variable config : Config.

(** The four analyses, in the order the dictionary display evaluates
    them. *)
Definition analyze_metrics (baseline_metrics canary_metrics : Metrics)
  : result (AnalysisResults UserImpactAnalysis) :=
  let! a_performance :=
    _analyze_performance config baseline_metrics canary_metrics in
  let! a_error :=
    _analyze_errors _analyze_error_types config baseline_metrics
      canary_metrics in
  let! a_resource :=
    _analyze_resources config baseline_metrics canary_metrics in
  let! a_user := _analyze_user_impact baseline_metrics canary_metrics in
  Ok {| performance_analysis := a_performance;
        error_analysis := a_error;
        resource_analysis := a_resource;
        user_impact_analysis := a_user |}.

Definition analyze_canary (canary_data : CanaryData Service)
  : M World (Outcome UserImpactAnalysis Action Report) :=
  try_except
    (do! baseline_metrics :=
       _collect_baseline_metrics _get_latency_metrics _get_throughput_metrics
         _get_success_rate_metrics _get_cpu_metrics _get_memory_metrics
         _get_network_metrics _get_error_rate_metrics
         _get_error_types_metrics canary_data in
     do! canary_metrics :=
       _collect_canary_metrics _get_latency_metrics _get_throughput_metrics
         _get_success_rate_metrics _get_cpu_metrics _get_memory_metrics
         _get_network_metrics _get_error_rate_metrics
         _get_error_types_metrics canary_data in
     do! analysis_results :=
       lift (analyze_metrics baseline_metrics canary_metrics) in
     do! decision :=
       lift (_make_promotion_decision _calculate_performance_score
               _calculate_error_score _calculate_resource_score
               _calculate_user_impact_score _calculate_overall_score
               _generate_decision_reasons config analysis_results) in
     do! recommendations :=
       lift (_generate_recommendations _generate_latency_recommendation
               _generate_error_recommendation
               _generate_resource_recommendation analysis_results decision) in
     do! stamp := (fun world => let '(world', t) := now world in (world', Ok t)) in
     do! score := lift (_calculate_confidence analysis_results) in
     ret (Analyzed stamp analysis_results decision recommendations score))
    (fun e =>
       do! report := lift (_generate_error_response (Py.str e)) in
       ret (Failed report)).

End Analyze.

End CanaryReport.

Module CanaryReportSpec.

Import CanaryAnalyzer CanaryReport.

(** The impact thresholds a configuration puts in force. *)
Definition impact_thresholds_of (config : Config) : gmap string Q :=
  default default_impact_thresholds (impact_thresholds config).

(** All three sections of a metrics dictionary were collected. *)
Definition complete (metrics : Metrics) : Prop :=
  is_Some (performance metrics) /\ is_Some (resources metrics) /\
  is_Some (errors metrics).


(** The metrics a recommendation can be about, with the type it gets. *)
Definition watched {U} (a : AnalysisResults U) : list (string * MetricAnalysis) :=
  [ ("performance", an_latency (performance_analysis a));
    ("error", an_error_rate (error_analysis a));
    ("resource", an_cpu (resource_analysis a)) ].

(** Those of them that are flagged significant. *)
Definition flagged {U} (a : AnalysisResults U) : list (string * MetricAnalysis) :=
  List.filter (fun '(_, entry) => significant entry) (watched a).

(** *** Sample inputs *)

(** Thresholds that name only ['high']. *)
Definition partial_thresholds_config : Config :=
  {| thresholds := Some {[ "latency" := 10%Q ]};
     impact_thresholds := Some {[ "high" := 50%Q ]};
     promotion_threshold := None;
     confidence_weights := None |}.

(** A latency threshold of 3 percent, below the lowest impact cutoff. *)
Definition strict_config : Config :=
  {| thresholds :=
       Some {[ "latency" := 3%Q; "throughput" := 3%Q; "success_rate" := 3%Q;
               "error_rate" := 3%Q; "cpu" := 3%Q; "memory" := 3%Q ]};
     impact_thresholds := None;
     promotion_threshold := Some (8 # 10)%Q;
     confidence_weights := None |}.

Definition flat (entry_significant : bool) (level : Impact) : MetricAnalysis :=
  {| difference_percentage := 0; significant := entry_significant;
     impact := level |}.

(** An analysis in which throughput, success rate and memory are
    significant with high impact, and latency, error rate and CPU as
    given. *)
Definition sample_results (latency_flag error_flag cpu_flag : bool)
  : AnalysisResults unit :=
  {| performance_analysis :=
       {| an_latency := flat latency_flag Low;
          an_throughput := flat true High;
          an_success_rate := flat true High |};
     error_analysis :=
       {| an_error_rate := flat error_flag Medium;
          an_error_types :=
            {| new_errors := ["timeout"]; resolved_errors := [];
               error_types_impact := High |} |};
     resource_analysis :=
       {| an_cpu := flat cpu_flag High; an_memory := flat true High |};
     user_impact_analysis := tt |}.

Definition sample_decision : Decision :=
  {| promote := false; overall_score := 0;
     metrics_scores :=
       {| performance_score := 0; error_score := 0; resource_score := 0;
          user_impact_score := 0 |};
     confidence := 0; reasons := [] |}.

(** A back end that counts the queries it has answered and fails the
    query numbered [broken]; services are names. *)
Definition counting_query (broken : nat) (answer : Q) (s : string) (count : nat)
  : nat * result Q :=
  (S count,
   if (count =? broken)%nat then Err (Raised "query timed out") else Ok answer).

Definition counting_types (broken : nat) (s : string) (count : nat)
  : nat * result (list string) :=
  (S count,
   if (count =? broken)%nat then Err (Raised "query timed out") else Ok []).

Definition sample_data : CanaryData string :=
  {| baseline := Some {| service := Some "web" |};
     canary := Some {| service := Some "web-canary" |} |}.


(** [analyze_canary] on that back end, with helpers that always return. *)
Definition sample_analyze (broken : nat) (config : Config)
  : M nat (Outcome unit string string) :=
  analyze_canary
    (counting_query broken 100) (counting_query broken 50)
    (counting_query broken 99) (counting_query broken 40)
    (counting_query broken 60) (counting_query broken 150)
    (counting_query broken 1) (counting_types broken)
    (fun _ _ => Ok {| new_errors := []; resolved_errors := [];
                      error_types_impact := Insignificant |})
    (fun _ _ => Ok tt)
    (fun _ => Ok 1%Q) (fun _ => Ok 1%Q) (fun _ => Ok 1%Q) (fun _ => Ok 1%Q)
    (fun _ _ => Ok 1%Q)
    (fun _ _ _ => Ok [])
    (fun _ => Ok "review latency") (fun _ => Ok "review errors")
    (fun _ => Ok "review resources")
    (fun _ => Ok 1%Q)
    (fun message => Ok message)
    (fun count => (count, 0))
    config sample_data.

End CanaryReportSpec.

Module RollbackSamples.

Import RollbackHandler.

(** A cluster on which the step numbered [bad] returns a result without
    the ['success'] key, and every other step succeeds. *)
Definition malformed_execute (bad : nat) (s : nat) (world : unit)
  : unit * result (StepResult nat) :=
  (world,
   Ok {| step := Some s;
         success := if (s =? bad)%nat then None else Some true;
         error := None |}).

(** [handle_rollback] on the sample cluster, with the answer of
    [_can_rollback], the step executor and the answer of the verification
    as given. *)
Definition handle_with (possible : bool)
    (execute : nat -> unit -> unit * result (StepResult nat)) (healthy : bool)
  : M (unit * list (Event nat)) (Response nat string bool string) :=
  handle_rollback
    (fun _ world => (world, Ok possible))
    (fun _ world => (world, Ok tt))
    (fun _ _ => Ok [1; 2; 3]%nat)
    (fun _ => Ok tt)
    execute
    (fun _ _ world => (world, Ok healthy))
    (fun _ _ _ _ world => (world, Ok tt))
    (fun message => Ok message)
    (fun _ : unit => Some "web-v2")
    (fun verification : bool => Some verification)
    tt "canary aborted".

End RollbackSamples.

Module DetectorSamples.

Import AIAnomalyDetector.

(** A configuration that sets nothing. *)
Definition unconfigured : Config :=
  {| anomaly_threshold := None;
     training_period_days := None;
     minimum_datapoints := None;
     sensitivity := None |}.

(** A configuration with a retention of seven days and no minimum. *)
Definition no_minimum : Config :=
  {| anomaly_threshold := Some (5 # 10)%Q;
     training_period_days := Some 7;
     minimum_datapoints := None;
     sensitivity := None |}.

(** The action that only a critical anomaly gets. *)
Definition escalation : string := "Escalate to on-call team immediately".

End DetectorSamples.

(** ** src/monitoring/alert_manager.py: the life of a recorded alert *)

Module AlertLifecycle.

Import AlertManager.

(** An entry of [alert_history] as the later methods see it: the
    dictionary [_create_alert] built, and the keys ['status'],
    ['updated_at'], ['resolution_note'] and ['resolved_at'] that
    [_update_alert_status] and [resolve_alert] add. *)
Record Tracked : Type := {
  alert : Alert;
  status : option string;
  updated_at : option Z;
  resolution_note : option string;
  resolved_at : option Z
}.

(** A freshly recorded alert. *)
Definition recorded (a : Alert) : Tracked :=
  {| alert := a; status := None; updated_at := None;
     resolution_note := None; resolved_at := None |}.

(** The manager object: the history and the clock reads made. *)
Record Book : Type := {
  entries : list Tracked;
  book_reads : nat
}.

Section Lifecycle.

Variable clock : nat -> Z.

(** The loop of [_update_alert_status]: the first alert with the id gets
    the status and the time, then the loop breaks.  [None] when no alert
    has the id. *)
Fixpoint update_first (alert_id_wanted : Z) (new_status : string) (t : Z)
    (alerts : list Tracked) : option (list Tracked) :=
  match alerts with
  | [] => None
  | a :: rest =>
      if (alert_id (alert a) =? alert_id_wanted)%Z then
        Some ({| alert := alert a;
                 status := Some new_status;
                 updated_at := Some t;
                 resolution_note := resolution_note a;
                 resolved_at := resolved_at a |} :: rest)
      else
        match update_first alert_id_wanted new_status t rest with
        | Some rest' => Some (a :: rest')
        | None => None
        end
  end.

(** [datetime.now()] is evaluated inside the loop, when the alert is
    found. *)
Definition _update_alert_status (alert_id_wanted : Z) (new_status : string)
    (b : Book) : Book :=
  match update_first alert_id_wanted new_status (clock (book_reads b))
          (entries b) with
  | Some alerts => {| entries := alerts; book_reads := S (book_reads b) |}
  | None => b
  end.

Definition get_active_alerts (b : Book) : list Tracked :=
  List.filter
    (fun a => negb (bool_decide (status a = Some "resolved"))) (entries b).

(** The second loop of [resolve_alert]. *)
Fixpoint note_first (alert_id_wanted : Z) (note : string) (t : Z)
    (alerts : list Tracked) : option (list Tracked) :=
  match alerts with
  | [] => None
  | a :: rest =>
      if (alert_id (alert a) =? alert_id_wanted)%Z then
        Some ({| alert := alert a;
                 status := status a;
                 updated_at := updated_at a;
                 resolution_note := Some note;
                 resolved_at := Some t |} :: rest)
      else
        match note_first alert_id_wanted note t rest with
        | Some rest' => Some (a :: rest')
        | None => None
        end
  end.

(** [resolve_alert(alert_id, resolution_note=None)]: the note is stored
    only when it is truthy, that is given and not the empty string. *)
Definition resolve_alert (alert_id_wanted : Z) (note : option string)
    (b : Book) : Book :=
  let b1 := _update_alert_status alert_id_wanted "resolved" b in
  match note with
  | None => b1
  | Some "" => b1
  | Some text =>
      match note_first alert_id_wanted text (clock (book_reads b1))
              (entries b1) with
      | Some alerts => {| entries := alerts; book_reads := S (book_reads b1) |}
      | None => b1
      end
  end.

End Lifecycle.

End AlertLifecycle.

Module AlertSamples.

Import AIAnomalyDetector AlertManager AlertLifecycle.

(** The channels an alert of a severity goes to: those whose
    ['severity_levels'] contain it, in the order of the configuration. *)
Definition recipients (channels : list (string * Channel)) (sev : string)
  : list string :=
  map fst
    (List.filter
       (fun '(_, channel) =>
          match severity_levels_of channel with
          | Some levels => bool_decide (sev ∈ levels)
          | None => false
          end)
       channels).

(** Every clock read of a run lies within [span] seconds of every
    other. *)
Definition reads_within (clock : nat -> Z) (span : Q) : Prop :=
  forall i j : nat, (total_seconds (clock i - clock j) < span)%Q.

(** An alert was stamped by the clock of the run. *)
Definition stamped_by (clock : nat -> Z) (a : Alert) : Prop :=
  exists read : nat, alert_timestamp a = clock read.

(** The history holds an alert for the metric that the clock of the run
    stamped. *)
Definition alerted_in_run (clock : nat -> Z) (m : Manager) (name : string)
  : Prop :=
  exists a, a ∈ alert_history m /\ alert_metric a = name /\ stamped_by clock a.

(** Templates that have a text for critical alerts but no default. *)
Definition no_default_config : Config :=
  {| alert_cooldown := Some 300%Q;
     minimum_severity := Some "medium";
     notification_templates :=
       Some {[ "critical" := "Critical anomaly detected" ]};
     alert_channels := AlertManager.alert_channels AlertSpec.sample_config |}.


Definition empty_manager : Manager :=
  {| alert_history := []; clock_reads := 0; outbox := [] |}.

(** Python's truth value of the [resolution_note] argument: given and not
    the empty string. *)
Definition truthy (note : option string) : bool :=
  match note with
  | None => false
  | Some "" => false
  | Some _ => true
  end.

(** The id of an entry of the history. *)
Definition id_of (a : Tracked) : Z := alert_id (alert a).

(** The entry [resolve_alert] leaves in the place of the one it found, when
    the call starts at clock read [read]. *)
Definition resolved_entry (clock : nat -> Z) (read : nat)
    (note : option string) (a : Tracked) : Tracked :=
  {| alert := alert a;
     status := Some "resolved";
     updated_at := Some (clock read);
     resolution_note := if truthy note then note else resolution_note a;
     resolved_at :=
       if truthy note then Some (clock (S read)) else resolved_at a |}.

(** Two alerts created at seconds 1 and 2, and a third that shares the id
    of the first. *)
Definition sample_book : Book :=
  {| entries :=
       [ recorded (AlertSpec.sample_alert "cpu_usage" 1);
         recorded (AlertSpec.sample_alert "memory_usage" 2);
         recorded (AlertSpec.sample_alert "error_rate" 1) ];
     book_reads := 0 |}.

End AlertSamples.

(** * Properties *)

(** ** Results and numbers *)

Lemma bind_Ok {A B} (r : result A) (k : A -> result B) (b : B) :
  Py.bind r k = Ok b -> exists a, r = Ok a /\ k a = Ok b.
Proof. destruct r as [a|e]; simpl; [eauto | discriminate]. Qed.

Lemma bind_Err {A B} (r : result A) (k : A -> result B) (e : exn) :
  Py.bind r k = Err e -> r = Err e \/ exists a, r = Ok a /\ k a = Err e.
Proof. destruct r as [a|e']; simpl; [eauto | intros [= ->]; auto]. Qed.

Lemma require_Ok {V} (k : string) (field : option V) (v : V) :
  require k field = Ok v -> field = Some v.
Proof. destruct field; simpl; congruence. Qed.

Lemma require_Err {V} (k : string) (field : option V) (e : exn) :
  require k field = Err e -> e = KeyError k.
Proof. destruct field; simpl; congruence. Qed.

Lemma getitem_Err {V} (d : gmap string V) (k : string) (e : exn) :
  getitem d k = Err e -> e = KeyError k.
Proof. unfold getitem. destruct (d !! k); congruence. Qed.

(** Peel the binds of a computation known to return. *)
Ltac ok_inv H :=
  repeat match type of H with
  | Py.bind _ _ = Ok _ =>
      let a := fresh "x" in
      let Ha := fresh "E" in
      apply bind_Ok in H; destruct H as (a & Ha & H)
  end.

Lemma bindM_Ok {S A B} (m : M S A) (k : A -> M S B) (s s' : S) (b : B) :
  bindM m k s = (s', Ok b) ->
  exists a s1, m s = (s1, Ok a) /\ k a s1 = (s', Ok b).
Proof.
  unfold bindM. destruct (m s) as [s1 [a|e]]; [eauto | discriminate].
Qed.

Lemma lift_Ok {S A} (r : result A) (s s' : S) (a : A) :
  lift r s = (s', Ok a) -> s' = s /\ r = Ok a.
Proof. unfold lift. now intros [= -> ->]. Qed.

Lemma ret_Ok {S A} (a a' : A) (s s' : S) :
  ret a s = (s', Ok a') -> s' = s /\ a' = a.
Proof. unfold ret. now intros [= -> ->]. Qed.

Lemma try_except_Ok {S A} (m : M S A) (handler : exn -> M S A)
    (s s' : S) (a : A) :
  try_except m handler s = (s', Ok a) ->
  m s = (s', Ok a) \/
  exists e s1, m s = (s1, Err e) /\ handler e s1 = (s', Ok a).
Proof.
  unfold try_except. destruct (m s) as [s1 [a1|e]]; [auto | eauto].
Qed.

Lemma gt_true (x y : Q) : Py.gt x y = true <-> (y < x)%Q.
Proof.
  unfold Py.gt. rewrite negb_true_iff, <- not_true_iff_false, Qle_bool_iff.
  split; [apply Qnot_le_lt | apply Qlt_not_le].
Qed.

Lemma gt_false (x y : Q) : Py.gt x y = false <-> (x <= y)%Q.
Proof. unfold Py.gt. rewrite negb_false_iff. apply Qle_bool_iff. Qed.

Lemma lt_true (x y : Q) : Py.lt x y = true <-> (x < y)%Q.
Proof. unfold Py.lt. apply (gt_true y x). Qed.

Lemma lt_false (x y : Q) : Py.lt x y = false <-> (y <= x)%Q.
Proof. unfold Py.lt. apply (gt_false y x). Qed.

Lemma ge_true (x y : Q) : Py.ge x y = true <-> (y <= x)%Q.
Proof. unfold Py.ge. apply Qle_bool_iff. Qed.

Lemma max_spec (a b : Q) :
  ((a < b)%Q /\ Py.max a b = b) \/ ((b <= a)%Q /\ Py.max a b = a).
Proof.
  unfold Py.max. destruct (Py.gt b a) eqn:E.
  - left. split; [now apply gt_true | reflexivity].
  - right. split; [now apply gt_false | reflexivity].
Qed.

Lemma min_spec (a b : Q) :
  ((b < a)%Q /\ Py.min a b = b) \/ ((a <= b)%Q /\ Py.min a b = a).
Proof.
  unfold Py.min. destruct (Py.lt b a) eqn:E.
  - left. split; [now apply lt_true | reflexivity].
  - right. split; [now apply lt_false | reflexivity].
Qed.


Lemma clamp01_bounds (x : Q) : (0 <= clamp01 x <= 1)%Q.
Proof.
  unfold clamp01.
  destruct (max_spec 0 x) as [[Hx ->]|[Hx ->]];
    [destruct (min_spec 1 x) as [[Hm ->]|[Hm ->]] |
     destruct (min_spec 1 0) as [[Hm ->]|[Hm ->]]]; lra.
Qed.

Lemma clamp01_mono (x y : Q) : (x <= y)%Q -> (clamp01 x <= clamp01 y)%Q.
Proof.
  intros Hxy. unfold clamp01.
  destruct (max_spec 0 x) as [[Hx ->]|[Hx ->]];
    destruct (max_spec 0 y) as [[Hy ->]|[Hy ->]];
    match goal with
    | |- (Py.min 1 ?u <= Py.min 1 ?v)%Q =>
        destruct (min_spec 1 u) as [[Hu Eu]|[Hu Eu]];
        destruct (min_spec 1 v) as [[Hv Ev]|[Hv Ev]];
        rewrite ?Eu, ?Ev
    end; lra.
Qed.

Lemma clamp01_inside (x : Q) : (0 <= x <= 1)%Q -> (clamp01 x == x)%Q.
Proof.
  intros [H0 H1]. unfold clamp01.
  destruct (max_spec 0 x) as [[Hx ->]|[Hx ->]];
    [destruct (min_spec 1 x) as [[Hm ->]|[Hm ->]] |
     destruct (min_spec 1 0) as [[Hm ->]|[Hm ->]]]; lra.
Qed.

(** ** The comparator *)

Section Comparator.

Import CanaryAnalyzer CanarySpec.


Lemma metric_difference_total (baseline canary : Q) :
  exists d, _calculate_metric_difference baseline canary = Ok d
            /\ difference_spec baseline canary d.
Proof.
  unfold _calculate_metric_difference, Py.div, difference_spec.
  destruct (Qeq_bool baseline 0) eqn:E; simpl.
  - apply Qeq_bool_iff in E. exists 0%Q. repeat split; tauto || reflexivity.
  - assert (~ (baseline == 0)%Q) as Hne
      by (intros H; apply Qeq_bool_iff in H; congruence).
    eexists. split; [reflexivity|]. split; [tauto | reflexivity].
Qed.

Lemma metric_difference_spec (baseline canary d : Q) :
  _calculate_metric_difference baseline canary = Ok d ->
  difference_spec baseline canary d.
Proof.
  intros H. destruct (metric_difference_total baseline canary) as (d' & E & S).
  congruence.
Qed.

Lemma metric_entry_difference config name diff entry :
  metric_entry config name diff = Ok entry ->
  difference_percentage entry = diff.
Proof.
  unfold metric_entry. intros H. ok_inv H. now inversion H.
Qed.

Lemma determine_impact_no_division config diff :
  _determine_impact_level config diff <> Err ZeroDivisionError.
Proof.
  unfold _determine_impact_level. intros H.
  repeat match type of H with
  | Py.bind (getitem ?d ?k) _ = Err _ =>
      let E := fresh "E" in
      destruct (getitem d k) eqn:E; simpl in H;
        [| apply getitem_Err in E; congruence]
  | (if ?c then _ else _) = _ => destruct c
  | _ => discriminate
  end.
Qed.

Lemma metric_entry_no_division config name diff :
  metric_entry config name diff <> Err ZeroDivisionError.
Proof.
  unfold metric_entry. intros H.
  destruct (require "thresholds" (thresholds config)) eqn:E1; simpl in H;
    [| apply require_Err in E1; congruence].
  destruct (getitem value name) eqn:E2; simpl in H;
    [| apply getitem_Err in E2; congruence].
  destruct (_determine_impact_level config diff) eqn:E3; simpl in H;
    [discriminate |].
  inversion H; subst. now apply determine_impact_no_division in E3.
Qed.

(** A raised exception of an analysis, traced to the call it came from. *)
Ltac no_division H :=
  repeat match type of H with
  | Py.bind ?r _ = Err _ =>
      let a := fresh "x" in
      let E := fresh "E" in
      apply bind_Err in H; destruct H as [E | (a & E & H)];
        [ first
            [ apply require_Err in E; discriminate E
            | now apply metric_entry_no_division in E
            | match type of E with
              | _calculate_metric_difference ?b ?c = _ =>
                  destruct (metric_difference_total b c) as (? & ? & _);
                  congruence
              end
            | idtac ]
        | ]
  | Ok _ = Err _ => discriminate H
  end.

(** With the cutoffs and the threshold of a metric at hand, its entry is
    built. *)
Lemma determine_impact_Ok config diff :
  cutoffs_complete config ->
  exists level, _determine_impact_level config diff = Ok level.
Proof.
  unfold cutoffs_complete, _determine_impact_level, getitem.
  intros ([high ->] & [medium ->] & [low ->]). simpl.
  destruct (Py.gt (Qabs diff) high); [eauto |].
  destruct (Py.gt (Qabs diff) medium); [eauto |].
  destruct (Py.gt (Qabs diff) low); eauto.
Qed.

Lemma metric_entry_Ok config names name diff :
  thresholds_for config names ->
  name ∈ names ->
  cutoffs_complete config ->
  exists entry, metric_entry config name diff = Ok entry.
Proof.
  intros (per_metric & Hth & Hall) Hname Hcut.
  rewrite Forall_forall in Hall. destruct (Hall name Hname) as [threshold Ht].
  destruct (determine_impact_Ok config diff Hcut) as [level Hl].
  unfold metric_entry, getitem. rewrite Hth. simpl. rewrite Ht. simpl.
  rewrite Hl. simpl. eauto.
Qed.

(** Rewrite with the next difference and the next entry of an analysis. *)
Ltac next_entry names Hth Hcut :=
  match goal with
  | |- context [_calculate_metric_difference ?b ?c] =>
      let d := fresh "d" in
      let E := fresh "E" in
      destruct (metric_difference_total b c) as (d & E & _);
      rewrite E; simpl Py.bind
  end;
  match goal with
  | |- context [metric_entry ?config ?name ?d] =>
      let e := fresh "e" in
      let E := fresh "E" in
      destruct (metric_entry_Ok config names name d Hth
                  ltac:(apply list_elem_of_In; simpl; tauto) Hcut)
        as (e & E);
      rewrite E; simpl Py.bind
  end.

(** C1.  Every difference in percent the comparator computes follows the
    specification: it is 0 when the baseline value is 0, and
    [(canary - baseline) / baseline * 100] otherwise.  The difference
    computation always returns, and no analysis raises a division fault
    (the error analysis, as long as the error-type helper it delegates to
    raises none).  Each of the three analyses does return its comparison
    when both sets of metrics hold its section, the configuration names a
    threshold for each of its metrics and the impact cutoffs are complete
    (and, for the error analysis, the error-type helper returns). *)
Theorem comparator_difference_percent
    (analyze_types : list string -> list string -> result ErrorTypesAnalysis)
    (config : Config) (baseline canary : Metrics) :
  (forall b c : Q, exists d,
      _calculate_metric_difference b c = Ok d /\ difference_spec b c d) /\
  (forall a, _analyze_performance config baseline canary = Ok a ->
     exists b c,
       performance baseline = Some b /\ performance canary = Some c /\
       difference_spec (latency b) (latency c)
         (difference_percentage (an_latency a)) /\
       difference_spec (throughput b) (throughput c)
         (difference_percentage (an_throughput a)) /\
       difference_spec (success_rate b) (success_rate c)
         (difference_percentage (an_success_rate a))) /\
  (forall a, _analyze_errors analyze_types config baseline canary = Ok a ->
     exists b c,
       errors baseline = Some b /\ errors canary = Some c /\
       difference_spec (error_rate b) (error_rate c)
         (difference_percentage (an_error_rate a))) /\
  (forall a, _analyze_resources config baseline canary = Ok a ->
     exists b c,
       resources baseline = Some b /\ resources canary = Some c /\
       difference_spec (cpu_usage b) (cpu_usage c)
         (difference_percentage (an_cpu a)) /\
       difference_spec (memory_usage b) (memory_usage c)
         (difference_percentage (an_memory a))) /\
  _analyze_performance config baseline canary <> Err ZeroDivisionError /\
  _analyze_resources config baseline canary <> Err ZeroDivisionError /\
  ((forall x y, analyze_types x y <> Err ZeroDivisionError) ->
   _analyze_errors analyze_types config baseline canary
     <> Err ZeroDivisionError) /\
  (cutoffs_complete config ->
   (is_Some (performance baseline) -> is_Some (performance canary) ->
    thresholds_for config ["latency"; "throughput"; "success_rate"] ->
    exists a, _analyze_performance config baseline canary = Ok a) /\
   (forall b c types,
       errors baseline = Some b -> errors canary = Some c ->
       thresholds_for config ["error_rate"] ->
       analyze_types (error_types b) (error_types c) = Ok types ->
       exists a,
         _analyze_errors analyze_types config baseline canary = Ok a /\
         an_error_types a = types) /\
   (is_Some (resources baseline) -> is_Some (resources canary) ->
    thresholds_for config ["cpu"; "memory"] ->
    exists a, _analyze_resources config baseline canary = Ok a)).
Proof.
  split; [intros b c; apply metric_difference_total |].
  split; [| split; [| split]].
  - intros a H. unfold _analyze_performance in H. ok_inv H.
    inversion H; subst; clear H. simpl.
    exists x, x0. split; [eauto using require_Ok |].
    split; [eauto using require_Ok |].
    repeat match goal with
    | E : metric_entry _ _ _ = Ok _ |- _ =>
        apply metric_entry_difference in E; rewrite E
    end.
    auto using metric_difference_spec.
  - intros a H. unfold _analyze_errors in H. ok_inv H.
    inversion H; subst; clear H. simpl.
    exists x, x0. split; [eauto using require_Ok |].
    split; [eauto using require_Ok |].
    match goal with
    | E : metric_entry _ _ _ = Ok _ |- _ =>
        apply metric_entry_difference in E; rewrite E
    end.
    auto using metric_difference_spec.
  - intros a H. unfold _analyze_resources in H. ok_inv H.
    inversion H; subst; clear H. simpl.
    exists x, x0. split; [eauto using require_Ok |].
    split; [eauto using require_Ok |].
    repeat match goal with
    | E : metric_entry _ _ _ = Ok _ |- _ =>
        apply metric_entry_difference in E; rewrite E
    end.
    auto using metric_difference_spec.
  - split; [| split; [| split]].
    + intros H. unfold _analyze_performance in H. no_division H.
    + intros H. unfold _analyze_resources in H. no_division H.
    + intros Htypes H. unfold _analyze_errors in H. no_division H.
      now apply Htypes in E3.
    + intros Hcut. split; [| split].
      * intros [b Hb] [c Hc] Hth. unfold _analyze_performance.
        rewrite Hb, Hc. simpl Py.bind.
        do 3 next_entry ["latency"; "throughput"; "success_rate"] Hth Hcut.
        eauto.
      * intros b c types Hb Hc Hth Htypes. unfold _analyze_errors.
        rewrite Hb, Hc. simpl Py.bind.
        next_entry ["error_rate"] Hth Hcut.
        rewrite Htypes. simpl. eauto.
      * intros [b Hb] [c Hc] Hth. unfold _analyze_resources.
        rewrite Hb, Hc. simpl Py.bind.
        do 2 next_entry ["cpu"; "memory"] Hth Hcut.
        eauto.
Qed.

Lemma sample_thresholds_for (names : list string) :
  Forall (fun name => name ∈ ["latency"; "throughput"; "success_rate";
                               "error_rate"; "cpu"; "memory"]) names ->
  thresholds_for sample_config names.
Proof.
  intros Hnames. eexists. split; [reflexivity |].
  eapply Forall_impl; [exact Hnames |]. intros name Hname.
  apply list_elem_of_In in Hname. simpl in Hname.
  destruct Hname as [<- | [<- | [<- | [<- | [<- | [<- | []]]]]]];
    vm_compute; eauto.
Qed.

Lemma sample_cutoffs_complete : cutoffs_complete sample_config.
Proof. repeat split; vm_compute; eauto. Qed.

(** The three analyses on sample metrics.  Latency 100 against 105 differs
    by 5 percent, throughput 0 against 0 has a zero baseline and differs
    by 0.  An error rate of 2 against 3 differs by 50 percent.  A CPU
    usage of 40 against 50 differs by 25 percent, and a memory usage of 0
    against 60 has a zero baseline and differs by 0. *)
Lemma comparator_difference_percent_witness :
  (exists a,
      _analyze_performance sample_config
        (sample_metrics 100 1) (sample_metrics 105 1) = Ok a /\
      (difference_percentage (an_latency a) == 5)%Q /\
      (difference_percentage (an_throughput a) == 0)%Q) /\
  (exists a,
      _analyze_errors quiet_error_types sample_config
        (sample_metrics 100 2) (sample_metrics 105 3) = Ok a /\
      (difference_percentage (an_error_rate a) == 50)%Q) /\
  (exists a,
      _analyze_resources sample_config
        (resource_sample 40 0) (resource_sample 50 60) = Ok a /\
      (difference_percentage (an_cpu a) == 25)%Q /\
      (difference_percentage (an_memory a) == 0)%Q).
Proof.
  split; [| split].
  - destruct (comparator_difference_percent quiet_error_types sample_config
                (sample_metrics 100 1) (sample_metrics 105 1))
      as (_ & Hperf & _ & _ & _ & _ & _ & Hreturns).
    destruct (Hreturns sample_cutoffs_complete) as (Hrun & _ & _).
    destruct Hrun as [a Ha]; [simpl; eauto | simpl; eauto | |].
    { apply sample_thresholds_for.
      repeat constructor; apply list_elem_of_In; simpl; tauto. }
    exists a. split; [assumption |].
    destruct (Hperf a Ha) as (b & c & Hb & Hc & Hl & Ht & _).
    simpl in Hb, Hc. injection Hb as <-. injection Hc as <-. simpl in Hl, Ht.
    split.
    + destruct Hl as [_ Hl]. rewrite Hl; [reflexivity | discriminate].
    + destruct Ht as [Ht _]. apply Ht. reflexivity.
  - destruct (comparator_difference_percent quiet_error_types sample_config
                (sample_metrics 100 2) (sample_metrics 105 3))
      as (_ & _ & Herr & _ & _ & _ & _ & Hreturns).
    destruct (Hreturns sample_cutoffs_complete) as (_ & Hrun & _).
    destruct (Hrun _ _ _ eq_refl eq_refl
                (sample_thresholds_for ["error_rate"]
                   ltac:(repeat constructor; apply list_elem_of_In;
                         simpl; tauto))
                eq_refl) as (a & Ha & _).
    exists a. split; [assumption |].
    destruct (Herr a Ha) as (b & c & Hb & Hc & [_ Hr]).
    simpl in Hb, Hc. injection Hb as <-. injection Hc as <-. simpl in Hr.
    rewrite Hr; [reflexivity | discriminate].
  - destruct (comparator_difference_percent quiet_error_types sample_config
                (resource_sample 40 0) (resource_sample 50 60))
      as (_ & _ & _ & Hres & _ & _ & _ & Hreturns).
    destruct (Hreturns sample_cutoffs_complete) as (_ & _ & Hrun).
    destruct Hrun as [a Ha]; [simpl; eauto | simpl; eauto | |].
    { apply sample_thresholds_for.
      repeat constructor; apply list_elem_of_In; simpl; tauto. }
    exists a. split; [assumption |].
    destruct (Hres a Ha) as (b & c & Hb & Hc & Hcpu & Hmem).
    simpl in Hb, Hc. injection Hb as <-. injection Hc as <-.
    simpl in Hcpu, Hmem. split.
    + destruct Hcpu as [_ Hcpu]. rewrite Hcpu; [reflexivity | discriminate].
    + destruct Hmem as [Hmem _]. apply Hmem. reflexivity.
Defined.

End Comparator.

(** ** The promotion decision *)

Section PromotionDecision.

Import CanaryAnalyzer CanarySpec.

Lemma clamp01_proper (x y : Q) : (x == y)%Q -> (clamp01 x == clamp01 y)%Q.
Proof.
  intros H. apply Qle_antisym; apply clamp01_mono; rewrite H; apply Qle_refl.
Qed.

Lemma weighted_sum_items (weights : gmap string Q) (m : DecisionMetrics)
    (wp we wr wu : Q) :
  weights !! "performance_score" = Some wp ->
  weights !! "error_score" = Some we ->
  weights !! "resource_score" = Some wr ->
  weights !! "user_impact_score" = Some wu ->
  exists total,
    weighted_sum weights (items m) 0 = Ok total /\
    (total == weighted_total wp we wr wu m)%Q.
Proof.
  intros Hp He Hr Hu. unfold items, weighted_sum, getitem.
  rewrite Hp, He, Hr, Hu. simpl. eexists. split; [reflexivity |].
  unfold weighted_total. ring.
Qed.

Lemma weighted_sum_keys (weights : gmap string Q) (m : DecisionMetrics)
    (total : Q) :
  weighted_sum weights (items m) 0 = Ok total ->
  exists wp we wr wu,
    weights !! "performance_score" = Some wp /\
    weights !! "error_score" = Some we /\
    weights !! "resource_score" = Some wr /\
    weights !! "user_impact_score" = Some wu.
Proof.
  unfold items, weighted_sum, getitem. intros H.
  destruct (weights !! "performance_score") as [wp|]; [| discriminate].
  destruct (weights !! "error_score") as [we|]; [| discriminate].
  destruct (weights !! "resource_score") as [wr|]; [| discriminate].
  destruct (weights !! "user_impact_score") as [wu|]; [| discriminate].
  now exists wp, we, wr, wu.
Qed.

(** The overall score of the specification and the confidence of the code
    are one computation. *)
Lemma overall_score_is_confidence config m :
  _calculate_overall_score config m = _calculate_decision_confidence config m.
Proof. reflexivity. Qed.

Lemma confidence_value config m wp we wr wu :
  weights_of config !! "performance_score" = Some wp ->
  weights_of config !! "error_score" = Some we ->
  weights_of config !! "resource_score" = Some wr ->
  weights_of config !! "user_impact_score" = Some wu ->
  exists c,
    _calculate_decision_confidence config m = Ok c /\
    (c == clamp01 (weighted_total wp we wr wu m))%Q.
Proof.
  intros Hp He Hr Hu.
  destruct (weighted_sum_items (weights_of config) m _ _ _ _ Hp He Hr Hu)
    as (total & Hsum & Htotal).
  unfold _calculate_decision_confidence. fold (weights_of config).
  rewrite Hsum. simpl. eexists. split; [reflexivity |].
  now apply clamp01_proper.
Qed.

Lemma decide_promotion_Ok reasons_of config (a : analysis) (d : Decision) :
  decide_promotion reasons_of config a = Ok d ->
  metrics_scores d = scores_of a /\
  _calculate_overall_score config (scores_of a) = Ok (overall_score d) /\
  _calculate_decision_confidence config (scores_of a) = Ok (confidence d) /\
  exists threshold,
    promotion_threshold config = Some threshold /\
    promote d = Py.ge (overall_score d) threshold.
Proof.
  unfold decide_promotion, _make_promotion_decision. intros H. ok_inv H.
  unfold _calculate_performance_score, _calculate_error_score,
    _calculate_resource_score, _calculate_user_impact_score in *.
  repeat match goal with E : Ok _ = Ok _ |- _ => injection E as <- end.
  cbn [metrics_scores overall_score confidence promote].
  split; [reflexivity |]. split; [assumption |]. split; [assumption |].
  eexists. split; [eauto using require_Ok | reflexivity].
Qed.

(** C4.  A decision promotes exactly when the overall score it reports,
    the one [_calculate_overall_score] computed from its category scores,
    reaches the configured promotion threshold.  This holds whatever the
    scoring helpers are. *)
Theorem promotion_verdict {U : Type}
    (perf : PerformanceAnalysis -> result Q) (err : ErrorAnalysis -> result Q)
    (res : ResourceAnalysis -> result Q) (usr : U -> result Q)
    (overall : Config -> DecisionMetrics -> result Q)
    (reasons_of : bool -> DecisionMetrics -> AnalysisResults U ->
                  result (list string))
    (config : Config) (a : AnalysisResults U) (d : Decision) :
  _make_promotion_decision perf err res usr overall reasons_of config a = Ok d ->
  overall config (metrics_scores d) = Ok (overall_score d) /\
  exists threshold,
    promotion_threshold config = Some threshold /\
    (promote d = true <-> (threshold <= overall_score d)%Q).
Proof.
  unfold _make_promotion_decision. intros H. ok_inv H.
  injection H as <-. simpl. split; [assumption |].
  exists x4. split; [eauto using require_Ok | apply ge_true].
Qed.

(** A quiet analysis scores 1 and is promoted at threshold 0.8; one with a
    high performance impact scores 0.6 and is not. *)
Lemma promotion_verdict_witness :
  exists d d',
    decide_promotion no_reasons sample_config (sample_analysis Insignificant) = Ok d /\
    promote d = true /\ (8 # 10 <= overall_score d)%Q /\
    decide_promotion no_reasons sample_config (sample_analysis High) = Ok d' /\
    promote d' = false /\ ~ (8 # 10 <= overall_score d')%Q.
Proof.
  destruct (decide_promotion no_reasons sample_config (sample_analysis Insignificant))
    as [d|] eqn:E; [| vm_compute in E; discriminate E].
  destruct (decide_promotion no_reasons sample_config (sample_analysis High))
    as [d'|] eqn:E'; [| vm_compute in E'; discriminate E'].
  exists d, d'.
  destruct (promotion_verdict _ _ _ _ _ _ _ _ _ E) as (_ & t & Ht & Hd).
  destruct (promotion_verdict _ _ _ _ _ _ _ _ _ E') as (_ & t' & Ht' & Hd').
  simpl in Ht, Ht'. injection Ht as <-. injection Ht' as <-.
  assert (promote d = true) as P
    by (vm_compute in E; injection E as <-; reflexivity).
  assert (promote d' = false) as P'
    by (vm_compute in E'; injection E' as <-; reflexivity).
  repeat split; try assumption.
  - now apply Hd.
  - intros L. apply Hd' in L. congruence.
Defined.

(** The first scenario of the specification: latency 100 against 105 under
    a threshold of 10 percent differs by 5 percent, is not significant, and
    the decision promotes with score 1. *)
Example scenario_small_latency_shift :
  exists a d,
    analyze sample_config (sample_metrics 100 1) (sample_metrics 105 1)
    = Ok (a, d) /\
    (difference_percentage (an_latency (performance_analysis a)) == 5)%Q /\
    significant (an_latency (performance_analysis a)) = false /\
    promote d = true /\ (overall_score d == 1)%Q.
Proof.
  destruct (analyze sample_config (sample_metrics 100 1) (sample_metrics 105 1))
    as [[a d]|] eqn:E; [| vm_compute in E; discriminate E].
  exists a, d. split; [reflexivity |].
  vm_compute in E. injection E as <- <-. repeat split.
Qed.

(** The second scenario: error rate 1 against 8 under a threshold of 5
    percent differs by 700 percent, is significant with high impact, the
    error category scores 0, and the overall score 0.7 stays below the
    promotion threshold 0.8. *)
Example scenario_error_rate_jump :
  exists a d,
    analyze sample_config (sample_metrics 100 1) (sample_metrics 100 8)
    = Ok (a, d) /\
    (difference_percentage (an_error_rate (error_analysis a)) == 700)%Q /\
    significant (an_error_rate (error_analysis a)) = true /\
    impact (an_error_rate (error_analysis a)) = High /\
    (error_score (metrics_scores d) == 0)%Q /\
    (overall_score d == 7 # 10)%Q /\ promote d = false.
Proof.
  destruct (analyze sample_config (sample_metrics 100 1) (sample_metrics 100 8))
    as [[a d]|] eqn:E; [| vm_compute in E; discriminate E].
  exists a, d. split; [reflexivity |].
  vm_compute in E. injection E as <- <-. repeat split.
Qed.

Lemma default_weights_lookup :
  default_confidence_weights !! "performance_score" = Some (4 # 10)%Q /\
  default_confidence_weights !! "error_score" = Some (3 # 10)%Q /\
  default_confidence_weights !! "resource_score" = Some (2 # 10)%Q /\
  default_confidence_weights !! "user_impact_score" = Some (1 # 10)%Q.
Proof. repeat split; vm_compute; reflexivity. Qed.

(** C8.  Under weights that name the four categories, the confidence and
    the overall score are one number: the weighted sum of the four category
    scores, clamped to [0,1], whatever the weights add up to.  Without
    configured weights the sum uses 0.4, 0.3, 0.2 and 0.1.  Both fields of
    every decision carry that number. *)
Theorem weighted_score (config : Config) (m : DecisionMetrics) :
  (forall wp we wr wu,
      weights_of config !! "performance_score" = Some wp ->
      weights_of config !! "error_score" = Some we ->
      weights_of config !! "resource_score" = Some wr ->
      weights_of config !! "user_impact_score" = Some wu ->
      exists c,
        _calculate_decision_confidence config m = Ok c /\
        _calculate_overall_score config m = Ok c /\
        (c == clamp01 (weighted_total wp we wr wu m))%Q /\
        (0 <= c <= 1)%Q) /\
  (confidence_weights config = None ->
   exists c,
     _calculate_decision_confidence config m = Ok c /\
     _calculate_overall_score config m = Ok c /\
     (c == clamp01 (weighted_total (4 # 10) (3 # 10) (2 # 10) (1 # 10) m))%Q) /\
  (forall reasons_of a d,
      decide_promotion reasons_of config a = Ok d ->
      overall_score d = confidence d /\
      (0 <= overall_score d <= 1)%Q /\
      exists wp we wr wu,
        weights_of config !! "performance_score" = Some wp /\
        weights_of config !! "error_score" = Some we /\
        weights_of config !! "resource_score" = Some wr /\
        weights_of config !! "user_impact_score" = Some wu /\
        (overall_score d
         == clamp01 (weighted_total wp we wr wu (metrics_scores d)))%Q).
Proof.
  assert (forall m' wp we wr wu,
      weights_of config !! "performance_score" = Some wp ->
      weights_of config !! "error_score" = Some we ->
      weights_of config !! "resource_score" = Some wr ->
      weights_of config !! "user_impact_score" = Some wu ->
      exists c,
        _calculate_decision_confidence config m' = Ok c /\
        _calculate_overall_score config m' = Ok c /\
        (c == clamp01 (weighted_total wp we wr wu m'))%Q /\
        (0 <= c <= 1)%Q) as Hmain.
  { intros m' wp we wr wu Hp He Hr Hu.
    destruct (confidence_value config m' _ _ _ _ Hp He Hr Hu) as (c & Hc & Hv).
    exists c. split; [assumption |]. split; [assumption |].
    split; [assumption |].
    rewrite Hv. apply clamp01_bounds. }
  split; [apply Hmain |]. split.
  - intros Hnone.
    destruct default_weights_lookup as (Hp & He & Hr & Hu).
    unfold weights_of in Hmain. rewrite Hnone in Hmain. simpl in Hmain.
    destruct (Hmain m _ _ _ _ Hp He Hr Hu) as (c & Hc & Ho & Hv & _).
    now exists c.
  - intros reasons_of a d Hd.
    apply decide_promotion_Ok in Hd. destruct Hd as (Hm & Ho & Hc & _).
    rewrite Hm.
    assert (exists total,
               weighted_sum (weights_of config) (items (scores_of a)) 0
               = Ok total) as (total & Hsum).
    { unfold _calculate_overall_score in Ho. fold (weights_of config) in Ho.
      destruct (weighted_sum (weights_of config) (items (scores_of a)) 0);
        [eauto | discriminate]. }
    destruct (weighted_sum_keys _ _ _ Hsum) as (wp & we & wr & wu & K).
    destruct K as (Hp & He & Hr & Hu).
    destruct (Hmain (scores_of a) _ _ _ _ Hp He Hr Hu)
      as (c & Hc' & Ho' & Hv & Hb).
    assert (overall_score d = c) as -> by congruence.
    assert (confidence d = c) as -> by congruence.
    split; [reflexivity |]. split; [assumption |].
    exists wp, we, wr, wu. repeat split; assumption.
Qed.

(** With weights 1, 1, 1, 1 the four scores of a quiet analysis add up to
    4, and the decision reports 1. *)
Lemma weighted_score_witness :
  exists d,
    decide_promotion no_reasons heavy_weight_config (sample_analysis Insignificant)
    = Ok d /\
    overall_score d = confidence d /\
    (overall_score d == 1)%Q /\
    (weighted_total 1 1 1 1 (metrics_scores d) == 4)%Q.
Proof.
  destruct (decide_promotion no_reasons heavy_weight_config
              (sample_analysis Insignificant))
    as [d|] eqn:E; [| vm_compute in E; discriminate E].
  exists d. split; [reflexivity |].
  destruct (weighted_score heavy_weight_config (metrics_scores d))
    as (_ & _ & Hd).
  destruct (Hd _ _ _ E) as (Heq & _ & _).
  split; [assumption |].
  vm_compute in E. injection E as <-. split; reflexivity.
Defined.

Lemma category_score_values :
  (category_score Insignificant == 1)%Q /\
  (category_score Low == 3 # 4)%Q /\
  (category_score Medium == 1 # 2)%Q /\
  (category_score High == 0)%Q.
Proof. repeat split; vm_compute; reflexivity. Qed.

Lemma category_score_antitone (worst worst' : Impact) :
  (impact_rank worst <= impact_rank worst')%nat ->
  (category_score worst' <= category_score worst)%Q.
Proof.
  destruct worst, worst'; simpl; intros H; try lia;
    apply Qle_bool_iff; vm_compute; reflexivity.
Qed.

Lemma overall_score_total config m c :
  _calculate_overall_score config m = Ok c ->
  exists wp we wr wu,
    weights_of config !! "performance_score" = Some wp /\
    weights_of config !! "error_score" = Some we /\
    weights_of config !! "resource_score" = Some wr /\
    weights_of config !! "user_impact_score" = Some wu /\
    (c == clamp01 (weighted_total wp we wr wu m))%Q.
Proof.
  intros Ho.
  assert (exists total,
             weighted_sum (weights_of config) (items m) 0 = Ok total)
    as (total & Hsum).
  { unfold _calculate_overall_score in Ho. fold (weights_of config) in Ho.
    destruct (weighted_sum (weights_of config) (items m) 0);
      [eauto | discriminate]. }
  destruct (weighted_sum_keys _ _ _ Hsum) as (wp & we & wr & wu & K).
  destruct K as (Hp & He & Hr & Hu).
  destruct (confidence_value config m _ _ _ _ Hp He Hr Hu) as (c' & Hc & Hv).
  rewrite overall_score_is_confidence, Hc in Ho. injection Ho as <-.
  exists wp, we, wr, wu. repeat split; assumption.
Qed.

(** C5, as amended.  Take two analyses that differ in one category only,
    the second having the worse worst significant impact there.  If the
    weight in force for that category is not negative, the second decision
    does not score higher than the first.  The category scores themselves
    are 1, 0.75, 0.5 and 0 along insignificant, low, medium, high. *)
Theorem promotion_monotone reasons_of reasons_of' (config : Config)
    (c : Category) (a a' : analysis) (d d' : Decision) (w : Q) :
  weights_of config !! score_key c = Some w ->
  (0 <= w)%Q ->
  (forall other, other <> c -> worst_of other a' = worst_of other a) ->
  (impact_rank (worst_of c a) <= impact_rank (worst_of c a'))%nat ->
  decide_promotion reasons_of config a = Ok d ->
  decide_promotion reasons_of' config a' = Ok d' ->
  (overall_score d' <= overall_score d)%Q.
Proof.
  intros Hw Hpos Hothers Hrank Hd Hd'.
  apply decide_promotion_Ok in Hd. destruct Hd as (_ & Ho & _).
  apply decide_promotion_Ok in Hd'. destruct Hd' as (_ & Ho' & _).
  apply overall_score_total in Ho.
  destruct Ho as (wp & we & wr & wu & Hp & He & Hr & Hu & ->).
  apply overall_score_total in Ho'.
  destruct Ho' as (wp' & we' & wr' & wu' & Hp' & He' & Hr' & Hu' & ->).
  assert (wp' = wp) as -> by congruence.
  assert (we' = we) as -> by congruence.
  assert (wr' = wr) as -> by congruence.
  assert (wu' = wu) as -> by congruence.
  apply clamp01_mono. unfold weighted_total, scores_of. simpl.
  apply category_score_antitone in Hrank.
  destruct c; simpl in Hw;
    repeat match goal with
    | |- context [worst_of ?o a'] =>
        rewrite (Hothers o) by discriminate
    end.
  - assert (w = wp) as -> by congruence.
    pose proof (Qmult_le_compat_r _ _ _ Hrank Hpos). lra.
  - assert (w = we) as -> by congruence.
    pose proof (Qmult_le_compat_r _ _ _ Hrank Hpos). lra.
  - assert (w = wr) as -> by congruence.
    pose proof (Qmult_le_compat_r _ _ _ Hrank Hpos). lra.
  - assert (w = wu) as -> by congruence.
    pose proof (Qmult_le_compat_r _ _ _ Hrank Hpos). lra.
Qed.

(** Under the default weights, raising the performance impact from
    insignificant to high lowers the score from 1 to 0.6. *)
Lemma promotion_monotone_witness :
  exists d d',
    decide_promotion no_reasons sample_config (sample_analysis Insignificant) = Ok d /\
    decide_promotion no_reasons sample_config (sample_analysis High) = Ok d' /\
    (overall_score d' <= overall_score d)%Q.
Proof.
  destruct (decide_promotion no_reasons sample_config (sample_analysis Insignificant))
    as [d|] eqn:E; [| vm_compute in E; discriminate E].
  destruct (decide_promotion no_reasons sample_config (sample_analysis High))
    as [d'|] eqn:E'; [| vm_compute in E'; discriminate E'].
  exists d, d'. split; [reflexivity |]. split; [reflexivity |].
  apply (promotion_monotone no_reasons no_reasons sample_config Performance
           (sample_analysis Insignificant) (sample_analysis High) d d'
           (4 # 10)%Q).
  - vm_compute. reflexivity.
  - discriminate.
  - intros other Hne. destruct other; [congruence | | |]; reflexivity.
  - simpl. lia.
  - exact E.
  - exact E'.
Defined.

(** C5, as stated, fails for a category whose configured weight is
    negative: with weight -1 on performance, raising the performance impact
    from insignificant to high, every other category unchanged, raises the
    overall score from 0 to 0.6. *)
Lemma promotion_monotone_counterexample :
  exists d d',
    decide_promotion no_reasons negative_weight_config (sample_analysis Insignificant)
    = Ok d /\
    decide_promotion no_reasons negative_weight_config (sample_analysis High) = Ok d' /\
    (forall other, other <> Performance ->
       worst_of other (sample_analysis High)
       = worst_of other (sample_analysis Insignificant)) /\
    worst_of Performance (sample_analysis Insignificant) = Insignificant /\
    worst_of Performance (sample_analysis High) = High /\
    (overall_score d == 0)%Q /\ (overall_score d' == 6 # 10)%Q /\
    (overall_score d < overall_score d')%Q.
Proof.
  destruct (decide_promotion no_reasons negative_weight_config
              (sample_analysis Insignificant))
    as [d|] eqn:E; [| vm_compute in E; discriminate E].
  destruct (decide_promotion no_reasons negative_weight_config (sample_analysis High))
    as [d'|] eqn:E'; [| vm_compute in E'; discriminate E'].
  exists d, d'. split; [reflexivity |]. split; [reflexivity |].
  split; [intros other Hne; destruct other; [congruence | | |]; reflexivity |].
  split; [reflexivity |]. split; [reflexivity |].
  vm_compute in E. injection E as <-.
  vm_compute in E'. injection E' as <-.
  simpl. repeat split.
Qed.

End PromotionDecision.

(** ** The rollback sequencer *)

Section RollbackSequencer.

Import RollbackHandler RollbackSpec.

Context {World DeploymentData PreviousState Step Points
         Metadata Verification Report : Type}.
Variable execute : Step -> World -> World * result (StepResult Step).

Local Abbreviation run_steps := (run_steps execute).
Local Abbreviation all_succeed := (all_succeed execute).

Lemma all_success_app (rs rs' : list (StepResult Step)) :
  all_success rs = Ok true ->
  all_success (rs ++ rs') = all_success rs'.
Proof.
  induction rs as [|r rs IH]; simpl; [reflexivity |].
  destruct (success r) as [[|]|]; [assumption | discriminate | discriminate].
Qed.

Lemma all_succeed_results steps world final rs :
  all_succeed steps world = Some (final, rs) ->
  all_success rs = Ok true /\ length rs = length steps.
Proof.
  revert world final rs.
  induction steps as [|s steps IH]; simpl; intros world final rs H.
  - injection H as <- <-. auto.
  - destruct (execute s world) as [world' [r|e]]; [| discriminate].
    destruct (success r) as [[|]|] eqn:Er; try discriminate.
    destruct (all_succeed steps world') as [[final' rs']|] eqn:Es;
      [| discriminate].
    injection H as <- <-. simpl. rewrite Er.
    destruct (IH _ _ _ Es) as [-> ->]. auto.
Qed.

(** A prefix of steps that all succeed is run through. *)
Lemma run_steps_prefix before rest acc world final rs trace :
  all_succeed before world = Some (final, rs) ->
  run_steps (before ++ rest) acc (world, trace)
  = run_steps rest (acc ++ rs) (final, trace ++ map ExecuteStep before).
Proof.
  revert acc world rs trace.
  induction before as [|s before IH]; simpl; unfold call;
    intros acc world rs trace H.
  - injection H as <- <-. now rewrite !app_nil_r.
  - destruct (execute s world) as [world' [r|e]] eqn:Ex; [| discriminate].
    destruct (success r) as [[|]|] eqn:Er; try discriminate.
    destruct (all_succeed before world') as [[final' rs']|] eqn:Es;
      [| discriminate].
    injection H as <- <-.
    rewrite (IH _ _ _ _ Es), <- !app_assoc. reflexivity.
Qed.

(** The first failing step ends the loop. *)
Lemma run_steps_failure s rest acc world world' outcome trace :
  execute s world = (world', outcome) ->
  fails outcome ->
  exists r,
    success r = Some false /\
    run_steps (s :: rest) acc (world, trace)
    = ((world', trace ++ [ExecuteStep s]), Ok (acc ++ [r])).
Proof.
  intros Ex Hf. simpl. unfold call. rewrite Ex.
  destruct outcome as [r|e]; simpl in Hf.
  - exists r. rewrite Hf. auto.
  - exists (failure s e). auto.
Qed.

(** C2.  Let step k of a plan be the first that fails, by returning
    [success = False] or by raising, the k-1 steps before it having
    succeeded.  Then [_execute_rollback] calls the step executor on the
    first k steps and on nothing else, reports [steps_executed = k], and
    reports [success = False]. *)
Theorem rollback_halts_at_failure
    (plan : RollbackPlan PreviousState Step Points)
    (before : list Step) (s : Step) (after : list Step)
    (world final world' : World) (rs : list (StepResult Step))
    (outcome : result (StepResult Step)) (trace : list (Event Step)) :
  rollback_steps plan = before ++ s :: after ->
  all_succeed before world = Some (final, rs) ->
  execute s final = (world', outcome) ->
  fails outcome ->
  exists rr,
    _execute_rollback execute plan (world, trace)
    = ((world', trace ++ map ExecuteStep (before ++ [s])), Ok rr) /\
    steps_executed rr = S (length before) /\
    rollback_success rr = false.
Proof.
  intros Hplan Hbefore Hs Hfail.
  destruct (run_steps_failure s after ([] ++ rs) final world' outcome
              (trace ++ map ExecuteStep before) Hs Hfail)
    as (r & Hr & Hrun).
  destruct (all_succeed_results _ _ _ _ Hbefore) as [Hall Hlen].
  unfold _execute_rollback, bindM. rewrite Hplan.
  rewrite (run_steps_prefix _ _ _ _ _ _ _ Hbefore), Hrun.
  unfold lift. simpl app at 2.
  rewrite (all_success_app _ _ Hall). simpl. rewrite Hr. simpl.
  eexists. split.
  - rewrite map_app, app_assoc. reflexivity.
  - simpl. rewrite length_app, Hlen. simpl. split; [lia | reflexivity].
Qed.

(** Whatever the steps do, the loop calls the executor on a prefix of the
    plan, in order, and on nothing else; it stops short of the end only
    with a result that is not a success. *)
Lemma run_steps_trace steps acc world trace world' trace' out :
  run_steps steps acc (world, trace) = ((world', trace'), out) ->
  exists n rs,
    out = Ok rs /\
    (n <= length steps)%nat /\
    trace' = trace ++ map ExecuteStep (take n steps) /\
    (all_success acc = Ok true ->
     forall ok, all_success rs = Ok ok ->
       length rs = (length acc + n)%nat /\
       (ok = true -> n = length steps)).
Proof.
  revert acc world trace.
  induction steps as [|s steps IH]; intros acc world trace H.
  - simpl in H. injection H as <- <- <-. exists 0%nat, acc.
    rewrite app_nil_r. repeat split; auto with lia.
  - simpl in H. unfold call in H.
    destruct (execute s world) as [w1 [r|e]] eqn:Ex.
    + destruct (success r) as [[|]|] eqn:Er.
      * apply IH in H. destruct H as (n & rs & -> & Hn & -> & Hrs).
        exists (S n), rs. split; [reflexivity |]. split; [simpl; lia |].
        split; [simpl; now rewrite <- app_assoc |].
        intros Hacc ok Hok.
        assert (all_success (acc ++ [r]) = Ok true) as Hacc'.
        { rewrite (all_success_app _ _ Hacc). simpl. now rewrite Er. }
        destruct (Hrs Hacc' ok Hok) as [Hl Hfull].
        rewrite length_app in Hl. simpl in *. split; [lia | auto].
      * injection H as <- <- <-. exists 1%nat, (acc ++ [r]).
        split; [reflexivity |]. split; [simpl; lia |].
        split; [simpl; rewrite ?take_0; reflexivity |].
        intros Hacc ok Hok. rewrite (all_success_app _ _ Hacc) in Hok.
        simpl in Hok. rewrite Er in Hok. injection Hok as <-.
        rewrite length_app. simpl. split; [lia | discriminate].
      * injection H as <- <- <-.
        exists 1%nat, (acc ++ [r] ++ [failure s (KeyError "success")]).
        split; [reflexivity |]. split; [simpl; lia |].
        split; [simpl; rewrite ?take_0; reflexivity |].
        intros Hacc ok Hok. rewrite (all_success_app _ _ Hacc) in Hok.
        simpl in Hok. rewrite Er in Hok. discriminate.
    + injection H as <- <- <-. exists 1%nat, (acc ++ [failure s e]).
      split; [reflexivity |]. split; [simpl; lia |].
      split; [simpl; rewrite ?take_0; reflexivity |].
      intros Hacc ok Hok. rewrite (all_success_app _ _ Hacc) in Hok.
      simpl in Hok. injection Hok as <-.
      rewrite length_app. simpl. split; [lia | discriminate].
Qed.

Lemma execute_rollback_trace (plan : RollbackPlan PreviousState Step Points)
    world trace world' trace' rr :
  _execute_rollback execute plan (world, trace) = ((world', trace'), Ok rr) ->
  (steps_executed rr <= length (rollback_steps plan))%nat /\
  trace' = trace
           ++ map ExecuteStep (take (steps_executed rr) (rollback_steps plan)) /\
  (rollback_success rr = true ->
   steps_executed rr = length (rollback_steps plan)).
Proof.
  unfold _execute_rollback. intros H.
  apply bindM_Ok in H. destruct H as (rs & [w1 t1] & Hrun & H).
  apply bindM_Ok in H. destruct H as (ok & run2 & Hall & H).
  apply lift_Ok in Hall. destruct Hall as [-> Hall].
  apply ret_Ok in H. destruct H as [[= <- <-] ->]. simpl.
  apply run_steps_trace in Hrun.
  destruct Hrun as (n & rs' & [= <-] & Hn & -> & Hrs).
  destruct (Hrs eq_refl ok Hall) as [Hlen Hfull]. simpl in Hlen.
  rewrite Hlen. auto.
Qed.

(** How the loop ends: either every step succeeded, or it stopped at the
    first step that failed. *)
Lemma run_steps_outcome steps acc world trace run' rs ok :
  run_steps steps acc (world, trace) = (run', Ok rs) ->
  all_success acc = Ok true ->
  all_success rs = Ok ok ->
  (ok = true /\
   exists final done,
     all_succeed steps world = Some (final, done) /\
     rs = acc ++ done /\
     run' = (final, trace ++ map ExecuteStep steps)) \/
  (ok = false /\
   exists before s after final done world' outcome,
     steps = before ++ s :: after /\
     all_succeed before world = Some (final, done) /\
     execute s final = (world', outcome) /\
     fails outcome /\
     run' = (world', trace ++ map ExecuteStep (before ++ [s])) /\
     length rs = (length acc + S (length before))%nat).
Proof.
  revert acc world trace.
  induction steps as [|s steps IH]; intros acc world trace H Hacc Hok.
  - simpl in H. injection H as <- <-. left.
    assert (ok = true) as -> by congruence.
    split; [reflexivity |]. exists world, []. now rewrite !app_nil_r.
  - simpl in H. unfold call in H.
    destruct (execute s world) as [w1 [r|e]] eqn:Ex.
    + destruct (success r) as [[|]|] eqn:Er.
      * assert (all_success (acc ++ [r]) = Ok true) as Hacc'.
        { rewrite (all_success_app _ _ Hacc). simpl. now rewrite Er. }
        destruct (IH _ _ _ H Hacc' Hok)
          as [(-> & final & done & Hall & -> & ->)
             |(-> & before & s' & after & final & done & world' & outcome
               & -> & Hall & Hs & Hf & -> & Hlen)].
        -- left. split; [reflexivity |]. exists final, (r :: done).
           simpl. rewrite Ex, Er, Hall, <- !app_assoc. auto.
        -- right. split; [reflexivity |].
           exists (s :: before), s', after, final, (r :: done), world', outcome.
           simpl. rewrite Ex, Er, Hall, <- !app_assoc.
           rewrite length_app in Hlen. simpl in Hlen.
           repeat split; try assumption; try reflexivity. lia.
      * injection H as <- <-. right.
        rewrite (all_success_app _ _ Hacc) in Hok. simpl in Hok.
        rewrite Er in Hok. injection Hok as <-. split; [reflexivity |].
        exists [], s, steps, world, [], w1, (Ok r). simpl.
        rewrite length_app. simpl. repeat split; try assumption; lia.
      * injection H as <- <-.
        rewrite (all_success_app _ _ Hacc) in Hok. simpl in Hok.
        rewrite Er in Hok. discriminate Hok.
    + injection H as <- <-. right.
      rewrite (all_success_app _ _ Hacc) in Hok. simpl in Hok.
      injection Hok as <-. split; [reflexivity |].
      exists [], s, steps, world, [], w1, (Err e). simpl.
      rewrite length_app. simpl. repeat split; try assumption; lia.
Qed.

Lemma execute_rollback_outcome (plan : RollbackPlan PreviousState Step Points)
    world trace run' rr :
  _execute_rollback execute plan (world, trace) = (run', Ok rr) ->
  (rollback_success rr = true /\
   exists final,
     all_succeed (rollback_steps plan) world = Some (final, results rr) /\
     run' = (final, trace ++ map ExecuteStep (rollback_steps plan))) \/
  (rollback_success rr = false /\
   exists before s after final done world' outcome,
     rollback_steps plan = before ++ s :: after /\
     all_succeed before world = Some (final, done) /\
     execute s final = (world', outcome) /\
     fails outcome /\
     run' = (world', trace ++ map ExecuteStep (before ++ [s])) /\
     steps_executed rr = S (length before)).
Proof.
  unfold _execute_rollback. intros H.
  apply bindM_Ok in H. destruct H as (rs & run1 & Hrun & H).
  apply bindM_Ok in H. destruct H as (ok & run2 & Hall & H).
  apply lift_Ok in Hall. destruct Hall as [-> Hall].
  apply ret_Ok in H. destruct H as [<- ->]. simpl.
  destruct (run_steps_outcome _ _ _ _ _ _ _ Hrun eq_refl Hall)
    as [(-> & final & done & Hs & -> & ->)
       |(-> & before & s & after & final & done & world' & outcome
         & Hplan & Hs & Hx & Hf & -> & Hlen)].
  - left. split; [reflexivity |]. exists final. auto.
  - right. split; [reflexivity |].
    exists before, s, after, final, done, world', outcome.
    repeat split; assumption.
Qed.

End RollbackSequencer.

Section RollbackVerification.

Import RollbackHandler RollbackSpec.

Context {World DeploymentData PreviousState Step Points
         Metadata Verification Report : Type}.
Variable can_rollback : DeploymentData -> World -> World * result bool.
Variable get_previous_state :
  DeploymentData -> World -> World * result PreviousState.
Variable generate_steps :
  DeploymentData -> PreviousState -> result (list Step).
Variable generate_points : PreviousState -> result Points.
Variable execute : Step -> World -> World * result (StepResult Step).
Variable verify :
  DeploymentData -> RollbackResult Step -> World -> World * result Verification.
Variable record :
  DeploymentData -> string -> RollbackResult Step -> Verification ->
  World -> World * result unit.
Variable error_response : string -> result Report.
Variable metadata : DeploymentData -> option Metadata.
Variable verification_success : Verification -> option bool.

Local Abbreviation handle :=
  (handle_rollback can_rollback get_previous_state generate_steps
     generate_points execute verify record error_response metadata
     verification_success).

Lemma call_Ok {A} (event : Event Step) (action : World -> World * result A)
    world trace world' trace' (a : A) :
  call event action (world, trace) = ((world', trace'), Ok a) ->
  action world = (world', Ok a) /\ trace' = trace ++ [event].
Proof.
  unfold call. destruct (action world) as [w1 out].
  now intros [= -> <- ->].
Qed.

(** C9, as amended.  A rollback that runs to completion makes its
    collaborator calls in this order: the rollback check, the previous
    state, the step executor on a prefix of the planned steps, then the
    verification of the rollback, once, then the record.  No verification
    lies between two steps.  The steps run in order, and what halts them
    is a step that fails, by returning [success = False] or by raising:
    either every planned step ran and succeeded and the result reports
    success, or the steps before the first failing step succeeded, that
    step was the last to run, and the result reports failure.  The
    verification comes after the loop and decides only the status that is
    reported. *)
Theorem rollback_verified_after_steps
    (deployment_data : DeploymentData) (reason : string)
    (world world' : World) (trace' : list (Event Step))
    (status : string) (original : Metadata)
    (rr : RollbackResult Step) (verification : Verification) :
  handle deployment_data reason (world, [])
  = ((world', trace'), Ok (Completed status original rr verification)) ->
  exists w1 w2 state steps,
    get_previous_state deployment_data w1 = (w2, Ok state) /\
    generate_steps deployment_data state = Ok steps /\
    trace' = [CanRollback; GetPreviousState]
             ++ map ExecuteStep (take (steps_executed rr) steps)
             ++ [VerifyRollback; RecordRollback] /\
    (steps_executed rr <= length steps)%nat /\
    (rollback_success rr = true -> steps_executed rr = length steps) /\
    (status = "success" <-> verification_success verification = Some true) /\
    (status = "failed" <-> verification_success verification = Some false) /\
    ((rollback_success rr = true /\
      exists final,
        all_succeed execute steps w2 = Some (final, results rr)) \/
     (rollback_success rr = false /\
      exists before s after final done w3 outcome,
        steps = before ++ s :: after /\
        all_succeed execute before w2 = Some (final, done) /\
        execute s final = (w3, outcome) /\
        fails outcome /\
        steps_executed rr = S (length before))).
Proof.
  intros H. apply try_except_Ok in H. destruct H as [H | (e & s1 & _ & H)].
  2:{ apply bindM_Ok in H. destruct H as (report & s2 & _ & H).
      apply ret_Ok in H. destruct H as [_ H]. discriminate H. }
  apply bindM_Ok in H. destruct H as (possible & [w1 t1] & Hcan & H).
  apply call_Ok in Hcan. destruct Hcan as [Hcan Ht1].
  destruct possible; simpl in H;
    [| apply ret_Ok in H; destruct H as [_ H]; discriminate H].
  apply bindM_Ok in H. destruct H as (plan & [w3 t3] & Hplan & H).
  unfold _prepare_rollback in Hplan.
  apply bindM_Ok in Hplan. destruct Hplan as (state & [w2 t2] & Hstate & Hplan).
  apply call_Ok in Hstate. destruct Hstate as [Hstate Ht2].
  apply bindM_Ok in Hplan. destruct Hplan as (steps & r1 & Hsteps & Hplan).
  apply lift_Ok in Hsteps. destruct Hsteps as [Hr1 Hsteps].
  apply bindM_Ok in Hplan. destruct Hplan as (points & r2 & Hpoints & Hplan).
  apply lift_Ok in Hpoints. destruct Hpoints as [Hr2 Hpoints].
  apply ret_Ok in Hplan. destruct Hplan as [Hr3 Hplan].
  apply bindM_Ok in H. destruct H as (rr' & [w4 t4] & Hexec & H).
  pose proof (execute_rollback_outcome _ _ _ _ _ _ Hexec) as Houtcome.
  apply execute_rollback_trace in Hexec.
  destruct Hexec as (Hle & Ht4 & Hfull).
  apply bindM_Ok in H. destruct H as (ver & [w5 t5] & Hver & H).
  apply call_Ok in Hver. destruct Hver as [Hver Ht5].
  apply bindM_Ok in H. destruct H as (u & [w6 t6] & Hrec & H).
  apply call_Ok in Hrec. destruct Hrec as [Hrec Ht6].
  apply bindM_Ok in H. destruct H as (verified & r3 & Hverified & H).
  apply lift_Ok in Hverified. destruct Hverified as [Hr4 Hverified].
  apply require_Ok in Hverified.
  apply bindM_Ok in H. destruct H as (original' & r4 & Horiginal & H).
  apply lift_Ok in Horiginal. destruct Horiginal as [Hr5 _].
  apply ret_Ok in H. destruct H as [Hr6 Hresponse].
  injection Hresponse as -> -> -> ->.
  subst plan. simpl in Hle, Ht4, Hfull, Houtcome.
  assert (t6 = trace') as <- by congruence.
  assert (t3 = t2 /\ w3 = w2) as [-> ->] by (split; congruence).
  subst t6 t5 t4 t2 t1.
  exists w1, w2, state, steps.
  split; [assumption |]. split; [assumption |].
  split; [simpl; rewrite <- !app_assoc; reflexivity |].
  split; [assumption |]. split; [assumption |].
  split; [| split].
  - rewrite Hverified. destruct verified; split;
      intros E; try reflexivity; discriminate E.
  - rewrite Hverified. destruct verified; split;
      intros E; try reflexivity; discriminate E.
  - destruct Houtcome
      as [(Hok & final & Hall & _)
         |(Hok & before & s & after & final & done & w' & outcome
           & Hsplit & Hall & Hx & Hf & _ & Hn)].
    + left. eauto.
    + right. split; [assumption |].
      exists before, s, after, final, done, w', outcome. auto.
Qed.

End RollbackVerification.

(** The sample cluster, the verification answering yes.  With every step
    succeeding: three steps in a row, then one verification.  With step 2
    failing: steps 1 and 2, step 3 never attempted, then the verification,
    whose answer makes the status. *)
Lemma rollback_verified_after_steps_witness :
  (exists rr,
      RollbackSpec.sample_handle 0 true (tt, [])
      = ((tt, [ RollbackHandler.CanRollback; RollbackHandler.GetPreviousState;
                RollbackHandler.ExecuteStep 1%nat;
                RollbackHandler.ExecuteStep 2%nat;
                RollbackHandler.ExecuteStep 3%nat;
                RollbackHandler.VerifyRollback;
                RollbackHandler.RecordRollback ]),
         Ok (RollbackHandler.Completed "success" "web-v2" rr true)) /\
      RollbackHandler.steps_executed rr = 3%nat) /\
  (exists rr,
      RollbackSpec.sample_handle 2 true (tt, [])
      = ((tt, [ RollbackHandler.CanRollback; RollbackHandler.GetPreviousState;
                RollbackHandler.ExecuteStep 1%nat;
                RollbackHandler.ExecuteStep 2%nat;
                RollbackHandler.VerifyRollback;
                RollbackHandler.RecordRollback ]),
         Ok (RollbackHandler.Completed "success" "web-v2" rr true)) /\
      RollbackHandler.steps_executed rr = 2%nat /\
      RollbackHandler.rollback_success rr = false).
Proof.
  split.
  - destruct (RollbackSpec.sample_handle 0 true (tt, []))
      as [[w trace] [[|status original rr verification|report]|e]] eqn:E;
      try (vm_compute in E; discriminate E).
    destruct (rollback_verified_after_steps _ _ _ _ _ _ _ _ _ _ _ _ _ _ _ _ _ _ _ E)
      as (w1 & w2 & state & steps & _ & Hsteps & Htrace & _ & Hfull & _).
    exists rr.
    assert (RollbackHandler.rollback_success rr = true /\ status = "success"
            /\ original = "web-v2" /\ verification = true /\ w = tt) as K.
    { vm_compute in E. injection E as <- <- <- <- <- <-. repeat split. }
    destruct K as (Hok & -> & -> & -> & ->).
    injection Hsteps as <-. rewrite (Hfull Hok) in *. simpl in Htrace.
    rewrite Htrace. split; reflexivity.
  - destruct (RollbackSpec.sample_handle 2 true (tt, []))
      as [[w trace] [[|status original rr verification|report]|e]] eqn:E;
      try (vm_compute in E; discriminate E).
    destruct (rollback_verified_after_steps _ _ _ _ _ _ _ _ _ _ _ _ _ _ _ _ _ _ _ E)
      as (w1 & w2 & state & steps & _ & Hsteps & Htrace & _ & _ & _ & _
          & Hhalt).
    exists rr.
    assert (RollbackHandler.rollback_success rr = false /\ status = "success"
            /\ original = "web-v2" /\ verification = true /\ w = tt) as K.
    { vm_compute in E. injection E as <- <- <- <- <- <-. repeat split. }
    destruct K as (Hok & -> & -> & -> & ->).
    injection Hsteps as <-.
    destruct Hhalt as [[Hyes _] | (_ & before & s & after & final & done & w3
                                    & outcome & Hsplit & Hall & Hx & Hf & Hn)];
      [congruence |].
    assert (before = [1%nat]) as ->.
    { destruct before as [|s1 [|s2 [|s3 before]]].
      - injection Hsplit as <- <-. vm_compute in Hx. injection Hx as <- <-.
        discriminate Hf.
      - injection Hsplit as <- _. reflexivity.
      - injection Hsplit as <- <- _. vm_compute in Hall. discriminate Hall.
      - injection Hsplit as <- <- _. vm_compute in Hall. discriminate Hall. }
    simpl in Hn. rewrite Hn in Htrace. simpl in Htrace.
    rewrite Htrace. repeat split; assumption.
Defined.

(** C9, as stated, fails: the three steps of the sample plan succeed and the
    verification of the rollback answers no.  All three steps have run by
    the time the verification is made, no verification separates them, and
    the failed verification only sets the status. *)
Lemma rollback_step_verification_counterexample :
  exists rr,
    RollbackSpec.sample_handle 0 false (tt, [])
    = ((tt, [ RollbackHandler.CanRollback; RollbackHandler.GetPreviousState;
              RollbackHandler.ExecuteStep 1%nat;
              RollbackHandler.ExecuteStep 2%nat;
              RollbackHandler.ExecuteStep 3%nat;
              RollbackHandler.VerifyRollback;
              RollbackHandler.RecordRollback ]),
       Ok (RollbackHandler.Completed "failed" "web-v2" rr false)) /\
    RollbackHandler.steps_executed rr = 3%nat /\
    RollbackHandler.rollback_success rr = true /\
    ~ RollbackSpec.verified_between_steps
        [ RollbackHandler.CanRollback; RollbackHandler.GetPreviousState;
          RollbackHandler.ExecuteStep 1%nat;
          RollbackHandler.ExecuteStep 2%nat;
          RollbackHandler.ExecuteStep 3%nat;
          RollbackHandler.VerifyRollback;
          RollbackHandler.RecordRollback ].
Proof.
  eexists. split; [vm_compute; reflexivity |].
  split; [reflexivity |]. split; [reflexivity |].
  intros Hclaim.
  destruct (Hclaim 2%nat 3%nat 1%nat 2%nat ltac:(lia) eq_refl eq_refl)
    as (m & Hm & _).
  lia.
Qed.

(** Step 2 of 3 fails: two steps executed, failure reported, step 3 never
    attempted. *)
Lemma rollback_halts_at_failure_witness :
  exists rr,
    RollbackHandler._execute_rollback (RollbackSpec.sample_execute 2)
      RollbackSpec.sample_plan (tt, [])
    = ((tt, [RollbackHandler.ExecuteStep 1%nat; RollbackHandler.ExecuteStep 2%nat]),
       Ok rr) /\
    RollbackHandler.steps_executed rr = 2%nat /\
    RollbackHandler.rollback_success rr = false.
Proof.
  apply (rollback_halts_at_failure (RollbackSpec.sample_execute 2)
           RollbackSpec.sample_plan [1%nat] 2%nat [3%nat] tt tt tt
           [ {| RollbackHandler.step := Some 1%nat;
                RollbackHandler.success := Some true;
                RollbackHandler.error := None |} ]
           (Ok {| RollbackHandler.step := Some 2%nat;
                  RollbackHandler.success := Some false;
                  RollbackHandler.error := Some "post-condition not met" |})
           []).
  - reflexivity.
  - reflexivity.
  - reflexivity.
  - reflexivity.
Defined.

(** ** The anomaly detector *)

Section AnomalyDetector.

Import AIAnomalyDetector DetectorSpec.

Variable clock : nat -> Z.
Variable score_samples : list Q -> Q -> result Q.
Variable config : Config.

Local Abbreviation observe := (observe clock score_samples config).
Local Abbreviation observe_all := (observe_all clock score_samples config).
Local Abbreviation detect := (detect_anomalies clock score_samples config).
Local Abbreviation check := (_check_metric_anomaly clock score_samples config).

Lemma updated_window_of days t name v d :
  window_of (updated days t name v d) name
  = updated_window days t (window_of d name) v.
Proof. unfold window_of, updated. simpl. now rewrite lookup_insert_eq. Qed.

(** The cutoff of an eviction: the retention as a [timedelta], taken off
    the call time. *)
Lemma cutoff_in_range_dec days t :
  {cutoff_in_range days t} + {~ cutoff_in_range days t}.
Proof.
  unfold cutoff_in_range.
  destruct (Z_le_dec (Z.abs days) 999999999);
    destruct (Z_le_dec datetime_min (t - timedelta_days days));
    destruct (Z_le_dec (t - timedelta_days days) datetime_max);
    (left; lia) || (right; lia).
Qed.

Lemma cutoff_value days t :
  cutoff_in_range days t ->
  Py.bind (timedelta days) (datetime_sub t) = Ok (t - timedelta_days days).
Proof.
  intros [Hdays [Hlow Hhigh]]. unfold timedelta, datetime_sub.
  rewrite (proj2 (Z.leb_le _ _) Hdays). simpl.
  rewrite (proj2 (Z.leb_le _ _) Hlow), (proj2 (Z.leb_le _ _) Hhigh).
  reflexivity.
Qed.

Lemma cutoff_overflow days t :
  ~ cutoff_in_range days t ->
  exists message,
    Py.bind (timedelta days) (datetime_sub t) = Err (OverflowError message).
Proof.
  intros Hout. unfold timedelta, datetime_sub, cutoff_in_range in *.
  destruct (Z.leb_spec (Z.abs days) 999999999) as [Hdays|Hdays]; simpl.
  - destruct (Z.leb_spec datetime_min (t - timedelta_days days)); simpl;
      [| eauto].
    destruct (Z.leb_spec (t - timedelta_days days) datetime_max); simpl;
      [| eauto].
    exfalso. apply Hout. lia.
  - destruct (_ && _); eauto.
Qed.

(** The head of an observation: the append and the two settings read
    after it. *)
Lemma observe_head t name v d :
  observe t name v d
  = match training_period_days config with
    | None => (appended t name v d, Err (KeyError "training_period_days"))
    | Some days =>
        match Py.bind (timedelta days) (datetime_sub t) with
        | Err e => (appended t name v d, Err e)
        | Ok cutoff =>
            let kept :=
              List.filter (fun point => (timestamp point >? cutoff)%Z)
                (window_of d name
                   ++ [{| timestamp := t; value := v |}]) in
            let d' := set_history (fun h => <[name := kept]> h) d in
            match minimum_datapoints config with
            | None => (d', Err (KeyError "minimum_datapoints"))
            | Some minimum =>
                if (Z.of_nat (length kept) >=? minimum)%Z
                then check name v d'
                else (d', Ok None)
            end
        end
    end.
Proof.
  unfold AIAnomalyDetector.observe, bindM, modify, lift, window, getitem.
  unfold appended, window_of.
  destruct (training_period_days config) as [days|]; [| reflexivity].
  unfold require at 1. cbv beta iota.
  destruct (timedelta days) as [retention|e]; simpl Py.bind; cbv beta iota;
    [| reflexivity].
  destruct (datetime_sub t retention) as [cutoff|e]; cbv beta iota;
    [| reflexivity].
  unfold set_history. cbn [history reads]. rewrite lookup_insert_eq.
  cbv beta iota. cbn [history reads]. rewrite lookup_insert_eq.
  cbv beta iota. rewrite insert_insert_eq.
  destruct (minimum_datapoints config) as [minimum|]; [| reflexivity].
  unfold require. cbv beta iota.
  destruct (_ >=? _)%Z; reflexivity.
Qed.

(** An observation first updates the window, then consults the model if
    the window is long enough. *)
Lemma observe_unfold days minimum t name v d :
  training_period_days config = Some days ->
  minimum_datapoints config = Some minimum ->
  cutoff_in_range days t ->
  observe t name v d
  = if (Z.of_nat (length (updated_window days t (window_of d name) v))
        >=? minimum)%Z
    then check name v (updated days t name v d)
    else (updated days t name v d, Ok None).
Proof.
  intros Hdays Hmin Hrange.
  rewrite observe_head, Hdays, (cutoff_value _ _ Hrange), Hmin.
  reflexivity.
Qed.

(** A retention that cannot be taken off the call time raises, the sample
    appended and nothing evicted. *)
Lemma observe_overflow days t name v d :
  training_period_days config = Some days ->
  ~ cutoff_in_range days t ->
  exists message,
    observe t name v d = (appended t name v d, Err (OverflowError message)).
Proof.
  intros Hdays Hout. destruct (cutoff_overflow _ _ Hout) as [message Hm].
  exists message. now rewrite observe_head, Hdays, Hm.
Qed.

(** An observation that returns had a cutoff to evict by. *)
Lemma observe_Ok_range days t name v d d' found :
  training_period_days config = Some days ->
  observe t name v d = (d', Ok found) ->
  cutoff_in_range days t.
Proof.
  intros Hdays H.
  destruct (cutoff_in_range_dec days t) as [Hrange | Hout]; [assumption |].
  destruct (observe_overflow _ t name v d Hdays Hout) as [message Hm].
  rewrite Hm in H. discriminate H.
Qed.

Lemma appended_other t name v d other :
  other <> name ->
  history (appended t name v d) !! other = history d !! other.
Proof. intros Hne. unfold appended. simpl. now rewrite lookup_insert_ne. Qed.

Lemma observe_short days minimum t name v d :
  training_period_days config = Some days ->
  minimum_datapoints config = Some minimum ->
  cutoff_in_range days t ->
  (Z.of_nat (length (updated_window days t (window_of d name) v)) < minimum)%Z ->
  observe t name v d = (updated days t name v d, Ok None).
Proof.
  intros Hdays Hmin Hrange Hshort.
  rewrite (observe_unfold _ _ _ _ _ _ Hdays Hmin Hrange).
  rewrite Z.geb_leb. apply Z.leb_gt in Hshort. now rewrite Hshort.
Qed.

(** Consulting the model leaves the windows alone, and an anomaly it
    returns carries the name of the metric. *)
Lemma check_history name v d d' out :
  check name v d = (d', out) ->
  history d' = history d /\
  (forall a, out = Ok (Some a) -> metric a = name).
Proof.
  unfold _check_metric_anomaly, bindM, window, lift, now, ret.
  destruct (getitem (history d) name) as [points|e]; simpl;
    [| intros [= <- <-]; split; [reflexivity | discriminate]].
  destruct (score_samples (map value points) v) as [s|e]; simpl;
    [| intros [= <- <-]; split; [reflexivity | discriminate]].
  destruct (require "anomaly_threshold" (anomaly_threshold config))
    as [threshold|e]; simpl;
    [| intros [= <- <-]; split; [reflexivity | discriminate]].
  destruct (Py.lt s (- threshold)); simpl; intros [= <- <-];
    (split; [reflexivity |]); [intros a [= <-]; reflexivity | discriminate].
Qed.

Lemma updated_other days t name v d other :
  other <> name ->
  history (updated days t name v d) !! other = history d !! other.
Proof. intros Hne. unfold updated. simpl. now rewrite lookup_insert_ne. Qed.

(** An observation touches the window of its own metric only. *)
Lemma observe_other t name v d d' out other :
  observe t name v d = (d', out) ->
  other <> name ->
  history d' !! other = history d !! other.
Proof.
  intros H Hne. rewrite observe_head in H.
  destruct (training_period_days config) as [days|];
    [| injection H as <- <-; now apply appended_other].
  destruct (Py.bind (timedelta days) (datetime_sub t)) as [cutoff|e];
    [| injection H as <- <-; now apply appended_other].
  cbv zeta in H.
  destruct (minimum_datapoints config) as [minimum|];
    [| injection H as <- <-; simpl; now rewrite lookup_insert_ne].
  destruct (_ >=? _)%Z.
  - apply check_history in H. destruct H as [-> _].
    simpl. now rewrite lookup_insert_ne.
  - injection H as <- <-. simpl. now rewrite lookup_insert_ne.
Qed.

Lemma observe_all_other t metrics acc d d' out other :
  observe_all t metrics acc d = (d', out) ->
  other ∉ map fst metrics ->
  history d' !! other = history d !! other.
Proof.
  revert acc d. induction metrics as [|[name v] rest IH]; intros acc d H Hnot.
  - simpl in H. injection H as <- <-. reflexivity.
  - simpl in H, Hnot. apply not_elem_of_cons in Hnot. destruct Hnot as [Hne Hnot].
    unfold bindM in H.
    destruct (observe t name v d) as [d1 [found|e]] eqn:Hobs.
    + rewrite (IH _ _ H Hnot). eapply observe_other; eassumption.
    + injection H as <- <-. eapply observe_other; eassumption.
Qed.

(** With the two settings configured, an observation that reports an
    anomaly left a window of at least the minimum length. *)
Lemma observe_found days minimum t name v d d' a :
  training_period_days config = Some days ->
  minimum_datapoints config = Some minimum ->
  observe t name v d = (d', Ok (Some a)) ->
  metric a = name /\
  (minimum <= Z.of_nat (length (window_of d' name)))%Z.
Proof.
  intros Hdays Hmin H.
  pose proof (observe_Ok_range _ _ _ _ _ _ _ Hdays H) as Hrange.
  rewrite (observe_unfold _ _ _ _ _ _ Hdays Hmin Hrange) in H.
  destruct (_ >=? _)%Z eqn:Hlen; [| discriminate].
  apply check_history in H. destruct H as [Hh Hname].
  split; [now apply Hname |].
  unfold window_of at 1. rewrite Hh. fold (window_of (updated days t name v d) name).
  rewrite updated_window_of. rewrite Z.geb_leb in Hlen. now apply Z.leb_le.
Qed.

Lemma observe_all_found days minimum t metrics acc d d' anomalies :
  training_period_days config = Some days ->
  minimum_datapoints config = Some minimum ->
  NoDup (map fst metrics) ->
  observe_all t metrics acc d = (d', Ok anomalies) ->
  exists new,
    anomalies = acc ++ new /\
    forall a, a ∈ new ->
      metric a ∈ map fst metrics /\
      (minimum <= Z.of_nat (length (window_of d' (metric a))))%Z.
Proof.
  intros Hdays Hmin. revert acc d.
  induction metrics as [|[name v] rest IH]; intros acc d Hnodup H.
  - simpl in H. injection H as <- <-. exists []. rewrite app_nil_r.
    split; [reflexivity |]. intros a Ha. inversion Ha.
  - simpl in H, Hnodup. apply NoDup_cons in Hnodup.
    destruct Hnodup as [Hfresh Hnodup]. unfold bindM in H.
    destruct (observe t name v d) as [d1 [found|e]] eqn:Hobs; [| discriminate].
    destruct (IH _ _ Hnodup H) as (new & -> & Hnew).
    assert (window_of d' name = window_of d1 name) as Hsame.
    { unfold window_of. now rewrite (observe_all_other _ _ _ _ _ _ _ H Hfresh). }
    destruct found as [a|].
    + exists (a :: new). split; [now rewrite <- app_assoc |].
      intros a' Ha'. apply elem_of_cons in Ha'. destruct Ha' as [-> | Ha'].
      * destruct (observe_found _ _ _ _ _ _ _ _ Hdays Hmin Hobs) as [-> Hlen].
        split; [simpl; left |]. now rewrite Hsame.
      * destruct (Hnew _ Ha') as [Hin Hlen]. split; [simpl; now right | assumption].
    + exists new. split; [reflexivity |].
      intros a' Ha'. destruct (Hnew _ Ha') as [Hin Hlen].
      split; [simpl; now right | assumption].
Qed.

(** C3.  With the retention and the minimum configured, and a retention
    that can be taken off the call time: an observation whose window,
    after the append and the eviction, holds fewer than
    [minimum_datapoints] samples returns without consulting the model, so
    it reports no anomaly and raises nothing, whatever the value and
    whatever the model would do.  In a whole call, no anomaly that is
    returned belongs to a metric whose window is that short. *)
Theorem anomaly_needs_minimum_datapoints (days minimum : Z) :
  training_period_days config = Some days ->
  minimum_datapoints config = Some minimum ->
  (forall t name v d,
      cutoff_in_range days t ->
      (Z.of_nat (length (updated_window days t (window_of d name) v))
       < minimum)%Z ->
      observe t name v d = (updated days t name v d, Ok None)) /\
  (forall metrics d d' anomalies,
      NoDup (map fst metrics) ->
      detect metrics d = (d', Ok anomalies) ->
      forall name,
        name ∈ map fst metrics ->
        (Z.of_nat (length (window_of d' name)) < minimum)%Z ->
        forall a, a ∈ anomalies -> metric a <> name).
Proof.
  intros Hdays Hmin. split.
  - intros t name v d. now apply observe_short.
  - intros metrics d d' anomalies Hnodup H name Hname Hshort a Ha Heq.
    unfold detect_anomalies, bindM, now in H.
    apply (observe_all_found _ _ _ _ _ _ _ _ Hdays Hmin Hnodup) in H.
    destruct H as (new & -> & Hnew). simpl in Ha.
    destruct (Hnew _ Ha) as [_ Hlen]. rewrite Heq in Hlen. lia.
Qed.

Lemma updated_window_retention days t old v :
  Forall (within_retention days t) (updated_window days t old v).
Proof.
  unfold updated_window, within_retention. apply Forall_forall.
  intros p Hp. apply list_elem_of_In, filter_In in Hp. destruct Hp as [_ Hp].
  rewrite Z.gtb_ltb in Hp. now apply Z.ltb_lt.
Qed.

Lemma observe_window days t name v d d' found :
  training_period_days config = Some days ->
  observe t name v d = (d', Ok found) ->
  window_of d' name = updated_window days t (window_of d name) v.
Proof.
  intros Hdays H.
  pose proof (observe_Ok_range _ _ _ _ _ _ _ Hdays H) as Hrange.
  destruct (minimum_datapoints config) as [minimum|] eqn:Hmin.
  - rewrite (observe_unfold _ _ _ _ _ _ Hdays Hmin Hrange) in H.
    destruct (_ >=? _)%Z.
    + apply check_history in H. destruct H as [Hh _].
      unfold window_of at 1. rewrite Hh. apply updated_window_of.
    + injection H as <- _. apply updated_window_of.
  - rewrite observe_head, Hdays, (cutoff_value _ _ Hrange), Hmin in H.
    discriminate H.
Qed.

Lemma observe_all_retention days t metrics acc d d' anomalies :
  training_period_days config = Some days ->
  observe_all t metrics acc d = (d', Ok anomalies) ->
  forall name, name ∈ map fst metrics ->
    Forall (within_retention days t) (window_of d' name).
Proof.
  intros Hdays. revert acc d.
  induction metrics as [|[first v] rest IH]; intros acc d H name Hname.
  - inversion Hname.
  - simpl in H, Hname. unfold bindM in H.
    destruct (AIAnomalyDetector.observe clock score_samples config t first v d)
      as [d1 [found|e]] eqn:Hobs; [| discriminate].
    destruct (decide (name ∈ map fst rest)) as [Hin | Hout].
    + eapply IH; eassumption.
    + apply elem_of_cons in Hname. destruct Hname as [-> | Hin]; [| tauto].
      unfold window_of. rewrite (observe_all_other _ _ _ _ _ _ _ H Hout).
      fold (window_of d1 first).
      rewrite (observe_window _ _ _ _ _ _ _ Hdays Hobs).
      apply updated_window_retention.
Qed.

(** C6, as amended.  After a call that returns, the window of every metric
    named in the call holds only samples within the retention of the call
    time; the windows of the metrics the call does not name are left as
    they were.  A window has a size, which is not negative; under a
    positive [minimum_datapoints] and a retention that can be taken off
    the call time, an observation that leaves its window empty reports no
    anomaly and raises nothing. *)
Theorem window_retention (days : Z) :
  training_period_days config = Some days ->
  (forall metrics d d' anomalies,
      detect metrics d = (d', Ok anomalies) ->
      (forall name, name ∈ map fst metrics ->
         Forall (within_retention days (clock (reads d))) (window_of d' name)) /\
      (forall name, name ∉ map fst metrics ->
         history d' !! name = history d !! name) /\
      (forall name, (0 <= Z.of_nat (length (window_of d' name)))%Z)) /\
  (forall minimum t name v d,
      minimum_datapoints config = Some minimum ->
      (0 < minimum)%Z ->
      cutoff_in_range days t ->
      updated_window days t (window_of d name) v = [] ->
      observe t name v d = (updated days t name v d, Ok None)).
Proof.
  intros Hdays. split.
  - intros metrics d d' anomalies H.
    unfold detect_anomalies, bindM, now in H.
    split; [| split].
    + intros name Hname.
      exact (observe_all_retention _ _ _ _ _ _ _ Hdays H name Hname).
    + intros name Hname.
      now rewrite (observe_all_other _ _ _ _ _ _ _ H Hname).
    + intros name. lia.
  - intros minimum t name v d Hmin Hpos Hrange Hempty.
    apply (observe_short _ _ _ _ _ _ Hdays Hmin Hrange).
    rewrite Hempty. simpl. lia.
Qed.

(** The verdict of the model on a window: an anomaly exactly when the
    score lies below the negated threshold. *)
Lemma check_verdict name v d points s threshold :
  history d !! name = Some points ->
  score_samples (map value points) v = Ok s ->
  anomaly_threshold config = Some threshold ->
  exists d' found,
    check name v d = (d', Ok found) /\
    (is_Some found <-> (threshold < outlier_score s)%Q) /\
    forall a, found = Some a ->
      metric a = name /\ current_value a = v /\
      severity a = _calculate_severity s /\
      confidence a = _calculate_confidence s.
Proof.
  intros Hpoints Hscore Hthreshold.
  unfold _check_metric_anomaly, bindM, window, lift, getitem.
  rewrite Hpoints. cbv beta iota. rewrite Hscore, Hthreshold. simpl.
  destruct (Py.lt s (- threshold)) eqn:Hlt.
  - apply lt_true in Hlt. eexists _, _. split; [reflexivity |]. split.
    + split; [intros _; unfold outlier_score; lra | eauto].
    + intros a [= <-]. simpl. auto.
  - apply lt_false in Hlt. eexists _, _. split; [reflexivity |]. split.
    + split; [intros [a Ha]; discriminate Ha | unfold outlier_score; lra].
    + intros a Ha. discriminate Ha.
Qed.

Lemma severity_bands (s : Q) :
  let magnitude := Qabs s in
  ((8 # 10 < magnitude)%Q /\ _calculate_severity s = "critical") \/
  ((6 # 10 < magnitude <= 8 # 10)%Q /\ _calculate_severity s = "high") \/
  ((4 # 10 < magnitude <= 6 # 10)%Q /\ _calculate_severity s = "medium") \/
  ((magnitude <= 4 # 10)%Q /\ _calculate_severity s = "low").
Proof.
  unfold _calculate_severity. simpl.
  destruct (Py.gt (Qabs s) (8 # 10)) eqn:H8;
    [apply gt_true in H8; auto | apply gt_false in H8].
  destruct (Py.gt (Qabs s) (6 # 10)) eqn:H6;
    [apply gt_true in H6; auto | apply gt_false in H6].
  destruct (Py.gt (Qabs s) (4 # 10)) eqn:H4;
    [apply gt_true in H4; auto 6 | apply gt_false in H4; auto 6].
Qed.

Lemma confidence_value_of (s : Q) :
  (_calculate_confidence s <= 999 # 10)%Q /\
  (_calculate_confidence s <= Qabs s * 100)%Q /\
  ((_calculate_confidence s == 999 # 10)%Q
   \/ (_calculate_confidence s == Qabs s * 100)%Q).
Proof.
  unfold _calculate_confidence.
  destruct (min_spec (Qabs s * 100) (999 # 10)) as [[H ->]|[H ->]].
  - repeat split; [lra | lra | left; reflexivity].
  - repeat split; [lra | lra | right; reflexivity].
Qed.

Lemma confidence_monotone (s1 s2 : Q) :
  (Qabs s1 <= Qabs s2)%Q ->
  (_calculate_confidence s1 <= _calculate_confidence s2)%Q.
Proof.
  intros H. unfold _calculate_confidence.
  destruct (min_spec (Qabs s1 * 100) (999 # 10)) as [[H1 ->]|[H1 ->]];
    destruct (min_spec (Qabs s2 * 100) (999 # 10)) as [[H2 ->]|[H2 ->]]; lra.
Qed.

Lemma severity_monotone (s1 s2 : Q) :
  (Qabs s1 <= Qabs s2)%Q ->
  (severity_rank (_calculate_severity s1)
   <= severity_rank (_calculate_severity s2))%Z.
Proof.
  intros H.
  destruct (severity_bands s1) as [[B1 ->]|[[B1 ->]|[[B1 ->]|[B1 ->]]]];
    destruct (severity_bands s2) as [[B2 ->]|[[B2 ->]|[[B2 ->]|[B2 ->]]]];
    simpl in *; try (vm_compute; discriminate); exfalso; lra.
Qed.

(** The bands of the severity, each with its exact range of magnitudes. *)
Lemma severity_exact (s : Q) :
  (_calculate_severity s = "critical" <-> (8 # 10 < Qabs s)%Q) /\
  (_calculate_severity s = "high" <-> (6 # 10 < Qabs s <= 8 # 10)%Q) /\
  (_calculate_severity s = "medium" <-> (4 # 10 < Qabs s <= 6 # 10)%Q) /\
  (_calculate_severity s = "low" <-> (Qabs s <= 4 # 10)%Q).
Proof.
  destruct (severity_bands s) as [[B ->]|[[B ->]|[[B ->]|[B ->]]]];
    simpl in B;
    (split; [| split; [| split]]); (split; intros H);
    try reflexivity; try discriminate H; try assumption; exfalso; lra.
Qed.

(** The confidence is 100 times the magnitude of the score, capped at
    99.9. *)
Lemma confidence_exact (s : Q) :
  ((Qabs s * 100 <= 999 # 10)%Q ->
   (_calculate_confidence s == Qabs s * 100)%Q) /\
  ((999 # 10 <= Qabs s * 100)%Q ->
   (_calculate_confidence s == 999 # 10)%Q).
Proof.
  unfold _calculate_confidence.
  destruct (min_spec (Qabs s * 100) (999 # 10)) as [[H ->]|[H ->]];
    split; intros H'; lra.
Qed.

(** C7, as amended.  With the settings configured and a retention that
    can be taken off the call time, an observation whose window holds at
    least [minimum_datapoints] samples, scored [s] by the model, yields an
    anomaly exactly when the outlier score exceeds the threshold.  The
    severity of the anomaly is read off the magnitude of the score alone,
    with band edges 0.4, 0.6 and 0.8 that do not move with the threshold;
    its confidence is 100 times that magnitude, capped at 99.9.  For
    scores in the range of the model (never positive) and one threshold,
    a larger excess over the threshold never gives a lower severity or a
    lower confidence. *)
Theorem anomaly_iff_score_exceeds_threshold (days minimum : Z) (threshold : Q) :
  training_period_days config = Some days ->
  minimum_datapoints config = Some minimum ->
  anomaly_threshold config = Some threshold ->
  (forall t name v d s,
      cutoff_in_range days t ->
      (minimum
       <= Z.of_nat (length (updated_window days t (window_of d name) v)))%Z ->
      score_samples
        (map value (updated_window days t (window_of d name) v)) v = Ok s ->
      exists d' found,
        observe t name v d = (d', Ok found) /\
        (is_Some found <-> (threshold < outlier_score s)%Q) /\
        forall a, found = Some a ->
          metric a = name /\ current_value a = v /\
          (severity a = "critical" <-> (8 # 10 < Qabs s)%Q) /\
          (severity a = "high" <-> (6 # 10 < Qabs s <= 8 # 10)%Q) /\
          (severity a = "medium" <-> (4 # 10 < Qabs s <= 6 # 10)%Q) /\
          (severity a = "low" <-> (Qabs s <= 4 # 10)%Q) /\
          severity a ∈ ["low"; "medium"; "high"; "critical"] /\
          ((Qabs s * 100 <= 999 # 10)%Q ->
           (confidence a == Qabs s * 100)%Q) /\
          ((999 # 10 <= Qabs s * 100)%Q -> (confidence a == 999 # 10)%Q) /\
          (confidence a <= 999 # 10)%Q) /\
  (forall s1 s2,
      (s1 <= 0)%Q -> (s2 <= 0)%Q ->
      (excess threshold s1 <= excess threshold s2)%Q ->
      (severity_rank (_calculate_severity s1)
       <= severity_rank (_calculate_severity s2))%Z /\
      (_calculate_confidence s1 <= _calculate_confidence s2)%Q).
Proof.
  intros Hdays Hmin Hthreshold. split.
  - intros t name v d s Hrange Hlen Hscore.
    rewrite (observe_unfold _ _ _ _ _ _ Hdays Hmin Hrange).
    rewrite Z.geb_leb. apply Z.leb_le in Hlen. rewrite Hlen.
    assert (history (updated days t name v d) !! name
            = Some (updated_window days t (window_of d name) v)) as Hpoints
      by (unfold updated; simpl; now rewrite lookup_insert_eq).
    destruct (check_verdict _ _ _ _ _ _ Hpoints Hscore Hthreshold)
      as (d' & found & Hrun & Hiff & Hfound).
    exists d', found. split; [assumption |]. split; [assumption |].
    intros a Ha. destruct (Hfound a Ha) as (Hm & Hv & Hs & Hc).
    destruct (severity_exact s) as (S4 & S3 & S2 & S1).
    destruct (confidence_exact s) as (C1 & C2).
    rewrite Hs, Hc.
    split; [assumption |]. split; [assumption |].
    split; [assumption |]. split; [assumption |].
    split; [assumption |]. split; [assumption |].
    split; [| split; [assumption | split; [assumption |]]].
    + destruct (severity_bands s) as [[_ ->]|[[_ ->]|[[_ ->]|[_ ->]]]];
        apply list_elem_of_In; simpl; tauto.
    + apply confidence_value_of.
  - intros s1 s2 H1 H2 Hexcess. unfold excess, outlier_score in Hexcess.
    assert (Qabs s1 <= Qabs s2)%Q as Habs
      by (rewrite (Qabs_neg s1 H1), (Qabs_neg s2 H2); lra).
    split; [now apply severity_monotone | now apply confidence_monotone].
Qed.

End AnomalyDetector.

(** Retentions of the samples, taken off day 10. *)
Ltac in_range :=
  unfold DetectorSpec.cutoff_in_range, AIAnomalyDetector.timedelta_days,
    AIAnomalyDetector.datetime_min, AIAnomalyDetector.datetime_max,
    DetectorSpec.day;
  lia.

(** The sample detector under a threshold of 0.5: 95 scores -0.85 and is a
    critical anomaly of confidence 85.  Under a threshold of 0.1: 41
    scores -0.3 and is a low anomaly of confidence 30. *)
Lemma anomaly_iff_score_exceeds_threshold_witness :
  (exists d' a,
      AIAnomalyDetector.observe DetectorSpec.day_ten DetectorSpec.sample_scorer
        (DetectorSpec.sample_config 7 1) (10 * DetectorSpec.day) "cpu_usage" 95
        DetectorSpec.fresh_detector
      = (d', Ok (Some a)) /\
      AIAnomalyDetector.severity a = "critical" /\
      (AIAnomalyDetector.confidence a == 85)%Q) /\
  (exists d' a,
      AIAnomalyDetector.observe DetectorSpec.day_ten DetectorSpec.sample_scorer
        (DetectorSpec.threshold_config (1 # 10) 7 1) (10 * DetectorSpec.day)
        "cpu_usage" 41 DetectorSpec.fresh_detector
      = (d', Ok (Some a)) /\
      AIAnomalyDetector.severity a = "low" /\
      (AIAnomalyDetector.confidence a == 30)%Q).
Proof.
  split.
  - destruct (proj1 (anomaly_iff_score_exceeds_threshold DetectorSpec.day_ten
               DetectorSpec.sample_scorer (DetectorSpec.sample_config 7 1)
               7 1 (5 # 10)%Q eq_refl eq_refl eq_refl)
               (10 * DetectorSpec.day) "cpu_usage" 95%Q
               DetectorSpec.fresh_detector (- (85 # 100))%Q)
      as (d' & found & Hrun & Hiff & Hfound).
    + in_range.
    + vm_compute. discriminate.
    + vm_compute. reflexivity.
    + destruct (proj2 Hiff) as [a ->]; [vm_compute; reflexivity |].
      exists d', a. split; [assumption |].
      destruct (Hfound a eq_refl) as (_ & _ & Hcritical & _ & _ & _ & _ & Hc & _).
      split.
      * apply Hcritical. vm_compute. reflexivity.
      * rewrite Hc; vm_compute; [reflexivity | discriminate].
  - destruct (proj1 (anomaly_iff_score_exceeds_threshold DetectorSpec.day_ten
               DetectorSpec.sample_scorer
               (DetectorSpec.threshold_config (1 # 10) 7 1)
               7 1 (1 # 10)%Q eq_refl eq_refl eq_refl)
               (10 * DetectorSpec.day) "cpu_usage" 41%Q
               DetectorSpec.fresh_detector (- (3 # 10))%Q)
      as (d' & found & Hrun & Hiff & Hfound).
    + in_range.
    + vm_compute. discriminate.
    + vm_compute. reflexivity.
    + destruct (proj2 Hiff) as [a ->]; [vm_compute; reflexivity |].
      exists d', a. split; [assumption |].
      destruct (Hfound a eq_refl) as (_ & _ & _ & _ & _ & Hlow & _ & Hc & _).
      split.
      * apply Hlow. vm_compute. discriminate.
      * rewrite Hc; vm_compute; [reflexivity | discriminate].
Defined.

(** C7, as stated, fails: the severity does not follow the excess over the
    threshold.  Under a threshold of 0.84 a score of -0.85 exceeds it by
    0.01 and the anomaly is critical; under a threshold of 0.1 a score of
    -0.3 exceeds it by 0.2 and the anomaly is low. *)
Lemma severity_by_excess_counterexample :
  exists d1 a1 d2 a2,
    AIAnomalyDetector.observe DetectorSpec.day_ten DetectorSpec.sample_scorer
      (DetectorSpec.threshold_config (84 # 100) 7 1) (10 * DetectorSpec.day)
      "cpu_usage" 95 DetectorSpec.fresh_detector
    = (d1, Ok (Some a1)) /\
    AIAnomalyDetector.observe DetectorSpec.day_ten DetectorSpec.sample_scorer
      (DetectorSpec.threshold_config (1 # 10) 7 1) (10 * DetectorSpec.day)
      "cpu_usage" 41 DetectorSpec.fresh_detector
    = (d2, Ok (Some a2)) /\
    DetectorSpec.sample_scorer [95%Q] 95 = Ok (- (85 # 100))%Q /\
    DetectorSpec.sample_scorer [41%Q] 41 = Ok (- (3 # 10))%Q /\
    (DetectorSpec.excess (84 # 100) (- (85 # 100))
     < DetectorSpec.excess (1 # 10) (- (3 # 10)))%Q /\
    AIAnomalyDetector.severity a1 = "critical" /\
    AIAnomalyDetector.severity a2 = "low".
Proof.
  eexists _, _, _, _.
  split; [vm_compute; reflexivity |]. split; [vm_compute; reflexivity |].
  repeat split.
Qed.

(** A first observation of 95, ten samples required: no anomaly, even with
    a model that raises whenever it is consulted.  And a call on two
    metrics that both read 95, two samples required, on a detector that
    saw cpu_usage before: the window of cpu_usage holds two samples and
    gives an anomaly, the window of memory_usage holds one and gives
    none. *)
Lemma anomaly_needs_minimum_datapoints_witness :
  AIAnomalyDetector.observe DetectorSpec.day_ten DetectorSpec.broken_scorer
    (DetectorSpec.sample_config 7 10) (10 * DetectorSpec.day) "cpu_usage" 95
    DetectorSpec.fresh_detector
  = (DetectorSpec.updated 7 (10 * DetectorSpec.day) "cpu_usage" 95
       DetectorSpec.fresh_detector,
     Ok None) /\
  (exists d' anomalies,
      AIAnomalyDetector.detect_anomalies DetectorSpec.day_ten
        DetectorSpec.sample_scorer (DetectorSpec.sample_config 30 2)
        [("cpu_usage", 95%Q); ("memory_usage", 95%Q)]
        DetectorSpec.stale_detector
      = (d', Ok anomalies) /\
      map AIAnomalyDetector.metric anomalies = ["cpu_usage"] /\
      length (DetectorSpec.window_of d' "memory_usage") = 1%nat /\
      forall a, a ∈ anomalies -> AIAnomalyDetector.metric a <> "memory_usage").
Proof.
  split.
  - apply (anomaly_needs_minimum_datapoints DetectorSpec.day_ten
             DetectorSpec.broken_scorer (DetectorSpec.sample_config 7 10) 7 10
             eq_refl eq_refl).
    + in_range.
    + vm_compute. reflexivity.
  - destruct (AIAnomalyDetector.detect_anomalies DetectorSpec.day_ten
                DetectorSpec.sample_scorer (DetectorSpec.sample_config 30 2)
                [("cpu_usage", 95%Q); ("memory_usage", 95%Q)]
                DetectorSpec.stale_detector) as [d' [anomalies|e]] eqn:E;
      [| vm_compute in E; discriminate E].
    assert (map AIAnomalyDetector.metric anomalies = ["cpu_usage"]
            /\ length (DetectorSpec.window_of d' "memory_usage") = 1%nat)
      as [Hnames Hlen]
      by (vm_compute in E; injection E as <- <-; split; reflexivity).
    exists d', anomalies. split; [reflexivity |].
    split; [assumption |]. split; [assumption |].
    apply (proj2 (anomaly_needs_minimum_datapoints DetectorSpec.day_ten
                    DetectorSpec.sample_scorer (DetectorSpec.sample_config 30 2)
                    30 2 eq_refl eq_refl)
             [("cpu_usage", 95%Q); ("memory_usage", 95%Q)]
             DetectorSpec.stale_detector d' anomalies).
    + apply NoDup_cons. split; [| apply NoDup_singleton].
      intros H. apply list_elem_of_singleton in H. discriminate H.
    + assumption.
    + apply list_elem_of_In. simpl. tauto.
    + rewrite Hlen. lia.
Defined.

(** A call on day 10 that names cpu_usage, retention 7 days: the sample of
    day 1 is evicted and the window holds the new sample only.  Under a
    retention of 0 days and a minimum of one sample, a first observation
    leaves its window empty and reports nothing, even with a model that
    raises whenever it is consulted. *)
Lemma window_retention_witness :
  (exists d',
      AIAnomalyDetector.detect_anomalies DetectorSpec.day_ten
        DetectorSpec.sample_scorer (DetectorSpec.sample_config 7 10)
        [("cpu_usage", 41%Q)] DetectorSpec.stale_detector
      = (d', Ok []) /\
      Forall (DetectorSpec.within_retention 7 (10 * DetectorSpec.day))
        (DetectorSpec.window_of d' "cpu_usage") /\
      length (DetectorSpec.window_of d' "cpu_usage") = 1%nat) /\
  AIAnomalyDetector.observe DetectorSpec.day_ten DetectorSpec.broken_scorer
    (DetectorSpec.sample_config 0 1) (10 * DetectorSpec.day) "cpu_usage" 95
    DetectorSpec.fresh_detector
  = (DetectorSpec.updated 0 (10 * DetectorSpec.day) "cpu_usage" 95
       DetectorSpec.fresh_detector,
     Ok None).
Proof.
  split.
  - eexists. split; [vm_compute; reflexivity |]. split.
    + refine (proj1 (proj1 (window_retention DetectorSpec.day_ten
               DetectorSpec.sample_scorer (DetectorSpec.sample_config 7 10) 7
               eq_refl) [("cpu_usage", 41%Q)] DetectorSpec.stale_detector _ []
               _) "cpu_usage" _).
      * vm_compute. reflexivity.
      * simpl. left.
    + reflexivity.
  - apply (proj2 (window_retention DetectorSpec.day_ten
             DetectorSpec.broken_scorer (DetectorSpec.sample_config 0 1) 0
             eq_refl) 1 (10 * DetectorSpec.day) "cpu_usage" 95%Q
             DetectorSpec.fresh_detector eq_refl).
    + lia.
    + in_range.
    + reflexivity.
Defined.

(** C6, as stated, fails twice.  A call on day 10 that names memory_usage
    only leaves the cpu_usage window with its sample of day 1, nine days
    old under a retention of seven.  And with [minimum_datapoints] and the
    retention both 0, the window is empty after the update, the model is
    consulted on no data, and the fault of the model escapes the call. *)
Lemma window_retention_counterexample :
  (exists d',
      AIAnomalyDetector.detect_anomalies DetectorSpec.day_ten
        DetectorSpec.sample_scorer (DetectorSpec.sample_config 7 10)
        [("memory_usage", 60%Q)] DetectorSpec.stale_detector
      = (d', Ok []) /\
      DetectorSpec.window_of d' "cpu_usage"
      = [{| AIAnomalyDetector.timestamp := DetectorSpec.day;
            AIAnomalyDetector.value := 40%Q |}] /\
      ~ Forall (DetectorSpec.within_retention 7 (10 * DetectorSpec.day))
          (DetectorSpec.window_of d' "cpu_usage")) /\
  (exists d',
      AIAnomalyDetector.detect_anomalies DetectorSpec.day_ten
        DetectorSpec.sample_scorer (DetectorSpec.sample_config 0 0)
        [("cpu_usage", 40%Q)] DetectorSpec.fresh_detector
      = (d', Err (Raised "Found array with 0 sample(s)")) /\
      DetectorSpec.window_of d' "cpu_usage" = []).
Proof.
  split.
  - eexists. split; [vm_compute; reflexivity |]. split; [reflexivity |].
    intros H. apply Forall_cons in H. destruct H as [H _].
    vm_compute in H. discriminate H.
  - eexists. split; [vm_compute; reflexivity | reflexivity].
Qed.


(** ** The alert manager *)

Section AlertDispatch.

Import AIAnomalyDetector AlertManager AlertSpec.

Variable clock : nat -> Z.
Variable config : Config.

Local Abbreviation recent_alerts := (recent_alerts clock config).
Local Abbreviation should_alert := (_should_alert clock config).
Local Abbreviation create_alert := (_create_alert clock config).
Local Abbreviation send_alerts := (_send_alerts config).
Local Abbreviation process_anomaly := (process_anomaly clock config).
Local Abbreviation process_anomalies := (process_anomalies clock config).
Local Abbreviation age := (age clock).
Local Abbreviation younger_than := (younger_than clock).

Lemma advance_advance (n k : nat) (m : Manager) :
  advance n (advance k m) = advance (n + k) m.
Proof. unfold advance. simpl. f_equal. lia. Qed.

Lemma advance_0 (m : Manager) : advance 0 m = m.
Proof. now destruct m. Qed.

(** With a cooldown configured, the comprehension reads the clock once per
    alert of the same metric and keeps the young ones. *)
Lemma recent_alerts_configured anomaly cooldown :
  alert_cooldown config = Some cooldown ->
  forall alerts m,
    recent_alerts anomaly alerts m
    = (advance (length (same_metric anomaly alerts)) m,
       Ok (younger_than cooldown (clock_reads m) (same_metric anomaly alerts))).
Proof.
  intros Hcool. induction alerts as [|alert rest IH]; intros m.
  - simpl. now rewrite advance_0.
  - simpl. destruct (String.eqb (alert_metric alert) (metric anomaly)) eqn:E.
    + unfold bindM at 1. unfold now at 1. unfold bindM at 1. unfold lift at 1.
      rewrite Hcool. cbn [require]. unfold bindM at 1. rewrite IH.
      cbn [clock_reads length younger_than]. unfold ret.
      replace (advance (length (same_metric anomaly rest))
                 {| alert_history := alert_history m;
                    clock_reads := S (clock_reads m);
                    outbox := outbox m |})
        with (advance (S (length (same_metric anomaly rest))) m)
        by (unfold advance; simpl; f_equal; lia).
      unfold AlertSpec.age. reflexivity.
    + apply IH.
Qed.

(** Without one, the first alert of the same metric raises. *)
Lemma recent_alerts_unconfigured anomaly :
  alert_cooldown config = None ->
  forall alerts m,
    recent_alerts anomaly alerts m
    = match same_metric anomaly alerts with
      | [] => (m, Ok [])
      | _ :: _ => (advance 1 m, Err (KeyError "alert_cooldown"))
      end.
Proof.
  intros Hcool. induction alerts as [|alert rest IH]; intros m.
  - reflexivity.
  - simpl. destruct (String.eqb (alert_metric alert) (metric anomaly)) eqn:E.
    + unfold bindM, now, lift. rewrite Hcool. reflexivity.
    + apply IH.
Qed.

Lemma younger_than_nil cooldown read same :
  younger_than cooldown read same = [] <->
  forall j alert, same !! j = Some alert ->
    (cooldown <= age (read + j) alert)%Q.
Proof.
  revert read. induction same as [|first rest IH]; intros read; simpl.
  - split; [intros _ j alert H; destruct j; discriminate H | reflexivity].
  - destruct (Py.lt (age read first) cooldown) eqn:E.
    + apply lt_true in E. split; [discriminate |].
      intros H. specialize (H 0%nat first eq_refl).
      rewrite Nat.add_0_r in H. lra.
    + apply lt_false in E. rewrite IH. split.
      * intros H [|j] alert Hj; simpl in Hj.
        -- injection Hj as <-. now rewrite Nat.add_0_r.
        -- replace (read + S j)%nat with (S read + j)%nat by lia. now apply H.
      * intros H j alert Hj.
        replace (S read + j)%nat with (read + S j)%nat by lia.
        now apply H.
Qed.

Lemma younger_than_cons cooldown read same j alert :
  same !! j = Some alert ->
  (age (read + j) alert < cooldown)%Q ->
  younger_than cooldown read same <> [].
Proof.
  intros Hj Hage Hnil.
  pose proof (proj1 (younger_than_nil cooldown read same) Hnil j alert Hj).
  lra.
Qed.

Lemma should_alert_unfold anomaly m :
  should_alert anomaly m
  = match recent_alerts anomaly (alert_history m) m with
    | (m1, Ok []) => (m1, severity_check config anomaly)
    | (m1, Ok (_ :: _)) => (m1, Ok false)
    | (m1, Err e) => (m1, Err e)
    end.
Proof.
  unfold _should_alert, bindM, gets.
  destruct (recent_alerts anomaly (alert_history m) m) as [m1 [[|r rs]|e]];
    try reflexivity.
  unfold severity_check, lift.
  destruct (getitem severity_levels (severity anomaly)) as [level|];
    [| reflexivity].
  simpl. destruct (require "minimum_severity" (minimum_severity config))
    as [least|]; [| reflexivity].
  simpl. destruct (getitem severity_levels least); reflexivity.
Qed.

Lemma recent_alerts_frame anomaly alerts m m' out :
  recent_alerts anomaly alerts m = (m', out) ->
  alert_history m' = alert_history m /\ outbox m' = outbox m.
Proof.
  destruct (alert_cooldown config) as [cooldown|] eqn:Hcool.
  - rewrite (recent_alerts_configured _ _ Hcool). now intros [= <- _].
  - rewrite (recent_alerts_unconfigured _ Hcool).
    destruct (same_metric anomaly alerts); now intros [= <- _].
Qed.

(** Deciding whether to alert changes neither the history nor the
    outbox. *)
Lemma should_alert_frame anomaly m m' out :
  should_alert anomaly m = (m', out) ->
  alert_history m' = alert_history m /\ outbox m' = outbox m.
Proof.
  rewrite should_alert_unfold.
  destruct (recent_alerts anomaly (alert_history m) m)
    as [m1 [[|r rs]|e]] eqn:Hrecent;
    intros [= <- _]; eapply recent_alerts_frame; eassumption.
Qed.

Lemma severity_check_true anomaly :
  severity_check config anomaly = Ok true <-> severe_enough config anomaly.
Proof.
  unfold severity_check, severe_enough, getitem, require. split.
  - destruct (severity_levels !! severity anomaly) as [level|] eqn:El;
      [| discriminate]. simpl.
    destruct (minimum_severity config) as [least|] eqn:Em; [| discriminate].
    simpl.
    destruct (severity_levels !! least) as [floor|] eqn:Ef; [| discriminate].
    simpl. intros [= H]. rewrite Z.geb_leb in H. apply Z.leb_le in H.
    exists level, least, floor. auto.
  - intros (level & least & floor & -> & -> & Hf & Hle). simpl.
    rewrite Hf. simpl. f_equal. rewrite Z.geb_leb. now apply Z.leb_le.
Qed.

Lemma severity_check_false anomaly :
  too_mild config anomaly -> severity_check config anomaly = Ok false.
Proof.
  unfold severity_check, too_mild, getitem, require.
  intros (level & least & floor & -> & -> & Hf & Hlt). simpl.
  rewrite Hf. simpl. f_equal. rewrite Z.geb_leb. now apply Z.leb_gt.
Qed.

(** An alert is wanted only under conditions (a) and (b). *)
Lemma should_alert_true anomaly m m' :
  should_alert anomaly m = (m', Ok true) ->
  cooldown_clear clock config m anomaly /\ severe_enough config anomaly.
Proof.
  rewrite should_alert_unfold.
  destruct (alert_cooldown config) as [cooldown|] eqn:Hcool.
  - rewrite (recent_alerts_configured _ _ Hcool).
    destruct (younger_than cooldown (clock_reads m)
                (same_metric anomaly (alert_history m))) eqn:Hyoung;
      [| discriminate].
    intros [= _ Hcheck]. split; [| now apply severity_check_true].
    intros j alert Hj. exists cooldown. split; [assumption |].
    exact (proj1 (younger_than_nil _ _ _) Hyoung j alert Hj).
  - rewrite (recent_alerts_unconfigured _ Hcool).
    destruct (same_metric anomaly (alert_history m)) eqn:Hsame;
      [| discriminate].
    intros [= _ Hcheck]. split; [| now apply severity_check_true].
    unfold cooldown_clear. rewrite Hsame. intros j alert Hj.
    destruct j; discriminate Hj.
Qed.

(** Condition (a) fails: no alert is wanted. *)
Lemma should_alert_cooling anomaly m :
  cooling_down clock config m anomaly ->
  should_alert anomaly m
  = (advance (length (same_metric anomaly (alert_history m))) m, Ok false).
Proof.
  intros (cooldown & j & alert & Hcool & Hj & Hage).
  rewrite should_alert_unfold, (recent_alerts_configured _ _ Hcool).
  pose proof (younger_than_cons _ _ _ _ _ Hj Hage) as Hne.
  destruct (younger_than cooldown (clock_reads m)
              (same_metric anomaly (alert_history m)));
    [congruence | reflexivity].
Qed.

(** Condition (a) holds and condition (b) fails: no alert is wanted. *)
Lemma should_alert_mild anomaly m :
  cooldown_clear clock config m anomaly ->
  too_mild config anomaly ->
  should_alert anomaly m
  = (advance (length (same_metric anomaly (alert_history m))) m, Ok false).
Proof.
  intros Hclear Hmild. rewrite should_alert_unfold.
  destruct (alert_cooldown config) as [cooldown|] eqn:Hcool.
  - rewrite (recent_alerts_configured _ _ Hcool).
    assert (younger_than cooldown (clock_reads m)
              (same_metric anomaly (alert_history m)) = []) as ->.
    { apply younger_than_nil. intros j alert Hj.
      destruct (Hclear j alert Hj) as (c & Hc & Hage). congruence. }
    now rewrite (severity_check_false _ Hmild).
  - rewrite (recent_alerts_unconfigured _ Hcool).
    destruct (same_metric anomaly (alert_history m)) as [|first rest] eqn:Hsame.
    + simpl. rewrite advance_0. now rewrite (severity_check_false _ Hmild).
    + unfold cooldown_clear in Hclear. rewrite Hsame in Hclear.
      destruct (Hclear 0%nat first eq_refl) as (c & Hc & _). congruence.
Qed.

Lemma create_alert_frame anomaly m m' out :
  create_alert anomaly m = (m', out) ->
  alert_history m' = alert_history m /\ outbox m' = outbox m /\
  forall alert, out = Ok alert ->
    alert_metric alert = metric anomaly /\
    alert_severity alert = severity anomaly.
Proof.
  unfold _create_alert, bindM, now, lift, ret. simpl.
  destruct (_generate_alert_description config anomaly) as [text|e];
    intros [= <- <-]; simpl;
    (split; [reflexivity |]); (split; [reflexivity |]);
    intros built Hbuilt; [| discriminate Hbuilt].
  injection Hbuilt as <-. split; reflexivity.
Qed.

Lemma send_alerts_frame alert m m' out :
  send_alerts alert m = (m', out) ->
  alert_history m' = alert_history m /\
  exists tasks, outbox m' = outbox m ++ map (fun name => (name, alert)) tasks.
Proof.
  unfold _send_alerts, bindM, lift, modify.
  destruct (require "alert_channels" (alert_channels config)) as [channels|e];
    simpl.
  - destruct (appropriate_channels channels (alert_severity alert))
      as [tasks|e]; intros [= <- <-]; simpl.
    + split; [reflexivity |]. now exists tasks.
    + split; [reflexivity |]. exists []. now rewrite app_nil_r.
  - intros [= <- <-]. split; [reflexivity |]. exists []. now rewrite app_nil_r.
Qed.

(** What one anomaly does to the history and the outbox: nothing, unless
    an alert was wanted; then the alert of this anomaly is sent, and
    recorded if sending returned. *)
Lemma process_anomaly_effect anomaly m m' out :
  process_anomaly anomaly m = (m', out) ->
  (alert_history m' = alert_history m /\ outbox m' = outbox m) \/
  (exists m1 alert tasks,
      should_alert anomaly m = (m1, Ok true) /\
      alert_metric alert = metric anomaly /\
      alert_severity alert = severity anomaly /\
      outbox m' = outbox m ++ map (fun name => (name, alert)) tasks /\
      (alert_history m' = alert_history m
       \/ alert_history m' = alert_history m ++ [alert])).
Proof.
  unfold AlertManager.process_anomaly, bindM.
  destruct (should_alert anomaly m) as [m1 [[|]|e]] eqn:Hwant.
  - destruct (should_alert_frame _ _ _ _ Hwant) as [Hh1 Ho1].
    destruct (create_alert anomaly m1) as [m2 [alert|e]] eqn:Hcreate.
    + destruct (create_alert_frame _ _ _ _ Hcreate) as (Hh2 & Ho2 & Hfields).
      destruct (Hfields alert eq_refl) as [Hmetric Hseverity].
      destruct (send_alerts alert m2) as [m3 [[]|e]] eqn:Hsend;
        destruct (send_alerts_frame _ _ _ _ Hsend) as (Hh3 & tasks & Ho3).
      * unfold modify. intros [= <- <-]. simpl. right.
        exists m1, alert, tasks. rewrite Ho3, Ho2, Ho1, Hh3, Hh2, Hh1. auto 8.
      * intros [= <- <-]. right.
        exists m1, alert, tasks. rewrite Ho3, Ho2, Ho1, Hh3, Hh2, Hh1. auto 8.
    + destruct (create_alert_frame _ _ _ _ Hcreate) as (Hh2 & Ho2 & _).
      intros [= <- <-]. left. split; congruence.
  - intros [= <- <-]. left. eapply should_alert_frame; eassumption.
  - intros [= <- <-]. left. eapply should_alert_frame; eassumption.
Qed.

Lemma process_anomalies_effect anomalies m m' out :
  process_anomalies anomalies m = (m', out) ->
  exists new,
    alert_history m' = alert_history m ++ new /\
    forall alert, alert ∈ new ->
      exists anomaly,
        anomaly ∈ anomalies /\
        alert_metric alert = metric anomaly /\
        alert_severity alert = severity anomaly /\
        severe_enough config anomaly.
Proof.
  revert m. induction anomalies as [|anomaly rest IH]; intros m H.
  - simpl in H. injection H as <- <-. exists []. rewrite app_nil_r.
    split; [reflexivity |]. intros alert Ha. inversion Ha.
  - simpl in H. unfold bindM in H.
    destruct (process_anomaly anomaly m) as [m1 [[]|e]] eqn:Hstep.
    + destruct (IH _ H) as (new & Hnew & Hall).
      destruct (process_anomaly_effect _ _ _ _ Hstep)
        as [[Hh _] | (m0 & alert & tasks & Hwant & Hm & Hs & _ & [Hh|Hh])].
      * exists new. rewrite Hnew, Hh. split; [reflexivity |].
        intros a Ha. destruct (Hall a Ha) as (an & Hin & Hrest).
        exists an. split; [now right | assumption].
      * exists new. rewrite Hnew, Hh. split; [reflexivity |].
        intros a Ha. destruct (Hall a Ha) as (an & Hin & Hrest).
        exists an. split; [now right | assumption].
      * exists (alert :: new). rewrite Hnew, Hh, <- app_assoc.
        split; [reflexivity |].
        intros a Ha. apply elem_of_cons in Ha. destruct Ha as [-> | Ha].
        -- exists anomaly. split; [now left |].
           apply should_alert_true in Hwant. tauto.
        -- destruct (Hall a Ha) as (an & Hin & Hrest).
           exists an. split; [now right | assumption].
    + injection H as <- <-.
      destruct (process_anomaly_effect _ _ _ _ Hstep)
        as [[Hh _] | (m0 & alert & tasks & Hwant & Hm & Hs & _ & [Hh|Hh])].
      * exists []. rewrite app_nil_r. split; [assumption |].
        intros a Ha. inversion Ha.
      * exists []. rewrite app_nil_r. split; [assumption |].
        intros a Ha. inversion Ha.
      * exists [alert]. split; [assumption |].
        intros a Ha. apply list_elem_of_singleton in Ha. subst a.
        exists anomaly. split; [now left |].
        apply should_alert_true in Hwant. tauto.
Qed.

(** C10.  While [process_anomalies] handles an anomaly, an alert is sent
    or recorded only if (a) every earlier alert for the same metric is at
    least [alert_cooldown] seconds old and (b) the severity of the anomaly
    is at least [minimum_severity].  An anomaly that fails (a), or passes
    (a) and fails (b), is dropped: the run goes on without an exception,
    the history and the outbox are the ones before, and the clock was read
    only to check the earlier alerts, so no alert was built.  Every alert a
    whole call adds to the history stems from one of its anomalies that
    is severe enough. *)
Theorem alert_only_if_due :
  (forall anomaly m m' out,
      process_anomaly anomaly m = (m', out) ->
      alert_history m' <> alert_history m \/ outbox m' <> outbox m ->
      cooldown_clear clock config m anomaly /\ severe_enough config anomaly) /\
  (forall anomaly m,
      cooling_down clock config m anomaly \/
      (cooldown_clear clock config m anomaly /\ too_mild config anomaly) ->
      process_anomaly anomaly m
      = (advance (length (same_metric anomaly (alert_history m))) m, Ok tt)) /\
  (forall anomalies m m' out,
      process_anomalies anomalies m = (m', out) ->
      exists new,
        alert_history m' = alert_history m ++ new /\
        forall alert, alert ∈ new ->
          exists anomaly,
            anomaly ∈ anomalies /\
            alert_metric alert = metric anomaly /\
            alert_severity alert = severity anomaly /\
            severe_enough config anomaly).
Proof.
  split; [| split].
  - intros anomaly m m' out Hstep Hchanged.
    destruct (process_anomaly_effect _ _ _ _ Hstep)
      as [[Hh Ho] | (m1 & alert & tasks & Hwant & _)].
    + destruct Hchanged; congruence.
    + eapply should_alert_true; eassumption.
  - intros anomaly m Hdrop. unfold AlertManager.process_anomaly, bindM.
    destruct Hdrop as [Hcooling | [Hclear Hmild]].
    + now rewrite (should_alert_cooling _ _ Hcooling).
    + now rewrite (should_alert_mild _ _ Hclear Hmild).
  - apply process_anomalies_effect.
Qed.

End AlertDispatch.

(** The sample manager alerted on cpu_usage 100 seconds ago, under a
    cooldown of 300 seconds and a minimum severity of medium.  A critical
    cpu_usage anomaly is dropped for the cooldown, a low memory_usage anomaly
    for its severity; a critical memory_usage anomaly is sent to both
    channels and recorded. *)
Lemma alert_only_if_due_witness :
  AlertManager.process_anomaly AlertSpec.sample_clock AlertSpec.sample_config
    (AlertSpec.sample_anomaly "cpu_usage" "critical") AlertSpec.sample_manager
  = (AlertSpec.advance 1 AlertSpec.sample_manager, Ok tt) /\
  AlertManager.process_anomaly AlertSpec.sample_clock AlertSpec.sample_config
    (AlertSpec.sample_anomaly "memory_usage" "low") AlertSpec.sample_manager
  = (AlertSpec.advance 0 AlertSpec.sample_manager, Ok tt) /\
  exists m',
    AlertManager.process_anomaly AlertSpec.sample_clock AlertSpec.sample_config
      (AlertSpec.sample_anomaly "memory_usage" "critical")
      AlertSpec.sample_manager
    = (m', Ok tt) /\
    length (AlertManager.alert_history m') = 2%nat /\
    map fst (AlertManager.outbox m') = ["email"; "slack"] /\
    AlertSpec.severe_enough AlertSpec.sample_config
      (AlertSpec.sample_anomaly "memory_usage" "critical").
Proof.
  destruct (alert_only_if_due AlertSpec.sample_clock AlertSpec.sample_config)
    as (Honly & Hdrop & _).
  split; [| split].
  - apply (Hdrop (AlertSpec.sample_anomaly "cpu_usage" "critical")
             AlertSpec.sample_manager).
    left. exists 300%Q, 0%nat, (AlertSpec.sample_alert "cpu_usage" 900).
    split; [reflexivity |]. split; [reflexivity |]. vm_compute. reflexivity.
  - apply (Hdrop (AlertSpec.sample_anomaly "memory_usage" "low")
             AlertSpec.sample_manager).
    right. split.
    + intros j alert Hj. destruct j; discriminate Hj.
    + exists 1, "medium", 2. repeat split.
  - destruct (AlertManager.process_anomaly AlertSpec.sample_clock
                AlertSpec.sample_config
                (AlertSpec.sample_anomaly "memory_usage" "critical")
                AlertSpec.sample_manager) as [m' out] eqn:E.
    assert (out = Ok tt /\ length (AlertManager.alert_history m') = 2%nat
            /\ map fst (AlertManager.outbox m') = ["email"; "slack"])
      as (-> & Hlen & Hout)
      by (vm_compute in E; injection E as <- <-; repeat split).
    exists m'. split; [reflexivity |]. split; [assumption |].
    split; [assumption |].
    assert (AlertManager.alert_history m'
            <> AlertManager.alert_history AlertSpec.sample_manager) as Hnew
      by (intros Heq; rewrite Heq in Hlen; discriminate Hlen).
    destruct (Honly _ _ _ _ E (or_introl Hnew)) as [_ Hsevere].
    exact Hsevere.
Defined.


(** * Further properties of the four classes *)

(** ** Impact levels and recommendations *)

Section ImpactLevels.

Import CanaryAnalyzer CanaryReport CanaryReportSpec.

Lemma gt_proper (x x' y : Q) : (x == x')%Q -> Py.gt x y = Py.gt x' y.
Proof.
  intros H. destruct (Py.gt x y) eqn:E; symmetry.
  - apply gt_true. apply gt_true in E. now rewrite <- H.
  - apply gt_false. apply gt_false in E. now rewrite <- H.
Qed.

Lemma impact_level_magnitude config (d d' : Q) :
  (Qabs d == Qabs d')%Q ->
  _determine_impact_level config d = _determine_impact_level config d'.
Proof.
  intros H. unfold _determine_impact_level. cbv zeta.
  destruct (getitem _ "high") as [high|e]; [| reflexivity]. simpl.
  rewrite (gt_proper _ _ high H).
  destruct (Py.gt (Qabs d') high); [reflexivity |].
  destruct (getitem _ "medium") as [medium|e]; [| reflexivity]. simpl.
  rewrite (gt_proper _ _ medium H).
  destruct (Py.gt (Qabs d') medium); [reflexivity |].
  destruct (getitem _ "low") as [low|e]; [| reflexivity]. simpl.
  now rewrite (gt_proper _ _ low H).
Qed.

(** X1.  The grading of a compared metric looks at the magnitude of the
    difference only: two differences of equal magnitude, such as a drop and
    a rise by the same percentage, get the same significance flag and the
    same impact level, and fail alike when the configuration lacks a key. *)
Theorem grading_ignores_direction (config : Config) (name : string) (d d' : Q) :
  (Qabs d == Qabs d')%Q ->
  match metric_entry config name d, metric_entry config name d' with
  | Ok e, Ok e' => significant e = significant e' /\ impact e = impact e'
  | Err x, Err x' => x = x'
  | _, _ => False
  end.
Proof.
  intros H. unfold metric_entry.
  destruct (require "thresholds" (thresholds config)) as [per_metric|e];
    [| reflexivity]. simpl.
  destruct (getitem per_metric name) as [threshold|e]; [| reflexivity]. simpl.
  rewrite (impact_level_magnitude config d d' H).
  destruct (_determine_impact_level config d') as [level|e]; [| reflexivity].
  simpl. split; [apply gt_proper, H | reflexivity].
Qed.

(** A drop of 30 percent is graded like a rise of 30 percent. *)
Lemma grading_ignores_direction_witness :
  exists e e',
    metric_entry CanarySpec.sample_config "latency" (- (30))%Q = Ok e /\
    metric_entry CanarySpec.sample_config "latency" 30%Q = Ok e' /\
    significant e = significant e' /\ impact e = impact e' /\ impact e = High.
Proof.
  pose proof (grading_ignores_direction CanarySpec.sample_config "latency"
                (- (30))%Q 30%Q ltac:(reflexivity)) as H.
  destruct (metric_entry CanarySpec.sample_config "latency" (- (30))%Q) as [e|x] eqn:E;
    [| vm_compute in E; discriminate E].
  destruct (metric_entry CanarySpec.sample_config "latency" 30%Q) as [e'|x'] eqn:E';
    [| vm_compute in E'; discriminate E'].
  exists e, e'. destruct H as [Hs Hi].
  repeat split; try assumption.
  vm_compute in E. injection E as <-. reflexivity.
Defined.

Lemma impact_level_bands config (d high medium low : Q) :
  impact_thresholds_of config !! "high" = Some high ->
  impact_thresholds_of config !! "medium" = Some medium ->
  impact_thresholds_of config !! "low" = Some low ->
  ((high < Qabs d)%Q /\ _determine_impact_level config d = Ok High) \/
  ((Qabs d <= high)%Q /\ (medium < Qabs d)%Q
   /\ _determine_impact_level config d = Ok Medium) \/
  ((Qabs d <= high)%Q /\ (Qabs d <= medium)%Q /\ (low < Qabs d)%Q
   /\ _determine_impact_level config d = Ok Low) \/
  ((Qabs d <= high)%Q /\ (Qabs d <= medium)%Q /\ (Qabs d <= low)%Q
   /\ _determine_impact_level config d = Ok Insignificant).
Proof.
  intros Hh Hm Hl. unfold _determine_impact_level. cbv zeta.
  fold (impact_thresholds_of config). unfold getitem.
  rewrite Hh. simpl.
  destruct (Py.gt (Qabs d) high) eqn:E1;
    [apply gt_true in E1; auto | apply gt_false in E1].
  rewrite Hm. simpl.
  destruct (Py.gt (Qabs d) medium) eqn:E2;
    [apply gt_true in E2; auto | apply gt_false in E2].
  rewrite Hl. simpl.
  destruct (Py.gt (Qabs d) low) eqn:E3;
    [apply gt_true in E3; auto 8 | apply gt_false in E3; auto 8].
Qed.

(** X2.  Under impact thresholds that name all three cutoffs in ascending
    order (low at most medium at most high), the impact level always
    returns and never drops as the magnitude of the difference grows. *)
Theorem impact_level_monotone (config : Config) (high medium low : Q) (d d' : Q) :
  impact_thresholds_of config !! "high" = Some high ->
  impact_thresholds_of config !! "medium" = Some medium ->
  impact_thresholds_of config !! "low" = Some low ->
  (low <= medium)%Q -> (medium <= high)%Q ->
  (Qabs d <= Qabs d')%Q ->
  exists level level',
    _determine_impact_level config d = Ok level /\
    _determine_impact_level config d' = Ok level' /\
    (impact_rank level <= impact_rank level')%nat.
Proof.
  intros Hh Hm Hl Hlm Hmh Hle.
  destruct (impact_level_bands config d _ _ _ Hh Hm Hl)
    as [(B & ->)|[(B1 & B2 & ->)|[(B1 & B2 & B3 & ->)|(B1 & B2 & B3 & ->)]]];
    destruct (impact_level_bands config d' _ _ _ Hh Hm Hl)
      as [(C & ->)|[(C1 & C2 & ->)|[(C1 & C2 & C3 & ->)|(C1 & C2 & C3 & ->)]]];
    eexists _, _; (split; [reflexivity |]); (split; [reflexivity |]);
    simpl; try lia; exfalso; lra.
Qed.

(** Under the default cutoffs 5, 10 and 20, a difference of 7 percent is
    low and one of -15 percent is medium. *)
Lemma impact_level_monotone_witness :
  exists level level',
    _determine_impact_level CanarySpec.sample_config 7 = Ok level /\
    _determine_impact_level CanarySpec.sample_config (- (15)) = Ok level' /\
    (impact_rank level <= impact_rank level')%nat /\
    level = Low /\ level' = Medium.
Proof.
  destruct (impact_level_monotone CanarySpec.sample_config 20 10 5 7 (- (15))%Q)
    as (level & level' & E & E' & Hrank);
    try (vm_compute; reflexivity); try (vm_compute; discriminate).
  exists level, level'. repeat split; try assumption.
  - vm_compute in E. now injection E as <-.
  - vm_compute in E'. now injection E' as <-.
Defined.

(** X3.  Configured impact thresholds replace the defaults as a whole: a
    cutoff the configuration leaves out is not taken from the defaults.
    With ['high'] configured and ['medium'] missing, a difference above the
    high cutoff is still graded high, and every other difference raises
    [KeyError] for ['medium']. *)
Theorem impact_thresholds_not_completed (config : Config)
    (configured : gmap string Q) (high : Q) (d : Q) :
  impact_thresholds config = Some configured ->
  configured !! "high" = Some high ->
  configured !! "medium" = None ->
  ((high < Qabs d)%Q -> _determine_impact_level config d = Ok High) /\
  ((Qabs d <= high)%Q ->
   _determine_impact_level config d = Err (KeyError "medium")).
Proof.
  intros Hc Hh Hm. unfold _determine_impact_level. cbv zeta.
  rewrite Hc. simpl. unfold getitem. rewrite Hh. simpl. split.
  - intros H. apply gt_true in H. now rewrite H.
  - intros H. apply gt_false in H. rewrite H, Hm. reflexivity.
Qed.

(** With only a high cutoff of 50 configured: 60 percent is high, 15
    percent raises although the default medium cutoff is 10. *)
Lemma impact_thresholds_not_completed_witness :
  _determine_impact_level partial_thresholds_config 60 = Ok High /\
  _determine_impact_level partial_thresholds_config 15
  = Err (KeyError "medium").
Proof.
  split.
  - apply (impact_thresholds_not_completed partial_thresholds_config
             {[ "high" := 50%Q ]} 50 60 eq_refl); vm_compute; reflexivity.
  - apply (impact_thresholds_not_completed partial_thresholds_config
             {[ "high" := 50%Q ]} 50 15 eq_refl); try (vm_compute; reflexivity).
    vm_compute. discriminate.
Defined.

End ImpactLevels.

Section Recommendations.

Import CanaryAnalyzer CanaryReport CanaryReportSpec.

Context {U Action : Type}.
Variable latency_advice : MetricAnalysis -> result Action.
Variable error_advice : ErrorAnalysis -> result Action.
Variable resource_advice : ResourceAnalysis -> result Action.

Local Abbreviation recommend :=
  (_generate_recommendations (UserImpactAnalysis := U)
     latency_advice error_advice resource_advice).

(** X4.  When [_generate_recommendations] returns, its list holds, in this
    order, one recommendation for latency, one for the error rate and one
    for CPU, each present exactly when that metric is flagged significant,
    typed performance, error and resource, with the impact of the metric as
    its severity.  Throughput, success rate, memory and error types add
    nothing however they are flagged, so the list is empty exactly when
    none of the three watched metrics is significant. *)
Theorem recommendations_follow_flags (a : AnalysisResults U) (d : Decision)
    (recs : list (Recommendation Action)) :
  recommend a d = Ok recs ->
  map (fun r => (rec_type r, rec_severity r)) recs
  = map (fun '(kind, entry) => (kind, impact entry)) (flagged a) /\
  (length recs <= 3)%nat /\
  (recs = [] <->
   significant (an_latency (performance_analysis a)) = false /\
   significant (an_error_rate (error_analysis a)) = false /\
   significant (an_cpu (resource_analysis a)) = false).
Proof.
  unfold _generate_recommendations, flagged, watched. cbv zeta. simpl.
  intros H.
  destruct (significant (an_latency (performance_analysis a)));
    destruct (significant (an_error_rate (error_analysis a)));
    destruct (significant (an_cpu (resource_analysis a)));
    simpl in H;
    try (destruct (latency_advice _) as [?|]; simpl in H; [| discriminate H]);
    try (destruct (error_advice _) as [?|]; simpl in H; [| discriminate H]);
    try (destruct (resource_advice _) as [?|]; simpl in H; [| discriminate H]);
    injection H as <-; simpl;
    (split; [reflexivity |]); (split; [lia |]);
    split; try discriminate; try tauto;
    intros (F1 & F2 & F3); discriminate.
Qed.

End Recommendations.

(** Throughput, success rate and memory all significant with high impact,
    latency, error rate and CPU quiet: no recommendation.  Latency and CPU
    significant: a performance and a resource recommendation, the first of
    low severity. *)
Lemma recommendations_follow_flags_witness :
  CanaryReport._generate_recommendations
    (fun _ => Ok "review latency") (fun _ => Ok "review errors")
    (fun _ => Ok "review resources")
    (CanaryReportSpec.sample_results false false false)
    CanaryReportSpec.sample_decision = Ok [] /\
  exists recs,
    CanaryReport._generate_recommendations
      (fun _ => Ok "review latency") (fun _ => Ok "review errors")
      (fun _ => Ok "review resources")
      (CanaryReportSpec.sample_results true false true)
      CanaryReportSpec.sample_decision = Ok recs /\
    map (fun r => (CanaryReport.rec_type r, CanaryReport.rec_severity r)) recs
    = [("performance", CanaryAnalyzer.Low); ("resource", CanaryAnalyzer.High)].
Proof.
  split.
  - destruct (CanaryReport._generate_recommendations
                (fun _ => Ok "review latency") (fun _ => Ok "review errors")
                (fun _ => Ok "review resources")
                (CanaryReportSpec.sample_results false false false)
                CanaryReportSpec.sample_decision) as [recs|e] eqn:E;
      [| vm_compute in E; discriminate E].
    destruct (recommendations_follow_flags _ _ _ _ _ _ E) as (_ & _ & Hnil).
    f_equal. apply Hnil. repeat split.
  - destruct (CanaryReport._generate_recommendations
                (fun _ => Ok "review latency") (fun _ => Ok "review errors")
                (fun _ => Ok "review resources")
                (CanaryReportSpec.sample_results true false true)
                CanaryReportSpec.sample_decision) as [recs|e] eqn:E;
      [| vm_compute in E; discriminate E].
    exists recs. split; [reflexivity |].
    destruct (recommendations_follow_flags _ _ _ _ _ _ E) as (Hmap & _).
    exact Hmap.
Defined.

(** ** Collection and the top-level analysis *)

Section Collection.

Import CanaryAnalyzer CanaryReport CanaryReportSpec.

Context {World Service : Type}.
Variable get_latency get_throughput get_success_rate : Service -> World -> World * result Q.
Variable get_cpu get_memory get_network get_error_rate :
  Service -> World -> World * result Q.
Variable get_error_types : Service -> World -> World * result (list string).

Local Abbreviation collect_baseline :=
  (_collect_baseline_metrics get_latency get_throughput get_success_rate
     get_cpu get_memory get_network get_error_rate get_error_types).
Local Abbreviation collect_canary :=
  (_collect_canary_metrics get_latency get_throughput get_success_rate
     get_cpu get_memory get_network get_error_rate get_error_types).

(** Split on the outcome of the next query to service [s]. *)
Ltac query_of g s :=
  match goal with
  | |- context [g s ?w] => destruct (g s w) as [? [?|?]]; cbn beta iota
  end.
Ltac next_query s :=
  first [ query_of get_latency s | query_of get_throughput s
        | query_of get_success_rate s | query_of get_cpu s
        | query_of get_memory s | query_of get_network s
        | query_of get_error_rate s | query_of get_error_types s ].



(** The collection always returns. *)
Lemma collect_baseline_returns (canary_data : CanaryData Service)
    (world : World) :
  exists world' metrics,
    collect_baseline canary_data world = (world', Ok metrics).
Proof.
  unfold _collect_baseline_metrics, try_except, collect_sections.
  unfold bindM, lift, query, modify, ret.
  destruct (baseline_service canary_data) as [s|e0]; cbn beta iota;
    [| eauto].
  repeat next_query s; eauto.
Qed.


(** The canary collection runs the same queries, unless [canary_data]
    names no canary service: that [KeyError] is raised before any query. *)
Lemma collect_canary_cases (canary_data : CanaryData Service) (world : World) :
  (exists e, collect_canary canary_data world = (world, Err e)) \/
  (exists world' metrics,
      collect_canary canary_data world = (world', Ok metrics)).
Proof.
  unfold _collect_canary_metrics, bindM, lift.
  destruct (require "canary" (canary canary_data)) as [target|e]; simpl;
    [| left; eauto].
  destruct (require "service" (service target)) as [s|e]; simpl;
    [| left; eauto].
  right. apply collect_baseline_returns.
Qed.

End Collection.


Section TopLevelAnalysis.

Import CanaryAnalyzer CanaryReport CanaryReportSpec.

Context {World Service U Action Report : Type}.
Variable get_latency get_throughput get_success_rate : Service -> World -> World * result Q.
Variable get_cpu get_memory get_network get_error_rate :
  Service -> World -> World * result Q.
Variable get_error_types : Service -> World -> World * result (list string).
Variable analyze_types : list string -> list string -> result ErrorTypesAnalysis.
Variable analyze_user_impact : Metrics -> Metrics -> result U.
Variable score_performance : PerformanceAnalysis -> result Q.
Variable score_error : ErrorAnalysis -> result Q.
Variable score_resource : ResourceAnalysis -> result Q.
Variable score_user : U -> result Q.
Variable score_overall : Config -> DecisionMetrics -> result Q.
Variable reasons_of :
  bool -> DecisionMetrics -> AnalysisResults U -> result (list string).
Variable latency_advice : MetricAnalysis -> result Action.
Variable error_advice : ErrorAnalysis -> result Action.
Variable resource_advice : ResourceAnalysis -> result Action.
Variable confidence_of : AnalysisResults U -> result Q.
Variable error_response : string -> result Report.
Variable now : World -> World * Z.
Variable config : Config.

Local Abbreviation collect_baseline :=
  (_collect_baseline_metrics get_latency get_throughput get_success_rate
     get_cpu get_memory get_network get_error_rate get_error_types).
Local Abbreviation collect_canary :=
  (_collect_canary_metrics get_latency get_throughput get_success_rate
     get_cpu get_memory get_network get_error_rate get_error_types).
Local Abbreviation analyze_pair :=
  (analyze_metrics analyze_types analyze_user_impact config).
Local Abbreviation decide_on :=
  (_make_promotion_decision score_performance score_error score_resource
     score_user score_overall reasons_of config).
Local Abbreviation recommend :=
  (_generate_recommendations (UserImpactAnalysis := U)
     latency_advice error_advice resource_advice).
Local Abbreviation analyze :=
  (analyze_canary get_latency get_throughput get_success_rate get_cpu
     get_memory get_network get_error_rate get_error_types analyze_types
     analyze_user_impact score_performance score_error score_resource
     score_user score_overall reasons_of latency_advice error_advice
     resource_advice confidence_of error_response now config).

(** The analyses return only on metrics with all three sections. *)
Lemma analyze_metrics_complete (b c : Metrics) (a : AnalysisResults U) :
  analyze_pair b c = Ok a -> complete b /\ complete c.
Proof.
  unfold analyze_metrics. intros H. ok_inv H.
  unfold _analyze_performance in E. ok_inv E.
  unfold _analyze_errors in E0. ok_inv E0.
  unfold _analyze_resources in E1. ok_inv E1.
  unfold complete.
  repeat match goal with
  | R : require _ _ = Ok _ |- _ => apply require_Ok in R; rewrite R
  end.
  repeat split; eauto.
Qed.

(** X6.  [analyze_canary] makes no partial comparison.  Whenever it returns
    a report, both collections had filled all three sections, and the
    analysis, the decision and the recommendations of the report are the
    ones computed from those metrics.  Whatever goes wrong on the way, in
    a collaborator or for a missing key, ends in the error response built
    from the text of the exception: when [_generate_error_response]
    returns, so does [analyze_canary]. *)
Theorem analysis_needs_complete_metrics (canary_data : CanaryData Service)
    (world : World) :
  (forall world' stamp a d recs score,
      analyze canary_data world
      = (world', Ok (Analyzed stamp a d recs score)) ->
      exists w1 w2 b c,
        collect_baseline canary_data world = (w1, Ok b) /\
        collect_canary canary_data w1 = (w2, Ok c) /\
        complete b /\ complete c /\
        analyze_pair b c = Ok a /\
        decide_on a = Ok d /\
        recommend a d = Ok recs /\
        confidence_of a = Ok score) /\
  ((forall message, exists report, error_response message = Ok report) ->
   exists world' outcome, analyze canary_data world = (world', Ok outcome)).
Proof.
  split.
  - intros world' stamp a d recs score H.
    apply try_except_Ok in H. destruct H as [H | (e & s1 & _ & H)].
    2:{ apply bindM_Ok in H. destruct H as (report & s2 & _ & H).
        apply ret_Ok in H. destruct H as [_ H]. discriminate H. }
    apply bindM_Ok in H. destruct H as (b & w1 & Hb & H).
    apply bindM_Ok in H. destruct H as (c & w2 & Hc & H).
    apply bindM_Ok in H. destruct H as (a' & w3 & Ha & H).
    apply lift_Ok in Ha. destruct Ha as [-> Ha].
    apply bindM_Ok in H. destruct H as (d' & w4 & Hd & H).
    apply lift_Ok in Hd. destruct Hd as [-> Hd].
    apply bindM_Ok in H. destruct H as (recs' & w5 & Hr & H).
    apply lift_Ok in Hr. destruct Hr as [-> Hr].
    apply bindM_Ok in H. destruct H as (stamp' & w6 & Hs & H).
    apply bindM_Ok in H. destruct H as (score' & w7 & Hc' & H).
    apply lift_Ok in Hc'. destruct Hc' as [-> Hc'].
    apply ret_Ok in H. destruct H as [_ H]. injection H as -> -> -> -> ->.
    destruct (analyze_metrics_complete _ _ _ Ha) as [Hcb Hcc].
    exists w1, w2, b, c.
    split; [exact Hb |]. split; [exact Hc |].
    split; [exact Hcb |]. split; [exact Hcc |]. auto.
  - intros Htotal. unfold analyze_canary, try_except.
    match goal with
    | |- exists w o, match ?body with _ => _ end = _ =>
        destruct body as [s1 [o|e]]
    end.
    + eauto.
    + unfold bindM, lift, ret.
      destruct (Htotal (Py.str e)) as [report ->]. eauto.
Qed.

End TopLevelAnalysis.

(** On a back end that answers every query, the sample analysis returns a
    report; when the fourth query of the baseline collection fails, it
    returns the error response for the missing ['errors'] section. *)
Lemma analysis_needs_complete_metrics_witness :
  (exists stamp a d recs score,
      CanaryReportSpec.sample_analyze 100 CanarySpec.sample_config 0%nat
      = (16%nat, Ok (CanaryReport.Analyzed stamp a d recs score))) /\
  CanaryReportSpec.sample_analyze 3 CanarySpec.sample_config 0%nat
  = (12%nat, Ok (CanaryReport.Failed "'errors'")).
Proof.
  split; [| vm_compute; reflexivity].
  destruct (CanaryReportSpec.sample_analyze 100 CanarySpec.sample_config 0%nat)
    as [n [[stamp a d recs score|report]|e]] eqn:E;
    try (vm_compute in E; discriminate E).
  assert (n = 16%nat) as -> by (vm_compute in E; now injection E as <-).
  exists stamp, a, d, recs, score.
  unfold CanaryReportSpec.sample_analyze in E.
  pose proof (proj1 (analysis_needs_complete_metrics _ _ _ _ _ _ _ _ _ _ _ _
                       _ _ _ _ _ _ _ _ _ _ _ _ _) _ _ _ _ _ _ E) as H.
  destruct H as (w1 & w2 & b & c & Hb & Hc & _).
  reflexivity.
Defined.

(** ** The outcomes of a rollback *)

Section RollbackOutcomes.

Import RollbackHandler RollbackSpec.

Context {World DeploymentData PreviousState Step Points
         Metadata Verification Report : Type}.
Variable can_rollback : DeploymentData -> World -> World * result bool.
Variable get_previous_state :
  DeploymentData -> World -> World * result PreviousState.
Variable generate_steps :
  DeploymentData -> PreviousState -> result (list Step).
Variable generate_points : PreviousState -> result Points.
Variable execute : Step -> World -> World * result (StepResult Step).
Variable verify :
  DeploymentData -> RollbackResult Step -> World -> World * result Verification.
Variable record :
  DeploymentData -> string -> RollbackResult Step -> Verification ->
  World -> World * result unit.
Variable error_response : string -> result Report.
Variable metadata : DeploymentData -> option Metadata.
Variable verification_success : Verification -> option bool.

Local Abbreviation run_steps := (run_steps execute).
Local Abbreviation all_succeed := (all_succeed execute).
Local Abbreviation execute_rollback :=
  (_execute_rollback (PreviousState := PreviousState) (Points := Points) execute).
Local Abbreviation handle :=
  (handle_rollback can_rollback get_previous_state generate_steps
     generate_points execute verify record error_response metadata
     verification_success).

(** Results that all report success come from steps that all succeeded. *)
Lemma run_steps_all_success steps acc world trace world' trace' rs :
  all_success acc = Ok true ->
  run_steps steps acc (world, trace) = ((world', trace'), Ok rs) ->
  all_success rs = Ok true ->
  exists new, rs = acc ++ new /\ all_succeed steps world = Some (world', new).
Proof.
  revert acc world trace.
  induction steps as [|s steps IH]; intros acc world trace Hacc H Hall.
  - simpl in H. injection H as <- <- <-. exists []. now rewrite app_nil_r.
  - simpl in H. unfold call in H. simpl.
    destruct (execute s world) as [w1 [r|e]].
    + destruct (success r) as [[|]|] eqn:Er.
      * assert (all_success (acc ++ [r]) = Ok true) as Hacc'
          by (rewrite (all_success_app _ _ Hacc); simpl; now rewrite Er).
        destruct (IH _ _ _ Hacc' H Hall) as (new & -> & Hnew).
        rewrite Hnew. exists (r :: new). now rewrite <- app_assoc.
      * injection H as <- <- <-.
        rewrite (all_success_app _ _ Hacc) in Hall. simpl in Hall.
        rewrite Er in Hall. discriminate Hall.
      * injection H as <- <- <-.
        rewrite (all_success_app _ _ Hacc) in Hall. simpl in Hall.
        rewrite Er in Hall. discriminate Hall.
    + injection H as <- <- <-.
      rewrite (all_success_app _ _ Hacc) in Hall. discriminate Hall.
Qed.

(** X7.  The success flag of [_execute_rollback] is exact.  If every step of
    the plan succeeds in turn, all of them are executed in order, the count
    is the length of the plan and the flag is true; for a plan without
    steps this holds without a single call.  Conversely a true flag means
    that every planned step was executed and succeeded. *)
Theorem rollback_success_exact
    (plan : RollbackPlan PreviousState Step Points)
    (world : World) (trace : list (Event Step)) :
  (forall final rs,
      all_succeed (rollback_steps plan) world = Some (final, rs) ->
      execute_rollback plan (world, trace)
      = ((final, trace ++ map ExecuteStep (rollback_steps plan)),
         Ok {| steps_executed := length (rollback_steps plan);
               rollback_success := true;
               results := rs |})) /\
  (forall final trace' rr,
      execute_rollback plan (world, trace) = ((final, trace'), Ok rr) ->
      rollback_success rr = true ->
      all_succeed (rollback_steps plan) world = Some (final, results rr) /\
      steps_executed rr = length (rollback_steps plan)).
Proof.
  split.
  - intros final rs Hall.
    destruct (all_succeed_results _ _ _ _ _ Hall) as [Hok Hlen].
    unfold _execute_rollback, bindM.
    rewrite <- (app_nil_r (rollback_steps plan)) at 1.
    rewrite (run_steps_prefix _ _ _ _ _ _ _ _ Hall). simpl.
    unfold lift. rewrite Hok. unfold ret. now rewrite Hlen.
  - intros final trace' rr H Hflag. unfold _execute_rollback in H.
    apply bindM_Ok in H. destruct H as (rs & [w1 t1] & Hrun & H).
    apply bindM_Ok in H. destruct H as (ok & run2 & Hall & H).
    apply lift_Ok in Hall. destruct Hall as [-> Hall].
    apply ret_Ok in H. destruct H as [[= <- <-] ->]. simpl in *. subst ok.
    destruct (run_steps_all_success _ [] _ _ _ _ _ eq_refl Hrun Hall)
      as (new & -> & Hnew).
    simpl. split; [assumption |].
    now destruct (all_succeed_results _ _ _ _ _ Hnew).
Qed.

(** X8.  A step result without the ['success'] key is the one way for
    [_execute_rollback] to raise.  The step counts as executed, no later
    step runs, and the [KeyError] for ['success'] escapes instead of a
    result. *)
Theorem rollback_malformed_result
    (plan : RollbackPlan PreviousState Step Points)
    (world : World) (trace : list (Event Step)) :
  (forall before s after final rs world' r,
      rollback_steps plan = before ++ s :: after ->
      all_succeed before world = Some (final, rs) ->
      execute s final = (world', Ok r) ->
      success r = None ->
      execute_rollback plan (world, trace)
      = ((world', trace ++ map ExecuteStep (before ++ [s])),
         Err (KeyError "success"))) /\
  (forall run' e,
      execute_rollback plan (world, trace) = (run', Err e) ->
      e = KeyError "success").
Proof.
  split.
  - intros before s after final rs world' r Hplan Hbefore Hs Hr.
    destruct (all_succeed_results _ _ _ _ _ Hbefore) as [Hok _].
    unfold _execute_rollback, bindM. rewrite Hplan.
    rewrite (run_steps_prefix _ _ _ _ _ _ _ _ Hbefore). simpl.
    unfold call. rewrite Hs, Hr. unfold lift.
    rewrite (all_success_app _ _ Hok). simpl. rewrite Hr.
    rewrite map_app, app_assoc. reflexivity.
  - intros [w1 t1] e H. unfold _execute_rollback, bindM in H.
    destruct (run_steps (rollback_steps plan) [] (world, trace))
      as [[w2 t2] [rs|e']] eqn:Hrun.
    + unfold lift, ret in H.
      assert (forall l : list (StepResult Step),
                 forall x, all_success l = Err x -> x = KeyError "success")
        as Honly.
      { induction l as [|r l IH]; simpl; [discriminate |].
        destruct (success r) as [[|]|]; intros x Hx;
          [now apply IH | discriminate | congruence]. }
      destruct (all_success rs) eqn:Hall; [discriminate H |].
      injection H as _ _ <-. now apply Honly in Hall.
    + apply run_steps_trace in Hrun.
      destruct Hrun as (n & rs & Hcontra & _). discriminate Hcontra.
Qed.

Lemma execute_rollback_at_failure
    (plan : RollbackPlan PreviousState Step Points)
    before s after world final world' rs outcome trace :
  rollback_steps plan = before ++ s :: after ->
  all_succeed before world = Some (final, rs) ->
  execute s final = (world', outcome) ->
  fails outcome ->
  exists r,
    success r = Some false /\
    execute_rollback plan (world, trace)
    = ((world', trace ++ map ExecuteStep (before ++ [s])),
       Ok {| steps_executed := S (length before);
             rollback_success := false;
             results := rs ++ [r] |}).
Proof.
  intros Hplan Hbefore Hs Hfail.
  destruct (run_steps_failure execute s after ([] ++ rs) final world' outcome
              (trace ++ map ExecuteStep before) Hs Hfail)
    as (r & Hr & Hrun).
  destruct (all_succeed_results _ _ _ _ _ Hbefore) as [Hall Hlen].
  exists r. split; [assumption |].
  unfold _execute_rollback, bindM. rewrite Hplan.
  rewrite (run_steps_prefix _ _ _ _ _ _ _ _ Hbefore), Hrun.
  unfold lift. simpl app at 2.
  rewrite (all_success_app _ _ Hall). simpl. rewrite Hr. unfold ret.
  rewrite map_app, app_assoc, length_app, Hlen. simpl.
  do 3 f_equal. f_equal. lia.
Qed.

(** X9.  [handle_rollback] lets no exception of its collaborators escape:
    whenever [_generate_error_response] returns, so does the handler.  And
    when [_can_rollback] answers no, the handler asks nothing else of the
    cluster: that call is the only one it makes, and the response is the
    refusal. *)
Theorem rollback_handler_contains_errors
    (deployment_data : DeploymentData) (reason : string)
    (world : World) (trace : list (Event Step)) :
  ((forall message, exists report, error_response message = Ok report) ->
   exists run' response,
     handle deployment_data reason (world, trace) = (run', Ok response)) /\
  (forall world',
      can_rollback deployment_data world = (world', Ok false) ->
      handle deployment_data reason (world, trace)
      = ((world', trace ++ [CanRollback]), Ok NotPossible)).
Proof.
  split.
  - intros Htotal. unfold handle_rollback, try_except.
    match goal with
    | |- exists r o, match ?body with _ => _ end = _ =>
        destruct body as [run1 [response|e]]
    end.
    + eauto.
    + unfold bindM, lift, ret.
      destruct (Htotal (Py.str e)) as [report ->]. eauto.
  - intros world' Hcan. unfold handle_rollback, try_except, bindM, call.
    rewrite Hcan. reflexivity.
Qed.

(** X10.  A failed step does not end the handling.  When step k of the plan
    is the first to fail and the later collaborators return, the rollback
    is still verified and recorded, with a result that counts k steps and
    reports failure, and the status of the response is the one of the
    verification: a rollback whose steps failed is reported successful if
    the verification says so. *)
Theorem failed_rollback_still_verified
    (deployment_data : DeploymentData) (reason : string)
    (w0 w1 w2 final w3 w4 w5 : World)
    (state : PreviousState) (points : Points)
    (before : list Step) (s : Step) (after : list Step)
    (rs : list (StepResult Step)) (outcome : result (StepResult Step))
    (original : Metadata) :
  can_rollback deployment_data w0 = (w1, Ok true) ->
  get_previous_state deployment_data w1 = (w2, Ok state) ->
  generate_steps deployment_data state = Ok (before ++ s :: after) ->
  generate_points state = Ok points ->
  all_succeed before w2 = Some (final, rs) ->
  execute s final = (w3, outcome) ->
  fails outcome ->
  metadata deployment_data = Some original ->
  exists rr,
    steps_executed rr = S (length before) /\
    rollback_success rr = false /\
    forall verification verified,
      verify deployment_data rr w3 = (w4, Ok verification) ->
      record deployment_data reason rr verification w4 = (w5, Ok tt) ->
      verification_success verification = Some verified ->
      handle deployment_data reason (w0, [])
      = ((w5, [CanRollback; GetPreviousState]
              ++ map ExecuteStep (before ++ [s])
              ++ [VerifyRollback; RecordRollback]),
         Ok (Completed (if verified then "success" else "failed")
               original rr verification)).
Proof.
  intros Hcan Hstate Hsteps Hpoints Hbefore Hs Hfail Hmeta.
  destruct (execute_rollback_at_failure
              {| previous_state := state;
                 rollback_steps := before ++ s :: after;
                 verification_points := points |}
              before s after w2 final w3 rs outcome
              [CanRollback; GetPreviousState] eq_refl Hbefore Hs Hfail)
    as (r & Hr & Hrun).
  eexists. split; [| split]; [| | intros verification verified Hv Hrec Hok].
  3:{ unfold handle_rollback, try_except, _prepare_rollback.
      unfold bindM at 1. unfold call at 1. rewrite Hcan. cbn [negb].
      unfold bindM at 1. unfold bindM at 1. unfold bindM at 1.
      unfold call at 1. rewrite Hstate. cbn beta iota.
      unfold bindM at 1. unfold lift at 1. rewrite Hsteps.
      unfold bindM at 1. unfold lift at 1. rewrite Hpoints.
      unfold ret at 1. cbn beta iota. simpl app.
      unfold bindM at 1. rewrite Hrun.
      unfold bindM at 1. unfold call at 1. rewrite Hv. cbn beta iota.
      unfold bindM at 1. unfold call at 1. rewrite Hrec. cbn beta iota.
      unfold bindM, lift, ret. rewrite Hok, Hmeta. simpl.
      rewrite <- !app_assoc. reflexivity. }
  - reflexivity.
  - reflexivity.
Qed.

End RollbackOutcomes.

(** Three steps that succeed: three steps executed, success reported. *)
Lemma rollback_success_exact_witness :
  exists rs,
    RollbackHandler._execute_rollback (RollbackSpec.sample_execute 0)
      RollbackSpec.sample_plan (tt, [])
    = ((tt, map RollbackHandler.ExecuteStep [1; 2; 3]%nat),
       Ok {| RollbackHandler.steps_executed := 3;
             RollbackHandler.rollback_success := true;
             RollbackHandler.results := rs |}).
Proof.
  eexists.
  apply (proj1 (rollback_success_exact (RollbackSpec.sample_execute 0)
                  RollbackSpec.sample_plan tt []) tt).
  reflexivity.
Defined.

(** The second of three steps returns a result without ['success']: two
    steps executed, then the [KeyError]. *)
Lemma rollback_malformed_result_witness :
  RollbackHandler._execute_rollback (RollbackSamples.malformed_execute 2)
    RollbackSpec.sample_plan (tt, [])
  = ((tt, [RollbackHandler.ExecuteStep 1%nat; RollbackHandler.ExecuteStep 2%nat]),
     Err (KeyError "success")).
Proof.
  apply (proj1 (rollback_malformed_result (RollbackSamples.malformed_execute 2)
                  RollbackSpec.sample_plan tt [])
           [1%nat] 2%nat [3%nat] tt
           [ {| RollbackHandler.step := Some 1%nat;
                RollbackHandler.success := Some true;
                RollbackHandler.error := None |} ]
           tt
           {| RollbackHandler.step := Some 2%nat;
              RollbackHandler.success := None;
              RollbackHandler.error := None |});
    reflexivity.
Defined.

(** A refused rollback asks the cluster once; a malformed step result ends
    in the error response, not in an exception. *)
Lemma rollback_handler_contains_errors_witness :
  RollbackSamples.handle_with false (RollbackSpec.sample_execute 0) true (tt, [])
  = ((tt, [RollbackHandler.CanRollback]), Ok RollbackHandler.NotPossible) /\
  exists run' response,
    RollbackSamples.handle_with true (RollbackSamples.malformed_execute 2) true
      (tt, [])
    = (run', Ok response).
Proof.
  unfold RollbackSamples.handle_with. split.
  - apply (proj2 (rollback_handler_contains_errors _ _ _ _ _ _ _ _ _ _
                    tt "canary aborted" tt [])).
    reflexivity.
  - apply (proj1 (rollback_handler_contains_errors _ _ _ _ _ _ _ _ _ _
                    tt "canary aborted" tt [])).
    intros message. now exists message.
Defined.

(** Step 2 of 3 fails and the verification passes: the rollback is
    verified, recorded and reported successful, with a result that says
    failure. *)
Lemma failed_rollback_still_verified_witness :
  exists rr,
    RollbackHandler.rollback_success rr = false /\
    RollbackSamples.handle_with true (RollbackSpec.sample_execute 2) true (tt, [])
    = ((tt, [ RollbackHandler.CanRollback; RollbackHandler.GetPreviousState;
              RollbackHandler.ExecuteStep 1%nat;
              RollbackHandler.ExecuteStep 2%nat;
              RollbackHandler.VerifyRollback;
              RollbackHandler.RecordRollback ]),
       Ok (RollbackHandler.Completed "success" "web-v2" rr true)).
Proof.
  destruct (failed_rollback_still_verified
              (fun _ world => (world, Ok true))
              (fun _ world => (world, Ok tt))
              (fun _ _ => Ok [1; 2; 3]%nat)
              (fun _ => Ok tt)
              (RollbackSpec.sample_execute 2)
              (fun _ _ world => (world, Ok true))
              (fun _ _ _ _ world => (world, Ok tt))
              (fun message : string => Ok message)
              (fun _ : unit => Some "web-v2")
              (fun verification : bool => Some verification)
              tt "canary aborted" tt tt tt tt tt tt tt tt tt
              [1%nat] 2%nat [3%nat]
              [ {| RollbackHandler.step := Some 1%nat;
                   RollbackHandler.success := Some true;
                   RollbackHandler.error := None |} ]
              (Ok {| RollbackHandler.step := Some 2%nat;
                     RollbackHandler.success := Some false;
                     RollbackHandler.error := Some "post-condition not met" |})
              "web-v2" eq_refl eq_refl eq_refl eq_refl eq_refl eq_refl
              eq_refl eq_refl)
    as (rr & _ & Hflag & Hrun).
  exists rr. split; [assumption |].
  unfold RollbackSamples.handle_with.
  exact (Hrun true true eq_refl eq_refl eq_refl).
Defined.

(** ** Windows and anomalies *)

Section DetectorWindows.

Import AIAnomalyDetector DetectorSpec.

Variable clock : nat -> Z.
Variable score_samples : list Q -> Q -> result Q.
Variable config : Config.

Local Abbreviation observe := (observe clock score_samples config).
Local Abbreviation observe_all := (observe_all clock score_samples config).
Local Abbreviation detect := (detect_anomalies clock score_samples config).
Local Abbreviation check := (_check_metric_anomaly clock score_samples config).

(** The detector after the append of an observation, before any
    eviction. *)
Lemma observe_without_retention t name v d :
  training_period_days config = None ->
  observe t name v d
  = (set_history
       (fun h => <[name := window_of d name
                            ++ [{| timestamp := t; value := v |}]]> h) d,
     Err (KeyError "training_period_days")).
Proof. intros Hdays. rewrite observe_head, Hdays. reflexivity. Qed.

Lemma observe_without_minimum days t name v d :
  training_period_days config = Some days ->
  cutoff_in_range days t ->
  minimum_datapoints config = None ->
  observe t name v d
  = (updated days t name v d, Err (KeyError "minimum_datapoints")).
Proof.
  intros Hdays Hrange Hmin.
  rewrite observe_head, Hdays, (cutoff_value _ _ Hrange), Hmin.
  reflexivity.
Qed.

(** Under a configured retention an observation leaves the updated window,
    however it ends. *)
Lemma observe_window_any days t name v d d' out :
  training_period_days config = Some days ->
  cutoff_in_range days t ->
  observe t name v d = (d', out) ->
  window_of d' name = updated_window days t (window_of d name) v.
Proof.
  intros Hdays Hrange H.
  destruct (minimum_datapoints config) as [minimum|] eqn:Hmin.
  - rewrite (observe_unfold _ _ _ _ _ _ _ _ _ Hdays Hmin Hrange) in H.
    destruct (_ >=? _)%Z.
    + apply check_history in H. destruct H as [Hh _].
      unfold window_of at 1. rewrite Hh. apply updated_window_of.
    + injection H as <- _. apply updated_window_of.
  - rewrite (observe_without_minimum _ _ _ _ _ Hdays Hrange Hmin) in H.
    injection H as <- _. apply updated_window_of.
Qed.

Lemma appended_window t name v d :
  window_of (appended t name v d) name
  = window_of d name ++ [{| timestamp := t; value := v |}].
Proof. unfold window_of, appended. simpl. now rewrite lookup_insert_eq. Qed.

Lemma observe_names t name v d d' a :
  observe t name v d = (d', Ok (Some a)) -> metric a = name.
Proof.
  intros H.
  destruct (training_period_days config) as [days|] eqn:Hdays;
    [| rewrite (observe_without_retention _ _ _ _ Hdays) in H; discriminate H].
  pose proof (observe_Ok_range _ _ _ _ _ _ _ _ _ _ Hdays H) as Hrange.
  destruct (minimum_datapoints config) as [minimum|] eqn:Hmin;
    [| rewrite (observe_without_minimum _ _ _ _ _ Hdays Hrange Hmin) in H;
       discriminate H].
  rewrite (observe_unfold _ _ _ _ _ _ _ _ _ Hdays Hmin Hrange) in H.
  destruct (_ >=? _)%Z; [| discriminate H].
  apply check_history in H. destruct H as [_ Hname]. now apply Hname.
Qed.

Lemma observe_all_sublist t metrics acc d d' anomalies :
  observe_all t metrics acc d = (d', Ok anomalies) ->
  exists new,
    anomalies = acc ++ new /\ sublist (map metric new) (map fst metrics).
Proof.
  revert acc d. induction metrics as [|[name v] rest IH]; intros acc d H.
  - simpl in H. injection H as <- <-. exists []. rewrite app_nil_r.
    split; [reflexivity | constructor].
  - simpl in H. unfold bindM in H.
    destruct (observe t name v d) as [d1 [found|e]] eqn:Hobs; [| discriminate].
    destruct (IH _ _ H) as (new & -> & Hsub). destruct found as [a|].
    + exists (a :: new). split; [now rewrite <- app_assoc |].
      simpl. rewrite (observe_names _ _ _ _ _ _ Hobs). now constructor.
    + exists new. split; [reflexivity |]. simpl. now constructor.
Qed.

(** X11.  A call reports at most one anomaly per metric, and in the order
    of the metrics it was given: the names of the anomalies returned form a
    subsequence of the names of [metrics].  In particular there are no more
    anomalies than metrics, and none for an empty dictionary. *)
Theorem anomalies_follow_metrics (metrics : list (string * Q))
    (d d' : Detector) (anomalies : list Anomaly) :
  detect metrics d = (d', Ok anomalies) ->
  sublist (map metric anomalies) (map fst metrics) /\
  (length anomalies <= length metrics)%nat.
Proof.
  intros H. unfold detect_anomalies, bindM, now in H.
  apply observe_all_sublist in H. destruct H as (new & -> & Hsub).
  simpl. split; [assumption |].
  apply sublist_length in Hsub. now rewrite !length_map in Hsub.
Qed.

Lemma updated_window_positive days t old v :
  (0 < days)%Z ->
  updated_window days t old v
  = List.filter
      (fun point => (timestamp point >? t - timedelta_days days)%Z) old
    ++ [{| timestamp := t; value := v |}].
Proof.
  intros Hdays. unfold updated_window. rewrite List.filter_app. simpl.
  assert ((t >? t - timedelta_days days)%Z = true) as ->; [| reflexivity].
  rewrite Z.gtb_ltb. apply Z.ltb_lt. unfold timedelta_days. lia.
Qed.

Lemma updated_window_nonpositive days t old v :
  (days <= 0)%Z ->
  updated_window days t old v
  = List.filter
      (fun point => (timestamp point >? t - timedelta_days days)%Z) old.
Proof.
  intros Hdays. unfold updated_window. rewrite List.filter_app. simpl.
  assert ((t >? t - timedelta_days days)%Z = false) as ->;
    [| apply app_nil_r].
  rewrite Z.gtb_ltb. apply Z.ltb_ge. unfold timedelta_days. lia.
Qed.

Lemma filter_length_le {A} (f : A -> bool) (l : list A) :
  (length (List.filter f l) <= length l)%nat.
Proof.
  induction l as [|x l IH]; simpl; [lia |]. destruct (f x); simpl; lia.
Qed.

(** X12.  Under a positive retention, an observation always leaves its own
    sample as the last element of the window of its metric, whether the
    model was consulted, raised, or was skipped: the window is never empty
    after an observation, and it has grown by at most one sample. *)
Theorem observation_is_kept (days : Z) (t : Z) (name : string) (v : Q)
    (d d' : Detector) (out : result (option Anomaly)) :
  training_period_days config = Some days ->
  (0 < days)%Z ->
  observe t name v d = (d', out) ->
  last (window_of d' name) = Some {| timestamp := t; value := v |} /\
  (1 <= length (window_of d' name) <= S (length (window_of d name)))%nat.
Proof.
  intros Hdays Hpos H.
  destruct (cutoff_in_range_dec days t) as [Hrange | Hout].
  - rewrite (observe_window_any _ _ _ _ _ _ _ Hdays Hrange H).
    rewrite (updated_window_positive _ _ _ _ Hpos).
    split; [apply last_snoc |].
    rewrite length_app. simpl.
    pose proof (filter_length_le
                  (fun point => (timestamp point >? t - timedelta_days days)%Z)
                  (window_of d name)).
    lia.
  - destruct (observe_overflow clock score_samples config _ t name v d
                Hdays Hout) as [message Hm].
    rewrite Hm in H. injection H as <- _. rewrite appended_window.
    split; [apply last_snoc |]. rewrite length_app. simpl. lia.
Qed.

(** X13.  Under a retention of zero days or less, one that can still be
    taken off the call time, the sample of an observation is evicted at
    once.  If no stored sample is dated after the observation, the window
    is left empty, and under a positive [minimum_datapoints] the
    observation reports no anomaly and never consults the model: such a
    detector stays silent for good. *)
Theorem nonpositive_retention_is_silent (days minimum : Z) (t : Z)
    (name : string) (v : Q) (d : Detector) :
  training_period_days config = Some days ->
  minimum_datapoints config = Some minimum ->
  (days <= 0)%Z ->
  cutoff_in_range days t ->
  (0 < minimum)%Z ->
  Forall (fun point => (timestamp point <= t)%Z) (window_of d name) ->
  observe t name v d = (updated days t name v d, Ok None) /\
  window_of (updated days t name v d) name = [].
Proof.
  intros Hdays Hmin Hnonpos Hrange Hpos Hpast.
  assert (updated_window days t (window_of d name) v = []) as Hempty.
  { rewrite (updated_window_nonpositive _ _ _ _ Hnonpos).
    induction Hpast as [|p l Hp _ IH]; simpl; [reflexivity |].
    assert ((timestamp p >? t - timedelta_days days)%Z = false) as ->;
      [| exact IH].
    rewrite Z.gtb_ltb. apply Z.ltb_ge. unfold timedelta_days. lia. }
  split.
  - apply (observe_short _ _ _ _ _ _ _ _ _ Hdays Hmin Hrange).
    rewrite Hempty. simpl. lia.
  - now rewrite updated_window_of.
Qed.

(** X14.  A configuration without [training_period_days] makes an
    observation raise [KeyError], but only after the sample was appended:
    the window has grown by the sample, unevicted, and the call stops at
    the first metric.  A retention that cannot be taken off the call time
    (more than 999999999 days, or a cutoff outside the years 1 to 9999)
    raises [OverflowError] at the same point, the sample appended and
    nothing evicted.  Without [minimum_datapoints] the [KeyError] comes
    after the eviction.  In none of the three cases is the model
    consulted. *)
Theorem missing_setting_keeps_sample (t : Z) (name : string) (v : Q)
    (d : Detector) :
  (training_period_days config = None ->
   observe t name v d
   = (set_history
        (fun h => <[name := window_of d name
                             ++ [{| timestamp := t; value := v |}]]> h) d,
      Err (KeyError "training_period_days")) /\
   forall rest,
     detect ((name, v) :: rest) d
     = (set_history
          (fun h => <[name := window_of d name
                               ++ [{| timestamp := clock (reads d);
                                      value := v |}]]> h)
          {| history := history d; reads := S (reads d) |},
        Err (KeyError "training_period_days"))) /\
  (forall days,
      training_period_days config = Some days ->
      ~ cutoff_in_range days t ->
      exists message,
        observe t name v d
        = (appended t name v d, Err (OverflowError message))) /\
  (forall days,
      training_period_days config = Some days ->
      cutoff_in_range days t ->
      minimum_datapoints config = None ->
      observe t name v d
      = (updated days t name v d, Err (KeyError "minimum_datapoints"))).
Proof.
  split; [| split].
  - intros Hdays. split; [apply (observe_without_retention _ _ _ _ Hdays) |].
    intros rest. unfold detect_anomalies, bindM, now. simpl. unfold bindM.
    now rewrite (observe_without_retention _ _ _ _ Hdays).
  - intros days Hdays Hout. exact (observe_overflow _ _ _ _ _ _ _ _ Hdays Hout).
  - intros days Hdays Hrange Hmin. now apply observe_without_minimum.
Qed.

End DetectorWindows.

(** Two metrics, the first abnormal: one anomaly, for the first. *)
Lemma anomalies_follow_metrics_witness :
  exists d' anomalies,
    AIAnomalyDetector.detect_anomalies DetectorSpec.day_ten
      DetectorSpec.sample_scorer (DetectorSpec.sample_config 7 1)
      [("cpu_usage", 95%Q); ("memory_usage", 60%Q)] DetectorSpec.fresh_detector
    = (d', Ok anomalies) /\
    map AIAnomalyDetector.metric anomalies = ["cpu_usage"] /\
    sublist (map AIAnomalyDetector.metric anomalies)
      ["cpu_usage"; "memory_usage"].
Proof.
  destruct (AIAnomalyDetector.detect_anomalies DetectorSpec.day_ten
              DetectorSpec.sample_scorer (DetectorSpec.sample_config 7 1)
              [("cpu_usage", 95%Q); ("memory_usage", 60%Q)]
              DetectorSpec.fresh_detector) as [d' [anomalies|e]] eqn:E;
    [| vm_compute in E; discriminate E].
  exists d', anomalies. split; [reflexivity |].
  split; [vm_compute in E; now injection E as <- <- |].
  exact (proj1 (anomalies_follow_metrics DetectorSpec.day_ten
                  DetectorSpec.sample_scorer (DetectorSpec.sample_config 7 1)
                  _ _ _ _ E)).
Defined.

(** The model raises, and the sample of the observation is in the window
    all the same. *)
Lemma observation_is_kept_witness :
  exists d',
    AIAnomalyDetector.observe DetectorSpec.day_ten DetectorSpec.broken_scorer
      (DetectorSpec.sample_config 7 1) (10 * DetectorSpec.day) "cpu_usage" 95
      DetectorSpec.stale_detector
    = (d', Err (Raised "model unavailable")) /\
    last (DetectorSpec.window_of d' "cpu_usage")
    = Some {| AIAnomalyDetector.timestamp := 10 * DetectorSpec.day;
              AIAnomalyDetector.value := 95%Q |}.
Proof.
  destruct (AIAnomalyDetector.observe DetectorSpec.day_ten
              DetectorSpec.broken_scorer (DetectorSpec.sample_config 7 1)
              (10 * DetectorSpec.day) "cpu_usage" 95
              DetectorSpec.stale_detector) as [d' out] eqn:E.
  exists d'. split.
  - vm_compute in E. injection E as <- <-. reflexivity.
  - apply (observation_is_kept DetectorSpec.day_ten DetectorSpec.broken_scorer
             (DetectorSpec.sample_config 7 1) 7 _ _ _ _ _ _ eq_refl
             ltac:(lia) E).
Defined.

(** Retention 0, one sample required: the first observation leaves an empty
    window and reports nothing. *)
Lemma nonpositive_retention_is_silent_witness :
  AIAnomalyDetector.observe DetectorSpec.day_ten DetectorSpec.broken_scorer
    (DetectorSpec.sample_config 0 1) (10 * DetectorSpec.day) "cpu_usage" 95
    DetectorSpec.stale_detector
  = (DetectorSpec.updated 0 (10 * DetectorSpec.day) "cpu_usage" 95
       DetectorSpec.stale_detector, Ok None) /\
  DetectorSpec.window_of
    (DetectorSpec.updated 0 (10 * DetectorSpec.day) "cpu_usage" 95
       DetectorSpec.stale_detector) "cpu_usage" = [].
Proof.
  apply (nonpositive_retention_is_silent DetectorSpec.day_ten
           DetectorSpec.broken_scorer (DetectorSpec.sample_config 0 1) 0 1
           (10 * DetectorSpec.day) "cpu_usage" 95 DetectorSpec.stale_detector
           eq_refl eq_refl); try lia.
  - in_range.
  - repeat constructor. vm_compute. discriminate.
Defined.

(** With nothing configured, a call on a new detector raises and leaves the
    sample behind.  A retention of a million days, taken off day 10, lies
    before the year 1: the observation raises [OverflowError] and the
    sample of day 1 is still in the window, with the new one.  With the
    retention configured and no minimum, the sample of day 1 is evicted
    before the [KeyError]. *)
Lemma missing_setting_keeps_sample_witness :
  (exists d',
      AIAnomalyDetector.detect_anomalies DetectorSpec.day_ten
        DetectorSpec.sample_scorer DetectorSamples.unconfigured
        [("cpu_usage", 95%Q)] DetectorSpec.fresh_detector
      = (d', Err (KeyError "training_period_days")) /\
      length (DetectorSpec.window_of d' "cpu_usage") = 1%nat) /\
  (exists d' message,
      AIAnomalyDetector.observe DetectorSpec.day_ten
        DetectorSpec.sample_scorer (DetectorSpec.sample_config 1000000 1)
        (10 * DetectorSpec.day) "cpu_usage" 95 DetectorSpec.stale_detector
      = (d', Err (OverflowError message)) /\
      length (DetectorSpec.window_of d' "cpu_usage") = 2%nat) /\
  (exists d',
      AIAnomalyDetector.observe DetectorSpec.day_ten
        DetectorSpec.sample_scorer DetectorSamples.no_minimum
        (10 * DetectorSpec.day) "cpu_usage" 95 DetectorSpec.stale_detector
      = (d', Err (KeyError "minimum_datapoints")) /\
      length (DetectorSpec.window_of d' "cpu_usage") = 1%nat).
Proof.
  split; [| split].
  - eexists. split.
    + apply (proj1 (missing_setting_keeps_sample DetectorSpec.day_ten
                      DetectorSpec.sample_scorer DetectorSamples.unconfigured
                      0 "cpu_usage" 95 DetectorSpec.fresh_detector) eq_refl).
    + reflexivity.
  - destruct (proj1 (proj2 (missing_setting_keeps_sample DetectorSpec.day_ten
                      DetectorSpec.sample_scorer
                      (DetectorSpec.sample_config 1000000 1)
                      (10 * DetectorSpec.day) "cpu_usage" 95
                      DetectorSpec.stale_detector)) 1000000 eq_refl)
      as [message Hm].
    + in_range.
    + eexists _, message. split; [exact Hm | reflexivity].
  - eexists. split.
    + apply (proj2 (proj2 (missing_setting_keeps_sample DetectorSpec.day_ten
                      DetectorSpec.sample_scorer DetectorSamples.no_minimum
                      (10 * DetectorSpec.day) "cpu_usage" 95
                      DetectorSpec.stale_detector)) 7 eq_refl);
        [in_range | reflexivity].
    + reflexivity.
Defined.

(** ** Severity, confidence and suggested actions *)

Section SeverityAndActions.

Import AIAnomalyDetector DetectorSpec DetectorSamples.

(** X15.  Severity and confidence never disagree, both being read off the
    magnitude of the score: an anomaly is critical exactly when its
    confidence is above 80, high exactly when it is above 60 and at most
    80, medium exactly when it is above 40 and at most 60, and low exactly
    when it is at most 40. *)
Theorem severity_matches_confidence (s : Q) :
  (_calculate_severity s = "critical" <-> (80 < _calculate_confidence s)%Q) /\
  (_calculate_severity s = "high"
   <-> (60 < _calculate_confidence s <= 80)%Q) /\
  (_calculate_severity s = "medium"
   <-> (40 < _calculate_confidence s <= 60)%Q) /\
  (_calculate_severity s = "low" <-> (_calculate_confidence s <= 40)%Q).
Proof.
  unfold _calculate_confidence.
  destruct (severity_bands s) as [[B ->]|[[B ->]|[[B ->]|[B ->]]]];
    simpl in B;
    destruct (min_spec (Qabs s * 100) (999 # 10)) as [[M ->]|[M ->]];
    (split; [| split; [| split]]); (split; intros H);
    try discriminate H; try reflexivity; try lra.
Qed.

(** X16.  The escalation to the on-call team is suggested for critical
    anomalies and for no others, whatever the metric and its value; and no
    anomaly gets more than seven suggestions. *)
Theorem escalation_iff_critical (name : string) (v : Q) (severity : string) :
  (In escalation (_suggest_actions name v severity) <-> severity = "critical") /\
  (length (_suggest_actions name v severity) <= 7)%nat.
Proof.
  unfold _suggest_actions, escalation.
  destruct (String.eqb severity "critical") eqn:Ec.
  - apply String.eqb_eq in Ec. subst severity. split.
    + split; [reflexivity |]. intros _. apply in_or_app. right. simpl. auto.
    + destruct (String.eqb name "cpu_usage"), (String.eqb name "memory_usage"),
        (String.eqb name "error_rate"), (Py.gt v 90), (Py.lt v 10),
        (Py.gt v 85), (Py.gt v 5); simpl; lia.
  - apply String.eqb_neq in Ec.
    destruct (String.eqb severity "high"),
      (String.eqb name "cpu_usage"), (String.eqb name "memory_usage"),
      (String.eqb name "error_rate"), (Py.gt v 90), (Py.lt v 10),
      (Py.gt v 85), (Py.gt v 5); simpl;
      (split; [split; [intros H; exfalso; intuition discriminate
                      | intros H; contradiction]
              | lia]).
Qed.

End SeverityAndActions.

(** ** Dispatching and recording alerts *)

Section AlertDelivery.

Import AIAnomalyDetector AlertManager AlertSpec AlertSamples.

Variable clock : nat -> Z.
Variable config : Config.

Local Abbreviation should_alert := (_should_alert clock config).
Local Abbreviation create_alert := (_create_alert clock config).
Local Abbreviation send_alerts := (_send_alerts config).
Local Abbreviation process_anomaly := (process_anomaly clock config).
Local Abbreviation process_anomalies := (process_anomalies clock config).

Lemma recipients_cons name channel rest sev :
  recipients ((name, channel) :: rest) sev
  = match severity_levels_of channel with
    | Some levels =>
        if bool_decide (sev ∈ levels) then name :: recipients rest sev
        else recipients rest sev
    | None => recipients rest sev
    end.
Proof.
  unfold recipients. simpl.
  destruct (severity_levels_of channel) as [levels|]; [| reflexivity].
  destruct (bool_decide (sev ∈ levels)); reflexivity.
Qed.


Lemma appropriate_channels_Ok channels sev tasks :
  appropriate_channels channels sev = Ok tasks ->
  tasks = recipients channels sev.
Proof.
  revert tasks. induction channels as [|[name channel] rest IH]; intros tasks H.
  - simpl in H. now injection H as <-.
  - simpl in H. unfold _is_channel_appropriate in H. rewrite recipients_cons.
    destruct (severity_levels_of channel) as [levels|]; [| discriminate H].
    simpl in H.
    destruct (appropriate_channels rest sev) as [others|]; [| discriminate H].
    simpl in H. injection H as <-. now rewrite (IH others eq_refl).
Qed.


Lemma send_alerts_Ok a m m' :
  send_alerts a m = (m', Ok tt) ->
  exists channels,
    alert_channels config = Some channels /\
    m' = {| alert_history := alert_history m;
            clock_reads := clock_reads m;
            outbox := outbox m
                      ++ map (fun name => (name, a))
                           (recipients channels (alert_severity a)) |}.
Proof.
  unfold _send_alerts, bindM, lift, modify.
  destruct (alert_channels config) as [channels|]; simpl; [| discriminate].
  destruct (appropriate_channels channels (alert_severity a))
    as [tasks|e] eqn:Htasks; [| discriminate].
  intros [= <-]. apply appropriate_channels_Ok in Htasks. subst tasks.
  now exists channels.
Qed.


Lemma create_alert_fields anomaly m :
  forall text,
    _generate_alert_description config anomaly = Ok text ->
    create_alert anomaly m
    = (advance 2 m,
       Ok {| alert_id := clock (clock_reads m);
             alert_metric := metric anomaly;
             alert_value := current_value anomaly;
             alert_severity := severity anomaly;
             alert_confidence := confidence anomaly;
             alert_timestamp := clock (S (clock_reads m));
             description := text;
             actions := suggested_actions anomaly |}).
Proof.
  intros text Ht. unfold _create_alert, bindM, now, lift, ret. simpl.
  rewrite Ht. reflexivity.
Qed.

Lemma create_alert_error anomaly m e :
  _generate_alert_description config anomaly = Err e ->
  create_alert anomaly m = (advance 2 m, Err e).
Proof.
  intros He. unfold _create_alert, bindM, now, lift, ret. simpl.
  rewrite He. reflexivity.
Qed.

(** X18.  The default template is read before the template of the severity
    is looked up, so templates without a ['default'] entry block every
    alert: an anomaly that passes both conditions raises [KeyError] for
    ['default'], also when its own severity has a template, and it is
    neither sent nor recorded.  With a default, the description is the
    template of the severity when there is one and the default
    otherwise. *)
Theorem missing_default_template_blocks_alerts (anomaly : Anomaly)
    (templates : gmap string string) :
  notification_templates config = Some templates ->
  (templates !! "default" = None ->
   _generate_alert_description config anomaly = Err (KeyError "default") /\
   forall m m1,
     should_alert anomaly m = (m1, Ok true) ->
     exists m',
       process_anomaly anomaly m = (m', Err (KeyError "default")) /\
       alert_history m' = alert_history m /\ outbox m' = outbox m) /\
  (forall fallback,
      templates !! "default" = Some fallback ->
      _generate_alert_description config anomaly
      = Ok (default fallback (templates !! severity anomaly))).
Proof.
  intros Ht. split.
  - intros Hd.
    assert (_generate_alert_description config anomaly
            = Err (KeyError "default")) as Herr
      by (unfold _generate_alert_description, getitem; rewrite Ht; simpl;
          now rewrite Hd).
    split; [assumption |]. intros m m1 Hwant.
    unfold AlertManager.process_anomaly, bindM. rewrite Hwant.
    rewrite (create_alert_error _ _ _ Herr).
    destruct (should_alert_frame _ _ _ _ _ _ Hwant) as [Hh Ho].
    eexists. split; [reflexivity |]. simpl. auto.
  - intros fallback Hd. unfold _generate_alert_description, getitem.
    rewrite Ht. simpl. now rewrite Hd.
Qed.

Lemma process_anomaly_record (anomaly : Anomaly) (m m' : Manager)
    (out : result unit) :
  process_anomaly anomaly m = (m', out) ->
  alert_history m' <> alert_history m ->
  out = Ok tt /\
  exists channels text first_read,
    (exists m1, should_alert anomaly m = (m1, Ok true)) /\
    alert_channels config = Some channels /\
    let a := {| alert_id := clock first_read;
                alert_metric := metric anomaly;
                alert_value := current_value anomaly;
                alert_severity := severity anomaly;
                alert_confidence := confidence anomaly;
                alert_timestamp := clock (S first_read);
                description := text;
                actions := suggested_actions anomaly |} in
    alert_history m' = alert_history m ++ [a] /\
    outbox m' = outbox m
                ++ map (fun name => (name, a))
                     (recipients channels (severity anomaly)).
Proof.
  unfold AlertManager.process_anomaly, bindM. intros H Hchanged.
  destruct (should_alert anomaly m) as [m1 [[|]|e]] eqn:Hwant.
  - destruct (should_alert_frame _ _ _ _ _ _ Hwant) as [Hh1 Ho1].
    destruct (_generate_alert_description config anomaly) as [text|e] eqn:Ht.
    + rewrite (create_alert_fields _ _ _ Ht) in H.
      set (a := {| alert_id := clock (clock_reads m1);
                   alert_metric := metric anomaly |}) in H.
      destruct (send_alerts a (advance 2 m1)) as [m3 [[]|e]] eqn:Hsend.
      * unfold modify in H. injection H as <- <-.
        split; [reflexivity |].
        apply send_alerts_Ok in Hsend. destruct Hsend as (channels & Hc & ->).
        exists channels, text, (clock_reads m1).
        split; [eauto |]. split; [assumption |]. simpl. rewrite Hh1, Ho1. auto.
      * injection H as <- <-.
        destruct (send_alerts_frame _ _ _ _ _ Hsend) as (Hh3 & _).
        exfalso. apply Hchanged. rewrite Hh3. simpl. assumption.
    + rewrite (create_alert_error _ _ _ Ht) in H. injection H as <- <-.
      exfalso. apply Hchanged. simpl. assumption.
  - injection H as <- <-. exfalso. apply Hchanged.
    eapply should_alert_frame; eassumption.
  - injection H as <- <-. exfalso. apply Hchanged.
    eapply should_alert_frame; eassumption.
Qed.

(** X19.  An alert enters the history only after it was handed to every
    channel that lists its severity, and the call on the anomaly returned
    normally.  The alert carries the metric, value, severity, confidence
    and suggested actions of the anomaly, and is stamped with the second
    clock read of its creation. *)
Theorem recorded_alerts_were_dispatched (anomaly : Anomaly) (m m' : Manager)
    (out : result unit) :
  process_anomaly anomaly m = (m', out) ->
  alert_history m' <> alert_history m ->
  out = Ok tt /\
  exists channels text first_read,
    alert_channels config = Some channels /\
    let a := {| alert_id := clock first_read;
                alert_metric := metric anomaly;
                alert_value := current_value anomaly;
                alert_severity := severity anomaly;
                alert_confidence := confidence anomaly;
                alert_timestamp := clock (S first_read);
                description := text;
                actions := suggested_actions anomaly |} in
    alert_history m' = alert_history m ++ [a] /\
    outbox m' = outbox m
                ++ map (fun name => (name, a))
                     (recipients channels (severity anomaly)).
Proof.
  intros H Hchanged.
  destruct (process_anomaly_record _ _ _ _ H Hchanged)
    as (Hout & channels & text & first_read & _ & Hc & Hrest).
  split; [assumption |]. exists channels, text, first_read. auto.
Qed.

Lemma process_anomaly_changes (anomaly : Anomaly) (m m' : Manager)
    (out : result unit) :
  process_anomaly anomaly m = (m', out) ->
  alert_history m' = alert_history m \/ alert_history m' <> alert_history m.
Proof.
  unfold AlertManager.process_anomaly, bindM. intros H.
  destruct (should_alert anomaly m) as [m1 [[|]|e]] eqn:Hwant.
  - destruct (should_alert_frame _ _ _ _ _ _ Hwant) as [Hh1 Ho1].
    destruct (_generate_alert_description config anomaly) as [text|e] eqn:Ht.
    + rewrite (create_alert_fields _ _ _ Ht) in H.
      set (a := {| alert_id := clock (clock_reads m1);
                   alert_metric := metric anomaly |}) in H.
      destruct (send_alerts a (advance 2 m1)) as [m3 [[]|e]] eqn:Hsend.
      * unfold modify in H. injection H as <- <-. right.
        destruct (send_alerts_frame _ _ _ _ _ Hsend) as (Hh3 & _).
        simpl. rewrite Hh3. simpl. rewrite Hh1. intros Heq.
        apply (f_equal (@length _)) in Heq. rewrite length_app in Heq.
        simpl in Heq. lia.
      * injection H as <- <-. left.
        destruct (send_alerts_frame _ _ _ _ _ Hsend) as (Hh3 & _).
        rewrite Hh3. simpl. assumption.
    + rewrite (create_alert_error _ _ _ Ht) in H. injection H as <- <-.
      left. simpl. assumption.
  - injection H as <- <-. left. eapply should_alert_frame; eassumption.
  - injection H as <- <-. left. eapply should_alert_frame; eassumption.
Qed.

Section Cooldown.

Variable cooldown : Q.
Hypothesis Hcooldown : alert_cooldown config = Some cooldown.

Lemma same_metric_lookup anomaly (alerts : list Alert) a :
  a ∈ alerts -> alert_metric a = metric anomaly ->
  exists j, same_metric anomaly alerts !! j = Some a.
Proof.
  intros Hin Hm. apply list_elem_of_lookup. apply list_elem_of_In.
  unfold same_metric. apply filter_In. split; [now apply list_elem_of_In |].
  rewrite Hm. apply String.eqb_refl.
Qed.

(** While the clock reads of a run stay within the cooldown of each other,
    an alert stamped in the run keeps its metric quiet. *)
Lemma wanted_alert_is_first anomaly m m1 :
  reads_within clock cooldown ->
  should_alert anomaly m = (m1, Ok true) ->
  ~ alerted_in_run clock m (metric anomaly).
Proof.
  intros Hspan Hwant (a & Hin & Hm & r & Hr).
  destruct (should_alert_true _ _ _ _ _ Hwant) as [Hclear _].
  destruct (same_metric_lookup anomaly _ a Hin Hm) as [j Hj].
  destruct (Hclear j a Hj) as (c & Hc & Hage).
  assert (c = cooldown) as -> by congruence.
  unfold AlertSpec.age in Hage. rewrite Hr in Hage.
  pose proof (Hspan (clock_reads m + j)%nat r). lra.
Qed.

Lemma process_anomalies_distinct anomalies m m' out :
  reads_within clock cooldown ->
  process_anomalies anomalies m = (m', out) ->
  exists new,
    alert_history m' = alert_history m ++ new /\
    NoDup (map alert_metric new) /\
    Forall (fun a => stamped_by clock a
                     /\ ~ alerted_in_run clock m (alert_metric a)) new.
Proof.
  intros Hspan. revert m.
  induction anomalies as [|anomaly rest IH]; intros m H.
  - simpl in H. injection H as <- <-. exists []. rewrite app_nil_r.
    repeat split; constructor.
  - simpl in H. unfold bindM in H.
    destruct (process_anomaly anomaly m) as [m1 [[]|e]] eqn:Hstep.
    + destruct (IH _ H) as (new & Hnew & Hdup & Hall).
      destruct (process_anomaly_changes _ _ _ _ Hstep) as [Hsame | Hdiff].
      * exists new. rewrite Hnew, Hsame. split; [reflexivity |].
        split; [assumption |].
        eapply Forall_impl; [exact Hall |]. intros a [Hs Hq].
        split; [assumption |]. intros (b & Hb & Hrest). apply Hq.
        exists b. rewrite Hsame. auto.
      * destruct (process_anomaly_record _ _ _ _ Hstep Hdiff)
          as (_ & channels & text & r & (m0 & Hwant) & _ & Hh & _).
        cbv zeta in Hh.
        set (a := {| alert_id := clock r |}) in Hh.
        assert (stamped_by clock a) as Hstamp by (now exists (S r)).
        pose proof (wanted_alert_is_first _ _ _ Hspan Hwant) as Hfirst.
        exists (a :: new). rewrite Hnew, Hh, <- app_assoc.
        split; [reflexivity |]. split.
        -- simpl. constructor; [| assumption].
           intros Hin. apply list_elem_of_In, in_map_iff in Hin.
           destruct Hin as (b & Hb & Hbin). apply list_elem_of_In in Hbin.
           rewrite Forall_forall in Hall. destruct (Hall b Hbin) as [_ Hq].
           apply Hq. exists a. rewrite Hh. split; [| split].
           ++ apply elem_of_app. right. apply list_elem_of_here.
           ++ now rewrite Hb.
           ++ assumption.
        -- constructor; [split; assumption |].
           eapply Forall_impl; [exact Hall |]. intros b [Hs Hq].
           split; [assumption |]. intros (c & Hc & Hrest). apply Hq.
           exists c. rewrite Hh. split; [| assumption].
           apply elem_of_app. now left.
    + injection H as <- <-.
      destruct (process_anomaly_changes _ _ _ _ Hstep) as [Hsame | Hdiff].
      * exists []. rewrite app_nil_r. repeat split; [assumption | |]; constructor.
      * destruct (process_anomaly_record _ _ _ _ Hstep Hdiff) as (Hout & _).
        discriminate Hout.
Qed.

(** X20.  A batch raises at most one alert per metric.  If all clock reads
    of a call lie within the cooldown of each other, the alerts that
    [process_anomalies] adds to the history are for pairwise different
    metrics, however often a metric occurs among the anomalies, and none
    of them is for a metric that already has an alert stamped in the same
    run. *)
Theorem one_alert_per_metric_in_batch (anomalies : list Anomaly)
    (m m' : Manager) (out : result unit) :
  reads_within clock cooldown ->
  process_anomalies anomalies m = (m', out) ->
  exists new,
    alert_history m' = alert_history m ++ new /\
    NoDup (map alert_metric new) /\
    forall a, a ∈ new -> ~ alerted_in_run clock m (alert_metric a).
Proof.
  intros Hspan H.
  destruct (process_anomalies_distinct _ _ _ _ Hspan H)
    as (new & Hnew & Hdup & Hall).
  exists new. split; [assumption |]. split; [assumption |].
  intros a Ha. rewrite Forall_forall in Hall. now destruct (Hall a Ha).
Qed.


End Cooldown.

End AlertDelivery.


(** * Alert life cycle: [_update_alert_status], [resolve_alert],
      [get_active_alerts] *)

Section AlertLifecycleFacts.

Import AlertManager AlertLifecycle AlertSamples.

Variable clock : nat -> Z.

Lemma update_first_none wanted new_status t alerts :
  Forall (fun a => id_of a <> wanted) alerts ->
  update_first wanted new_status t alerts = None.
Proof.
  induction 1 as [|a rest Ha _ IH]; [reflexivity |].
  simpl. unfold id_of in Ha.
  destruct (Z.eqb_spec (alert_id (alert a)) wanted); [contradiction |].
  now rewrite IH.
Qed.

Lemma note_first_none wanted note t alerts :
  Forall (fun a => id_of a <> wanted) alerts ->
  note_first wanted note t alerts = None.
Proof.
  induction 1 as [|a rest Ha _ IH]; [reflexivity |].
  simpl. unfold id_of in Ha.
  destruct (Z.eqb_spec (alert_id (alert a)) wanted); [contradiction |].
  now rewrite IH.
Qed.

Lemma update_first_found wanted new_status t before a after :
  Forall (fun x => id_of x <> wanted) before ->
  id_of a = wanted ->
  update_first wanted new_status t (before ++ a :: after)
  = Some (before
          ++ {| alert := alert a; status := Some new_status;
                updated_at := Some t;
                resolution_note := resolution_note a;
                resolved_at := resolved_at a |} :: after).
Proof.
  intros Hbefore Ha.
  induction Hbefore as [|x rest Hx _ IH]; simpl.
  - unfold id_of in Ha. now rewrite (proj2 (Z.eqb_eq _ _) Ha).
  - unfold id_of in Hx.
    destruct (Z.eqb_spec (alert_id (alert x)) wanted); [contradiction |].
    now rewrite IH.
Qed.

Lemma note_first_found wanted note t before a after :
  Forall (fun x => id_of x <> wanted) before ->
  id_of a = wanted ->
  note_first wanted note t (before ++ a :: after)
  = Some (before
          ++ {| alert := alert a; status := status a;
                updated_at := updated_at a;
                resolution_note := Some note;
                resolved_at := Some t |} :: after).
Proof.
  intros Hbefore Ha.
  induction Hbefore as [|x rest Hx _ IH]; simpl.
  - unfold id_of in Ha. now rewrite (proj2 (Z.eqb_eq _ _) Ha).
  - unfold id_of in Hx.
    destruct (Z.eqb_spec (alert_id (alert x)) wanted); [contradiction |].
    now rewrite IH.
Qed.

(** The history splits at the first entry with a given id, or has none. *)
Lemma first_with_id wanted (alerts : list Tracked) :
  Forall (fun a => id_of a <> wanted) alerts
  \/ exists before a after,
       alerts = before ++ a :: after
       /\ Forall (fun x => id_of x <> wanted) before
       /\ id_of a = wanted.
Proof.
  induction alerts as [|x rest IH]; [left; constructor |].
  destruct (Z.eq_dec (id_of x) wanted) as [Hx | Hx].
  - right. exists [], x, rest. repeat split; [constructor | assumption].
  - destruct IH as [Hnone | (before & a & after & -> & Hb & Ha)].
    + left. now constructor.
    + right. exists (x :: before), a, after.
      repeat split; [now constructor | assumption].
Qed.

Lemma resolve_unknown_id (wanted : Z) (note : option string) (b : Book) :
  Forall (fun a => id_of a <> wanted) (entries b) ->
  resolve_alert clock wanted note b = b.
Proof.
  intros Hnone.
  assert (_update_alert_status clock wanted "resolved" b = b) as Hb.
  { unfold _update_alert_status. now rewrite update_first_none. }
  unfold resolve_alert. rewrite Hb.
  destruct note as [[|c text]|]; try reflexivity.
  now rewrite note_first_none.
Qed.

Lemma resolve_first_match (wanted : Z) (note : option string)
    (b : Book) (before after : list Tracked) (a : Tracked) :
  entries b = before ++ a :: after ->
  Forall (fun x => id_of x <> wanted) before ->
  id_of a = wanted ->
  resolve_alert clock wanted note b
  = {| entries :=
         before ++ resolved_entry clock (book_reads b) note a :: after;
       book_reads :=
         if truthy note then S (S (book_reads b)) else S (book_reads b) |}.
Proof.
  intros Hsplit Hbefore Ha.
  unfold resolve_alert, _update_alert_status.
  rewrite Hsplit, (update_first_found _ _ _ _ _ _ Hbefore Ha).
  destruct note as [[|c text]|]; try reflexivity.
  cbn [entries book_reads].
  now rewrite (note_first_found _ _ _ _ _ _ Hbefore).
Qed.

(** X22.  Resolving an id that no alert of the history carries does
    nothing at all: the history is unchanged, the clock is not read, and
    no error is raised, whatever the note. *)
Theorem resolve_unknown_id_is_silent (wanted : Z) (note : option string)
    (b : Book) :
  Forall (fun a => id_of a <> wanted) (entries b) ->
  resolve_alert clock wanted note b = b.
Proof. apply resolve_unknown_id. Qed.

(** X23.  [resolve_alert] changes exactly one entry, the first one with
    the id: it keeps the alert, sets the status to resolved and stamps
    [updated_at] with the first clock read.  The note and [resolved_at]
    (the second clock read) are stored only for a note that is given and
    not empty; otherwise they stay as they were, and the clock is read
    once.  Entries before and after it, also later ones with the same id,
    are untouched. *)
Theorem resolve_marks_first_match (wanted : Z) (note : option string)
    (b : Book) (before after : list Tracked) (a : Tracked) :
  entries b = before ++ a :: after ->
  Forall (fun x => id_of x <> wanted) before ->
  id_of a = wanted ->
  resolve_alert clock wanted note b
  = {| entries :=
         before ++ resolved_entry clock (book_reads b) note a :: after;
       book_reads :=
         if truthy note then S (S (book_reads b)) else S (book_reads b) |}.
Proof. apply resolve_first_match. Qed.

Lemma filter_other_ids wanted (alerts : list Tracked) :
  Forall (fun x => id_of x <> wanted) alerts ->
  List.filter (fun x => negb (id_of x =? wanted)%Z) alerts = alerts.
Proof.
  induction 1 as [|x rest Hx _ IH]; [reflexivity |].
  simpl. destruct (Z.eqb_spec (id_of x) wanted); [contradiction |].
  simpl. now rewrite IH.
Qed.

Lemma filter_filter_comm {A} (f g : A -> bool) (l : list A) :
  List.filter f (List.filter g l) = List.filter g (List.filter f l).
Proof.
  induction l as [|x l IH]; [reflexivity |].
  simpl. destruct (g x) eqn:Hg, (f x) eqn:Hf; simpl;
    rewrite ?Hg, ?Hf, IH; reflexivity.
Qed.

(** X24.  When the ids of the history are pairwise different, resolving
    an alert removes exactly that alert from the active list: the active
    alerts afterwards are the active alerts before without the one that
    has the id, in the same order. *)
Theorem resolved_alert_leaves_active_list (wanted : Z) (note : option string)
    (b : Book) :
  NoDup (map id_of (entries b)) ->
  get_active_alerts (resolve_alert clock wanted note b)
  = List.filter (fun a => negb (id_of a =? wanted)%Z) (get_active_alerts b).
Proof.
  intros Hdistinct.
  destruct (first_with_id wanted (entries b))
    as [Hnone | (before & a & after & Hsplit & Hbefore & Ha)].
  - rewrite (resolve_unknown_id _ _ _ Hnone).
    unfold get_active_alerts. rewrite filter_filter_comm.
    now rewrite filter_other_ids.
  - assert (Forall (fun x => id_of x <> wanted) after) as Hafter.
    { rewrite Hsplit, map_app in Hdistinct. simpl in Hdistinct.
      apply NoDup_app in Hdistinct. destruct Hdistinct as (_ & _ & Hd).
      apply NoDup_cons in Hd. destruct Hd as [Hd _].
      apply Forall_forall. intros x Hx Hid. apply Hd.
      rewrite Ha, <- Hid. apply list_elem_of_In, in_map.
      now apply list_elem_of_In. }
    rewrite (resolve_first_match _ _ _ _ _ _ Hsplit Hbefore Ha).
    unfold get_active_alerts. cbn [entries]. rewrite Hsplit.
    rewrite (filter_filter_comm _ _ (before ++ a :: after)).
    rewrite !List.filter_app. cbn [List.filter].
    rewrite (filter_other_ids _ _ Hbefore), (filter_other_ids _ _ Hafter).
    rewrite (proj2 (Z.eqb_eq _ _) Ha). simpl.
    reflexivity.
Qed.

(** X25.  Resolving never deletes, adds or reorders alerts: the alerts of
    the history are the same before and after, only their life-cycle
    fields change, and what was resolved before stays resolved. *)
Theorem resolve_keeps_history (wanted : Z) (note : option string) (b : Book) :
  map alert (entries (resolve_alert clock wanted note b))
  = map alert (entries b)
  /\ forall a, a ∈ get_active_alerts (resolve_alert clock wanted note b) ->
       a ∈ get_active_alerts b.
Proof.
  destruct (first_with_id wanted (entries b))
    as [Hnone | (before & a & after & Hsplit & Hbefore & Ha)].
  - rewrite (resolve_unknown_id _ _ _ Hnone). auto.
  - rewrite (resolve_first_match _ _ _ _ _ _ Hsplit Hbefore Ha).
    cbn [entries]. rewrite Hsplit, !map_app. split; [reflexivity |].
    intros x. unfold get_active_alerts. cbn [entries]. rewrite Hsplit.
    rewrite !List.filter_app, !elem_of_app. cbn [List.filter].
    intros [Hx | Hx]; [now left |]. right.
    simpl in Hx. destruct (negb _); [now apply list_elem_of_further |].
    assumption.
Qed.

End AlertLifecycleFacts.


(** * The theorems on alerts at sample inputs *)


(** Templates with a text for critical alerts but no default: a critical
    anomaly on a manager without history is wanted, raises for the
    default template, and leaves history and outbox empty. *)
Lemma missing_default_template_blocks_alerts_witness :
  exists m',
    AlertManager.process_anomaly AlertSpec.sample_clock
      AlertSamples.no_default_config
      (AlertSpec.sample_anomaly "cpu_usage" "critical")
      AlertSamples.empty_manager
    = (m', Py.Err (Py.KeyError "default")) /\
    AlertManager.alert_history m' = [] /\ AlertManager.outbox m' = [].
Proof.
  destruct (missing_default_template_blocks_alerts AlertSpec.sample_clock
              AlertSamples.no_default_config
              (AlertSpec.sample_anomaly "cpu_usage" "critical")
              {[ "critical" := "Critical anomaly detected" ]} eq_refl)
    as [Hblocked _].
  destruct (Hblocked eq_refl) as [_ Hrun].
  destruct (AlertManager._should_alert AlertSpec.sample_clock
              AlertSamples.no_default_config
              (AlertSpec.sample_anomaly "cpu_usage" "critical")
              AlertSamples.empty_manager) as [m1 wanted] eqn:E.
  assert (wanted = Py.Ok true) as ->
    by (vm_compute in E; now injection E as <- <-).
  exact (Hrun _ _ E).
Defined.

(** The sample manager alerted on cpu_usage; a critical memory_usage
    anomaly changes its history, so it was handed to email and slack
    first and the call returned normally. *)
Lemma recorded_alerts_were_dispatched_witness :
  snd (AlertManager.process_anomaly AlertSpec.sample_clock
         AlertSpec.sample_config
         (AlertSpec.sample_anomaly "memory_usage" "critical")
         AlertSpec.sample_manager)
  = Py.Ok tt.
Proof.
  destruct (AlertManager.process_anomaly AlertSpec.sample_clock
              AlertSpec.sample_config
              (AlertSpec.sample_anomaly "memory_usage" "critical")
              AlertSpec.sample_manager) as [m' out] eqn:E.
  assert (length (AlertManager.alert_history m') = 2%nat) as Hlen
    by (vm_compute in E; now injection E as <- <-).
  refine (proj1 (recorded_alerts_were_dispatched AlertSpec.sample_clock
                   AlertSpec.sample_config _ _ _ _ E _)).
  intros Heq. rewrite Heq in Hlen. discriminate Hlen.
Defined.

Lemma sample_clock_reads_within :
  AlertSamples.reads_within AlertSpec.sample_clock 300.
Proof. intros i j. reflexivity. Qed.

(** A batch with cpu_usage twice and memory_usage once, on a manager
    without history and a clock that stands still: the alerts added are
    for pairwise different metrics. *)
Lemma one_alert_per_metric_in_batch_witness :
  exists new,
    AlertManager.alert_history
      (fst (AlertManager.process_anomalies AlertSpec.sample_clock
              AlertSpec.sample_config
              [ AlertSpec.sample_anomaly "cpu_usage" "critical";
                AlertSpec.sample_anomaly "memory_usage" "high";
                AlertSpec.sample_anomaly "cpu_usage" "high" ]
              AlertSamples.empty_manager))
    = new /\
    NoDup (map AlertManager.alert_metric new).
Proof.
  destruct (AlertManager.process_anomalies AlertSpec.sample_clock
              AlertSpec.sample_config
              [ AlertSpec.sample_anomaly "cpu_usage" "critical";
                AlertSpec.sample_anomaly "memory_usage" "high";
                AlertSpec.sample_anomaly "cpu_usage" "high" ]
              AlertSamples.empty_manager) as [m' out] eqn:E.
  destruct (one_alert_per_metric_in_batch AlertSpec.sample_clock
              AlertSpec.sample_config 300 eq_refl _ _ _ _
              sample_clock_reads_within E) as (new & Hnew & Hdup & _).
  exists new. split; assumption.
Defined.


(** The sample book has no alert with id 5: resolving it changes
    nothing. *)
Lemma resolve_unknown_id_is_silent_witness :
  AlertLifecycle.resolve_alert AlertSpec.sample_clock 5 (Some "fixed")
    AlertSamples.sample_book
  = AlertSamples.sample_book.
Proof.
  apply resolve_unknown_id_is_silent.
  repeat constructor; vm_compute; discriminate.
Defined.

(** The first and the third alert of the sample book share an id.
    Resolving that id with a note marks the first and leaves the third
    active. *)
Lemma resolve_marks_first_match_witness :
  map AlertLifecycle.status
    (AlertLifecycle.entries
       (AlertLifecycle.resolve_alert AlertSpec.sample_clock 1000000
          (Some "fixed") AlertSamples.sample_book))
  = [Some "resolved"; None; None].
Proof.
  rewrite (resolve_marks_first_match AlertSpec.sample_clock 1000000
             (Some "fixed") AlertSamples.sample_book []
             [ AlertLifecycle.recorded (AlertSpec.sample_alert "memory_usage" 2);
               AlertLifecycle.recorded (AlertSpec.sample_alert "error_rate" 1) ]
             (AlertLifecycle.recorded (AlertSpec.sample_alert "cpu_usage" 1))
             eq_refl (List.Forall_nil _) eq_refl).
  reflexivity.
Defined.

(** A book of two alerts with different ids: after resolving the first,
    the second is the one active alert. *)
Lemma resolved_alert_leaves_active_list_witness :
  AlertLifecycle.get_active_alerts
    (AlertLifecycle.resolve_alert AlertSpec.sample_clock 1000000 None
       {| AlertLifecycle.entries :=
            [ AlertLifecycle.recorded (AlertSpec.sample_alert "cpu_usage" 1);
              AlertLifecycle.recorded
                (AlertSpec.sample_alert "memory_usage" 2) ];
          AlertLifecycle.book_reads := 0 |})
  = [ AlertLifecycle.recorded (AlertSpec.sample_alert "memory_usage" 2) ].
Proof.
  rewrite resolved_alert_leaves_active_list; [reflexivity |].
  apply NoDup_cons. split; [| apply NoDup_cons; split; [| apply NoDup_nil_2]].
  - intros H. apply list_elem_of_singleton in H. discriminate H.
  - intros H. inversion H.
Defined.
